(** * Last Trick (tikki): the game-state machine and the AI of js/game.js and js/ai.js

    A shallow embedding of the [Card], [Deck], [GameState] and [AI] classes,
    followed by the properties of the specification that concern them.

    Conventions of the embedding.
    - The only [new Card(suit, rank)] of the program is in [Deck.initialize],
      over the two literal arrays of suits and ranks, so a suit and a rank are
      enumerations here.
    - The player tags are the strings ['player'] and ['ai']; a field that can
      also hold [null] is an [option].
    - A JavaScript number that the program only counts with (scores, trick
      number, card values) is a [Z]; the program never leaves the range in
      which a double is an exact integer.
    - A method whose body can raise a [TypeError] (a property read on [null],
      [reduce] of an empty array without initial value) returns in [js]. *)

From stdpp Require Import gmap strings list.
From Stdlib Require Import ZArith Lia Ascii.

Local Open Scope Z_scope.

(** ** JavaScript results *)

Inductive js (A : Type) : Type :=
| Ok (a : A)
| TypeError.
Arguments Ok {A} a.
Arguments TypeError {A}.

Definition js_bind {A B} (m : js A) (k : A → js B) : js B :=
  match m with
  | Ok a => k a
  | TypeError => TypeError
  end.

Notation "'let*' x ':=' m 'in' k" := (js_bind m (λ x, k))
  (at level 10, x pattern, m at level 100, k at level 200, only parsing).

(** ** Cards *)

Inductive Suit : Type := clubs | diamonds | hearts | spades.

Inductive Rank : Type :=
| r2 | r3 | r4 | r5 | r6 | r7 | r8 | r9 | r10 | jack | queen | king | ace.

Inductive Player : Type := player | ai.

#[global] Instance Suit_eq_dec : EqDecision Suit.
Proof. solve_decision. Defined.
#[global] Instance Rank_eq_dec : EqDecision Rank.
Proof. solve_decision. Defined.
#[global] Instance Player_eq_dec : EqDecision Player.
Proof. solve_decision. Defined.

Definition Suit_to_nat (s : Suit) : nat :=
  match s with clubs => 0 | diamonds => 1 | hearts => 2 | spades => 3 end%nat.
Definition Suit_of_nat (n : nat) : option Suit :=
  match n with
  | 0 => Some clubs | 1 => Some diamonds | 2 => Some hearts | 3 => Some spades
  | _ => None
  end%nat.
#[global] Instance Suit_countable : Countable Suit.
Proof.
  refine (inj_countable Suit_to_nat Suit_of_nat _).
  by intros [].
Defined.

Record Card : Type := mkCard { suit : Suit; rank : Rank }.

#[global] Instance Card_eq_dec : EqDecision Card.
Proof. solve_decision. Defined.

(** [Card.getValue]: the lookup in the table of values. *)
Definition getValue (c : Card) : Z :=
  match rank c with
  | r2 => 2 | r3 => 3 | r4 => 4 | r5 => 5 | r6 => 6 | r7 => 7 | r8 => 8
  | r9 => 9 | r10 => 10
  | jack => 11 | queen => 12 | king => 13 | ace => 14
  end.

(** ** Deck *)

Record Deck : Type := mkDeck { cards : list Card; deck_soundEnabled : bool }.

Definition suits : list Suit := [clubs; diamonds; hearts; spades].
Definition ranks : list Rank :=
  [r2; r3; r4; r5; r6; r7; r8; r9; r10; jack; queen; king; ace].

(** [Deck.initialize]: the two nested loops, suits outside. *)
Definition initialize (d : Deck) : Deck :=
  {| cards := s ← suits; (λ r, mkCard s r) <$> ranks;
     deck_soundEnabled := deck_soundEnabled d |}.

(** [[a[i], a[j]] = [a[j], a[i]]]: both reads, then the two writes in order. *)
Definition swap (i j : nat) (l : list Card) : list Card :=
  match l !! i, l !! j with
  | Some a, Some b => <[j := a]> (<[i := b]> l)
  | _, _ => l
  end.

(** The loop of [Deck.shuffle] from index [i] down to 1.  [rnd i] stands for
    the draw [Math.floor(Math.random() * (i + 1))] made at index [i]; it lies
    in [0 .. i], which the remainder enforces on an arbitrary oracle. *)
Fixpoint shuffle_from (rnd : nat → nat) (i : nat) (l : list Card) : list Card :=
  match i with
  | O => l
  | S i' => shuffle_from rnd i' (swap i (rnd i mod (S i)) l)
  end.

Definition shuffle (rnd : nat → nat) (d : Deck) : Deck :=
  {| cards := shuffle_from rnd (length (cards d) - 1) (cards d);
     deck_soundEnabled := deck_soundEnabled d |}.

(** [Deck.deal(count)] is [this.cards.splice(0, count)]: the cards removed
    and the deck that is left. *)
Definition deal (count : nat) (d : Deck) : list Card * Deck :=
  (take count (cards d),
   {| cards := drop count (cards d); deck_soundEnabled := deck_soundEnabled d |}).

(** ** Game state *)

Module Trick.
Record t : Type := mk {
  trickNumber : Z;
  leadCard : Card;
  followCard : Card;
  leadPlayer : option Player;
  winner : option Player
}.
End Trick.

(** The numbers that [parseInt] can install in [scoreGoal]. *)
Inductive number : Type := NaN | Num (z : Z).

Record GameState : Type := mkGameState {
  deck : Deck;
  playerHand : list Card;
  aiHand : list Card;
  playerScore : Z;
  aiScore : Z;
  scoreGoal : number;
  currentTrick : Z;
  leadCard : option Card;
  followCard : option Card;
  leadPlayer : option Player;
  currentPlayer : option Player;
  playedCards : list (Card * Player);
  trickHistory : list Trick.t;
  gameActive : bool;
  roundActive : bool;
  aiDifficulty : string;
  selectedCardBack : string;
  soundEnabled : option bool
}.

(** Field assignments [this.f = v]: every other field keeps its value. *)
Definition set_deck (v : Deck) (g : GameState) : GameState :=
  mkGameState v (playerHand g) (aiHand g) (playerScore g) (aiScore g)
    (scoreGoal g) (currentTrick g) (leadCard g) (followCard g) (leadPlayer g)
    (currentPlayer g) (playedCards g) (trickHistory g) (gameActive g)
    (roundActive g) (aiDifficulty g) (selectedCardBack g) (soundEnabled g).
Definition set_playerHand (v : list Card) (g : GameState) : GameState :=
  mkGameState (deck g) v (aiHand g) (playerScore g) (aiScore g) (scoreGoal g)
    (currentTrick g) (leadCard g) (followCard g) (leadPlayer g)
    (currentPlayer g) (playedCards g) (trickHistory g) (gameActive g)
    (roundActive g) (aiDifficulty g) (selectedCardBack g) (soundEnabled g).
Definition set_aiHand (v : list Card) (g : GameState) : GameState :=
  mkGameState (deck g) (playerHand g) v (playerScore g) (aiScore g)
    (scoreGoal g) (currentTrick g) (leadCard g) (followCard g) (leadPlayer g)
    (currentPlayer g) (playedCards g) (trickHistory g) (gameActive g)
    (roundActive g) (aiDifficulty g) (selectedCardBack g) (soundEnabled g).
Definition set_playerScore (v : Z) (g : GameState) : GameState :=
  mkGameState (deck g) (playerHand g) (aiHand g) v (aiScore g) (scoreGoal g)
    (currentTrick g) (leadCard g) (followCard g) (leadPlayer g)
    (currentPlayer g) (playedCards g) (trickHistory g) (gameActive g)
    (roundActive g) (aiDifficulty g) (selectedCardBack g) (soundEnabled g).
Definition set_aiScore (v : Z) (g : GameState) : GameState :=
  mkGameState (deck g) (playerHand g) (aiHand g) (playerScore g) v
    (scoreGoal g) (currentTrick g) (leadCard g) (followCard g) (leadPlayer g)
    (currentPlayer g) (playedCards g) (trickHistory g) (gameActive g)
    (roundActive g) (aiDifficulty g) (selectedCardBack g) (soundEnabled g).
Definition set_scoreGoal (v : number) (g : GameState) : GameState :=
  mkGameState (deck g) (playerHand g) (aiHand g) (playerScore g) (aiScore g) v
    (currentTrick g) (leadCard g) (followCard g) (leadPlayer g)
    (currentPlayer g) (playedCards g) (trickHistory g) (gameActive g)
    (roundActive g) (aiDifficulty g) (selectedCardBack g) (soundEnabled g).
Definition set_currentTrick (v : Z) (g : GameState) : GameState :=
  mkGameState (deck g) (playerHand g) (aiHand g) (playerScore g) (aiScore g)
    (scoreGoal g) v (leadCard g) (followCard g) (leadPlayer g)
    (currentPlayer g) (playedCards g) (trickHistory g) (gameActive g)
    (roundActive g) (aiDifficulty g) (selectedCardBack g) (soundEnabled g).
Definition set_leadCard (v : option Card) (g : GameState) : GameState :=
  mkGameState (deck g) (playerHand g) (aiHand g) (playerScore g) (aiScore g)
    (scoreGoal g) (currentTrick g) v (followCard g) (leadPlayer g)
    (currentPlayer g) (playedCards g) (trickHistory g) (gameActive g)
    (roundActive g) (aiDifficulty g) (selectedCardBack g) (soundEnabled g).
Definition set_followCard (v : option Card) (g : GameState) : GameState :=
  mkGameState (deck g) (playerHand g) (aiHand g) (playerScore g) (aiScore g)
    (scoreGoal g) (currentTrick g) (leadCard g) v (leadPlayer g)
    (currentPlayer g) (playedCards g) (trickHistory g) (gameActive g)
    (roundActive g) (aiDifficulty g) (selectedCardBack g) (soundEnabled g).
Definition set_leadPlayer (v : option Player) (g : GameState) : GameState :=
  mkGameState (deck g) (playerHand g) (aiHand g) (playerScore g) (aiScore g)
    (scoreGoal g) (currentTrick g) (leadCard g) (followCard g) v
    (currentPlayer g) (playedCards g) (trickHistory g) (gameActive g)
    (roundActive g) (aiDifficulty g) (selectedCardBack g) (soundEnabled g).
Definition set_currentPlayer (v : option Player) (g : GameState) : GameState :=
  mkGameState (deck g) (playerHand g) (aiHand g) (playerScore g) (aiScore g)
    (scoreGoal g) (currentTrick g) (leadCard g) (followCard g) (leadPlayer g)
    v (playedCards g) (trickHistory g) (gameActive g) (roundActive g)
    (aiDifficulty g) (selectedCardBack g) (soundEnabled g).
Definition set_playedCards (v : list (Card * Player)) (g : GameState) : GameState :=
  mkGameState (deck g) (playerHand g) (aiHand g) (playerScore g) (aiScore g)
    (scoreGoal g) (currentTrick g) (leadCard g) (followCard g) (leadPlayer g)
    (currentPlayer g) v (trickHistory g) (gameActive g) (roundActive g)
    (aiDifficulty g) (selectedCardBack g) (soundEnabled g).
Definition set_trickHistory (v : list Trick.t) (g : GameState) : GameState :=
  mkGameState (deck g) (playerHand g) (aiHand g) (playerScore g) (aiScore g)
    (scoreGoal g) (currentTrick g) (leadCard g) (followCard g) (leadPlayer g)
    (currentPlayer g) (playedCards g) v (gameActive g) (roundActive g)
    (aiDifficulty g) (selectedCardBack g) (soundEnabled g).
Definition set_gameActive (v : bool) (g : GameState) : GameState :=
  mkGameState (deck g) (playerHand g) (aiHand g) (playerScore g) (aiScore g)
    (scoreGoal g) (currentTrick g) (leadCard g) (followCard g) (leadPlayer g)
    (currentPlayer g) (playedCards g) (trickHistory g) v (roundActive g)
    (aiDifficulty g) (selectedCardBack g) (soundEnabled g).
Definition set_roundActive (v : bool) (g : GameState) : GameState :=
  mkGameState (deck g) (playerHand g) (aiHand g) (playerScore g) (aiScore g)
    (scoreGoal g) (currentTrick g) (leadCard g) (followCard g) (leadPlayer g)
    (currentPlayer g) (playedCards g) (trickHistory g) (gameActive g) v
    (aiDifficulty g) (selectedCardBack g) (soundEnabled g).
Definition set_aiDifficulty (v : string) (g : GameState) : GameState :=
  mkGameState (deck g) (playerHand g) (aiHand g) (playerScore g) (aiScore g)
    (scoreGoal g) (currentTrick g) (leadCard g) (followCard g) (leadPlayer g)
    (currentPlayer g) (playedCards g) (trickHistory g) (gameActive g)
    (roundActive g) v (selectedCardBack g) (soundEnabled g).
Definition set_selectedCardBack (v : string) (g : GameState) : GameState :=
  mkGameState (deck g) (playerHand g) (aiHand g) (playerScore g) (aiScore g)
    (scoreGoal g) (currentTrick g) (leadCard g) (followCard g) (leadPlayer g)
    (currentPlayer g) (playedCards g) (trickHistory g) (gameActive g)
    (roundActive g) (aiDifficulty g) v (soundEnabled g).
Definition set_soundEnabled (v : option bool) (g : GameState) : GameState :=
  mkGameState (deck g) (playerHand g) (aiHand g) (playerScore g) (aiScore g)
    (scoreGoal g) (currentTrick g) (leadCard g) (followCard g) (leadPlayer g)
    (currentPlayer g) (playedCards g) (trickHistory g) (gameActive g)
    (roundActive g) (aiDifficulty g) (selectedCardBack g) v.

(** [player === 'player' ? this.playerHand : this.aiHand] *)
Definition hand (p : Player) (g : GameState) : list Card :=
  match p with player => playerHand g | ai => aiHand g end.

Definition set_hand (p : Player) (v : list Card) (g : GameState) : GameState :=
  match p with player => set_playerHand v g | ai => set_aiHand v g end.

(** [player === 'player' ? 'ai' : 'player'] *)
Definition other (p : Player) : Player :=
  match p with player => ai | ai => player end.

Definition score (p : Player) (g : GameState) : Z :=
  match p with player => playerScore g | ai => aiScore g end.

(** ** The constructors *)

(** [new Deck()] *)
Definition Deck_new : Deck :=
  initialize {| cards := []; deck_soundEnabled := true |}.

(** The fields of [new GameState()] before [loadSettings] runs.
    [soundEnabled] is no field of a fresh [GameState] (the constructor of
    [Deck] sets the deck's), so it reads [undefined]. *)
Definition GameState_fields : GameState :=
  {| deck := Deck_new; playerHand := []; aiHand := [];
     playerScore := 0; aiScore := 0; scoreGoal := Num 5;
     currentTrick := 0; leadCard := None; followCard := None;
     leadPlayer := None; currentPlayer := None;
     playedCards := []; trickHistory := [];
     gameActive := false; roundActive := false;
     aiDifficulty := "medium"; selectedCardBack := "blue.svg";
     soundEnabled := None |}.

(** ** Rounds *)

(** [GameState.startNewRound] *)
Definition startNewRound (rnd : nat → nat) (g : GameState) : GameState :=
  let d := shuffle rnd (initialize (deck g)) in
  let '(ph, d) := deal 5 d in
  let '(ah, d) := deal 5 d in
  let g := set_aiHand ah (set_playerHand ph (set_deck d g)) in
  let g := set_currentTrick 1 g in
  let g := set_leadCard None g in
  let g := set_followCard None g in
  let g := set_playedCards [] g in
  let g := set_trickHistory [] g in
  let g := set_leadPlayer (Some player) g in
  let g := set_currentPlayer (Some player) g in
  let g := set_gameActive true g in
  set_roundActive true g.

(** [GameState.startNewMatch] *)
Definition startNewMatch (rnd : nat → nat) (g : GameState) : GameState :=
  startNewRound rnd (set_aiScore 0 (set_playerScore 0 g)).

(** [GameState.redealHand] *)
Definition redealHand (p : Player) (g : GameState) : GameState :=
  let '(h, d) := deal 5 (deck g) in
  set_hand p h (set_deck d g).

(** [GameState.resetScores] *)
Definition resetScores (g : GameState) : GameState :=
  set_aiScore 0 (set_playerScore 0 g).

(** ** Playing a card *)

(** [GameState.canPlayCard] *)
Definition canPlayCard (card : Card) (p : Player) (g : GameState) : bool :=
  if bool_decide (currentPlayer g ≠ Some p) then false
  else match leadCard g with
       | None => true
       | Some l =>
           let hasSuit := existsb (λ c, bool_decide (suit c = suit l)) (hand p g) in
           if hasSuit then bool_decide (suit card = suit l) else true
       end.

(** [Array.prototype.findIndex]: the first index whose element passes the
    test, and -1 when there is none. *)
Definition findIndex (P : Card → Prop) `{!∀ c, Decision (P c)} (l : list Card) : Z :=
  match list_find P l with
  | Some (i, _) => Z.of_nat i
  | None => -1
  end.

(** [a.splice(index, 1)] on the array itself. *)
Definition splice1 (index : Z) (l : list Card) : list Card :=
  delete (Z.to_nat index) l.

Inductive TrickResult : Type := game_over | trick_complete.

(** [GameState.evaluateTrick].  The reads [this.leadCard.suit] and
    [this.followCard.suit] raise on [null]. *)
Definition evaluateTrick (g : GameState) : js (TrickResult * GameState) :=
  match leadCard g with
  | None => TypeError
  | Some l =>
      let leadSuit := suit l in
      match followCard g with
      | None => TypeError
      | Some f =>
          let winner :=
            if bool_decide (suit f = leadSuit) then
              if getValue l >? getValue f then leadPlayer g
              else if bool_decide (leadPlayer g = Some player) then Some ai
                   else Some player
            else leadPlayer g in
          let g := set_trickHistory
                     (trickHistory g ++
                        [Trick.mk (currentTrick g) l f (leadPlayer g) winner]) g in
          if bool_decide (currentTrick g = 5) then
            let g := if bool_decide (winner = Some player)
                     then set_playerScore (playerScore g + 1) g
                     else set_aiScore (aiScore g + 1) g in
            Ok (game_over, set_gameActive false g)
          else
            let g := set_leadPlayer winner g in
            let g := set_currentPlayer winner g in
            Ok (trick_complete, set_currentTrick (currentTrick g + 1) g)
      end
  end.

(** [GameState.playCard] *)
Definition playCard (card : Card) (p : Player) (g : GameState) : js (bool * GameState) :=
  if negb (canPlayCard card p g) then Ok (false, g)
  else
    let index :=
      findIndex (λ c, suit c = suit card ∧ rank c = rank card) (hand p g) in
    let g := if bool_decide (index ≠ -1)
             then set_hand p (splice1 index (hand p g)) g else g in
    match leadCard g with
    | None =>
        let g := set_leadCard (Some card) g in
        let g := set_leadPlayer (Some p) g in
        let g := set_playedCards (playedCards g ++ [(card, p)]) g in
        Ok (true, set_currentPlayer (Some (other p)) g)
    | Some _ =>
        let g := set_followCard (Some card) g in
        let g := set_playedCards (playedCards g ++ [(card, p)]) g in
        let* (_, g) := evaluateTrick g in
        Ok (true, g)
    end.

(** [GameState.clearTrick] *)
Definition clearTrick (g : GameState) : GameState :=
  set_playedCards [] (set_followCard None (set_leadCard None g)).

(** [GameState.getValidCards] *)
Definition getValidCards (p : Player) (g : GameState) : list Card :=
  let hand := hand p g in
  match leadCard g with
  | None => hand
  | Some l =>
      let sameSuit := filter (λ c, suit c = suit l) hand in
      if bool_decide (0 < length sameSuit)%nat then sameSuit else hand
  end.

(** ** Redeal *)

(** The value of [Math.max(...values)]: [-Infinity] for no argument. *)
Inductive maxval : Type := NegInfinity | Fin (z : Z).

Definition Math_max (values : list Z) : maxval :=
  foldl (λ m v, match m with
                | NegInfinity => Fin v
                | Fin a => Fin (Z.max a v)
                end) NegInfinity values.

(** [m <= z] on numbers, [-Infinity] being below every integer. *)
Definition maxval_leb (m : maxval) (z : Z) : bool :=
  match m with
  | NegInfinity => true
  | Fin a => a <=? z
  end.

(** [GameState.handQualifiesForRedeal] *)
Definition handQualifiesForRedeal (hand : list Card) : bool :=
  let highestValue := Math_max (getValue <$> hand) in
  maxval_leb highestValue 9.

(** ** Settings *)

(** [localStorage] is a map from keys to strings; [getItem] of a key that is
    not stored is [null].  A stored string is taken with its ASCII
    characters. *)

(** White space that [parseInt] skips: TAB, LF, VT, FF, CR and the space. *)
Definition isWhiteSpace (a : ascii) : bool :=
  let n := nat_of_ascii a in
  ((9 <=? n) && (n <=? 13) || (n =? 32))%nat.

Fixpoint trimStart (s : string) : string :=
  match s with
  | String a s' => if isWhiteSpace a then trimStart s' else s
  | EmptyString => s
  end.

(** The value of a character as a digit: 0-9, a-z and A-Z count 0 to 35. *)
Definition digitValue (a : ascii) : option Z :=
  let n := Z.of_nat (nat_of_ascii a) in
  if (48 <=? n) && (n <=? 57) then Some (n - 48)
  else if (97 <=? n) && (n <=? 122) then Some (n - 87)
  else if (65 <=? n) && (n <=? 90) then Some (n - 55)
  else None.

(** The longest prefix of digits of radix [R], read as an integer; [None]
    when that prefix is empty. *)
Fixpoint parseDigits (R : Z) (s : string) (acc : option Z) : option Z :=
  match s with
  | String a s' =>
      match digitValue a with
      | Some d =>
          if d <? R then parseDigits R s' (Some (default 0 acc * R + d)) else acc
      | None => acc
      end
  | EmptyString => acc
  end.

(** [parseInt(string)] without a radix: leading white space, a sign, the
    prefix [0x] or [0X] for radix 16, then digits; [NaN] when no digit
    follows.  The result is exact below 2^53, and [-0] is [Num 0].
    The white space is that of ASCII, and the number is the integer that the
    digits denote: on a string of ASCII characters whose integer is below
    2^53 in absolute value this is what JavaScript returns; beyond, JavaScript
    rounds to a double.  The properties of stored numerals below assume such
    a string ([exactNumeral]). *)
Definition parseInt (s : string) : number :=
  let str := trimStart s in
  let '(sign, str) :=
    match str with
    | String "-" r => (-1, r)
    | String "+" r => (1, r)
    | _ => (1, str)
    end in
  let '(R, str) :=
    match str with
    | String "0" (String "x" r) => (16, r)
    | String "0" (String "X" r) => (16, r)
    | _ => (10, str)
    end in
  match parseDigits R str None with
  | None => NaN
  | Some m => Num (sign * m)
  end.

(** [if (v)] on a string: the empty string is falsy, as [null] is. *)
Definition truthy (v : string) : bool := bool_decide (v ≠ EmptyString).

(** [GameState.loadSettings] *)
Definition loadSettings (localStorage : gmap string string) (g : GameState) : GameState :=
  let savedDifficulty := localStorage !! "aiDifficulty" in
  let savedCardBack := localStorage !! "cardBack" in
  let savedGoal := localStorage !! "scoreGoal" in
  let g := match savedDifficulty with
           | Some v => if truthy v then set_aiDifficulty v g else g
           | None => g
           end in
  let g := match savedCardBack with
           | Some v => if truthy v then set_selectedCardBack v g else g
           | None => g
           end in
  let g := match savedGoal with
           | Some v => if truthy v then set_scoreGoal (parseInt v) g else g
           | None => g
           end in
  let savedSound := localStorage !! "soundEnabled" in
  match savedSound with
  | Some v => set_soundEnabled (Some (bool_decide (v = "true"))) g
  | None => g
  end.

(** [new GameState()] *)
Definition GameState_new (localStorage : gmap string string) : GameState :=
  loadSettings localStorage GameState_fields.

(** ** The computer opponent (js/ai.js) *)

(** [Array.prototype.sort(compare)] is stable: an element goes after the
    elements that do not compare greater than it. *)
Fixpoint insert_sorted {A} (compare : A → A → Z) (x : A) (l : list A) : list A :=
  match l with
  | [] => [x]
  | y :: l' => if compare x y <? 0 then x :: l
               else y :: insert_sorted compare x l'
  end.

Definition sort {A} (compare : A → A → Z) (l : list A) : list A :=
  foldl (λ sorted x, insert_sorted compare x sorted) [] l.

(** A method that returns a card, read by a caller that may also get
    [undefined]. *)
Definition defined {A} (m : js A) : js (option A) :=
  let* a := m in Ok (Some a).

Module AI.

(** The fields of an [AI] next to its [game]. *)
Record t : Type := mk {
  playedCards : list Card;
  opponentVoidSuits : gset Suit
}.

(** [new AI(gameState)] *)
Definition new : t := {| playedCards := []; opponentVoidSuits := ∅ |}.

(** [cards.reduce((lowest, card) => ...)] without initial value. *)
Definition getLowestCard (cards : list Card) : js Card :=
  match cards with
  | [] => TypeError
  | first :: rest =>
      Ok (foldl (λ lowest card,
                   if getValue card <? getValue lowest then card else lowest)
            first rest)
  end.

Definition getHighestCard (cards : list Card) : js Card :=
  match cards with
  | [] => TypeError
  | first :: rest =>
      Ok (foldl (λ highest card,
                   if getValue card >? getValue highest then card else highest)
            first rest)
  end.

(** [groupBySuit]: the object keyed by suit, its keys in insertion order. *)
Definition groupBySuit (cards : list Card) : list (Suit * list Card) :=
  foldl (λ bySuit card,
           if existsb (λ e, bool_decide (e.1 = suit card)) bySuit
           then (λ e, if bool_decide (e.1 = suit card)
                      then (e.1, e.2 ++ [card]) else e) <$> bySuit
           else bySuit ++ [(suit card, [card])])
    [] cards.

(** [bySuit[suit]] *)
Definition group (bySuit : list (Suit * list Card)) (s : Suit) : option (list Card) :=
  (λ found, found.2.2) <$> list_find (λ e, e.1 = s) bySuit.

(** [updateOpponentVoids] *)
Definition updateOpponentVoids (g : GameState) (a : t) : t :=
  {| playedCards := playedCards a;
     opponentVoidSuits :=
       foldl (λ voids trick,
                if bool_decide (Trick.leadPlayer trick = Some ai) then
                  if bool_decide (suit (Trick.followCard trick)
                                  ≠ suit (Trick.leadCard trick))
                  then voids ∪ {[ suit (Trick.leadCard trick) ]}
                  else voids
                else voids)
         ∅ (trickHistory g) |}.

(** [updatePlayedCards] *)
Definition updatePlayedCards (g : GameState) (a : t) : t :=
  {| playedCards :=
       (trick ← trickHistory g;
        [Trick.leadCard trick; Trick.followCard trick])
       ++ match leadCard g with Some l => [l] | None => [] end;
     opponentVoidSuits := opponentVoidSuits a |}.

Definition higherPlayed (a : t) (card : Card) : Z :=
  Z.of_nat (length (filter (λ c, suit c = suit card ∧ getValue c > getValue card)
                      (playedCards a))).

(** [calculateWinProbability] *)
Definition calculateWinProbability (a : t) (card : Card) : Z :=
  let score := getValue card in
  let score := score + higherPlayed a card * 3 in
  let score := if bool_decide (suit card ∈ opponentVoidSuits a)
               then score + 20 else score in
  let score := if bool_decide (getValue card = 14) then score + 5 else score in
  if bool_decide (getValue card = 13) then score + 3 else score.

(** [estimateWinProbability] *)
Definition estimateWinProbability (a : t) (card : Card) : Z :=
  getValue card + higherPlayed a card * 2.

(** The loop shared by [chooseBestWinningSuit] and [chooseOptimalLeadCard]:
    the highest card of each suit, kept when its score beats the best. *)
Definition bestOfSuits (scoreOf : Card → Z) (validCards : list Card) : js Card :=
  let bySuit := groupBySuit validCards in
  let* best :=
    foldl (λ acc e,
             let* (bestCard, bestScore) := acc in
             let* highest := getHighestCard e.2 in
             let score := scoreOf highest in
             if score >? bestScore then Ok (Some highest, score)
             else Ok (bestCard, bestScore))
      (Ok (None, -1)) bySuit in
  match best.1 with
  | Some bestCard => Ok bestCard
  | None => getHighestCard validCards
  end.

Definition chooseBestWinningSuit (a : t) (validCards : list Card) : js Card :=
  bestOfSuits (calculateWinProbability a) validCards.

Definition chooseOptimalLeadCard (a : t) (validCards : list Card) : js Card :=
  bestOfSuits (estimateWinProbability a) validCards.

(** [chooseBestCardToWin] *)
Definition chooseBestCardToWin (g : GameState) (validCards : list Card)
    (isLeading : bool) : js Card :=
  if isLeading then getHighestCard validCards
  else
    match leadCard g with
    | None => TypeError
    | Some l =>
        let leadSuit := suit l in
        let leadValue := getValue l in
        let sameSuit := filter (λ c, suit c = leadSuit) validCards in
        if bool_decide (0 < length sameSuit)%nat then
          let winningCards := filter (λ c, getValue c > leadValue) sameSuit in
          if bool_decide (0 < length winningCards)%nat
          then getLowestCard winningCards
          else getLowestCard sameSuit
        else getLowestCard validCards
    end.

(** [chooseStrategicLeadCard] *)
Definition chooseStrategicLeadCard (validCards : list Card) : js Card :=
  let bySuit := groupBySuit validCards in
  let weakest :=
    foldl (λ (acc : option Suit * option nat) e,
             match acc.2 with
             | Some smallestCount =>
                 if bool_decide (length e.2 < smallestCount)%nat
                 then (Some e.1, Some (length e.2)) else acc
             | None => (Some e.1, Some (length e.2))
             end)
      (None, None) bySuit in
  match weakest.1 with
  | Some weakestSuit =>
      match group bySuit weakestSuit with
      | Some cs => getLowestCard cs
      | None => TypeError
      end
  | None => getLowestCard validCards
  end.

(** [chooseStrategicFollowCard] *)
Definition chooseStrategicFollowCard (g : GameState) (validCards : list Card) : js Card :=
  match leadCard g with
  | None => TypeError
  | Some l =>
      let leadSuit := suit l in
      let leadValue := getValue l in
      let sameSuit := filter (λ c, suit c = leadSuit) validCards in
      if bool_decide (0 < length sameSuit)%nat then
        let losingCards := filter (λ c, getValue c < leadValue) sameSuit in
        if bool_decide (0 < length losingCards)%nat
        then getHighestCard losingCards
        else getLowestCard sameSuit
      else getLowestCard validCards
  end.

(** [grandmasterTrick5] *)
Definition grandmasterTrick5 (a : t) (g : GameState) (validCards : list Card)
    (isLeading : bool) : js Card :=
  if isLeading then
    let voidSuitCards := filter (λ c, suit c ∈ opponentVoidSuits a) validCards in
    if bool_decide (0 < length voidSuitCards)%nat
    then getLowestCard voidSuitCards
    else chooseBestWinningSuit a validCards
  else
    match leadCard g with
    | None => TypeError
    | Some l =>
        let leadSuit := suit l in
        let leadValue := getValue l in
        let sameSuit := filter (λ c, suit c = leadSuit) validCards in
        if bool_decide (0 < length sameSuit)%nat then
          let winningCards := filter (λ c, getValue c > leadValue) sameSuit in
          if bool_decide (0 < length winningCards)%nat
          then getLowestCard winningCards
          else getLowestCard sameSuit
        else getLowestCard validCards
    end.

(** [grandmasterFollow] *)
Definition grandmasterFollow (g : GameState) (validCards : list Card)
    (trickNumber : Z) : js Card :=
  match leadCard g with
  | None => TypeError
  | Some l =>
      let leadSuit := suit l in
      let leadValue := getValue l in
      let sameSuit := filter (λ c, suit c = leadSuit) validCards in
      if bool_decide (0 < length sameSuit)%nat then
        let winningCards := filter (λ c, getValue c > leadValue) sameSuit in
        if bool_decide (0 < length winningCards)%nat
        then getLowestCard winningCards
        else getHighestCard sameSuit
      else getLowestCard validCards
  end.

(** An entry of [multiCardSuits]. *)
Record SuitEntry : Type := mkSuitEntry {
  entry_suit : Suit;
  entry_cards : list Card;
  highest : Card;
  lowest : Card
}.

Section Doubles.

(** [floor_fifths t n] is the double [Math.floor((t / 5) * n)]; floating
    point is not modelled, so the function is left open. *)
Variable floor_fifths : Z → Z → Z.

(** [grandmasterLead] *)
Definition grandmasterLead (validCards hand : list Card) (trickNumber : Z)
    : js (option Card) :=
  let bySuit := groupBySuit validCards in
  let handBySuit := groupBySuit hand in
  let singleton :=
    head (omap (λ e, match group handBySuit e.1 with
                     | Some [c] => Some c
                     | _ => None
                     end) bySuit) in
  match singleton with
  | Some c => Ok (Some c)
  | None =>
      let* multiCardSuits :=
        foldl (λ acc e,
                 let* entries := acc in
                 if bool_decide (2 ≤ length e.2)%nat then
                   let* hi := getHighestCard e.2 in
                   let* lo := getLowestCard e.2 in
                   Ok (entries ++ [mkSuitEntry e.1 e.2 hi lo])
                 else Ok entries)
          (Ok []) handBySuit in
      if bool_decide (0 < length multiCardSuits)%nat then
        let sorted :=
          if trickNumber <=? 2
          then sort (λ x y, getValue (highest x) - getValue (highest y))
                 multiCardSuits
          else sort (λ x y, getValue (highest y) - getValue (highest x))
                 multiCardSuits in
        match sorted with
        | first :: _ => Ok (Some (highest first))
        | [] => TypeError
        end
      else
        let sorted := sort (λ x y, getValue x - getValue y) validCards in
        let last := Z.of_nat (length sorted) - 1 in
        let aggressionIndex := floor_fifths trickNumber last in
        let index := Z.min aggressionIndex last in
        Ok (if index <? 0 then None else sorted !! Z.to_nat index)
  end.

(** [chooseCardGrandmaster]: the fields of the AI after the call, and
    what the call returns. *)
Definition chooseCardGrandmaster (a : t) (g : GameState) : t * js (option Card) :=
  let validCards := getValidCards ai g in
  let trickNumber := currentTrick g in
  let isLeading := bool_decide (leadCard g = None) in
  let hand := aiHand g in
  let a := updatePlayedCards g a in
  let a := updateOpponentVoids g a in
  if bool_decide (trickNumber = 5)
  then (a, defined (grandmasterTrick5 a g validCards isLeading))
  else if isLeading
       then (a, grandmasterLead validCards hand trickNumber)
       else (a, defined (grandmasterFollow g validCards trickNumber)).

(** [chooseCardEasy]; [r] is the draw
    [Math.floor(Math.random() * validCards.length)], which is below the
    length, and 0 for an empty array. *)
Definition chooseCardEasy (r : nat) (g : GameState) : js (option Card) :=
  let validCards := getValidCards ai g in
  let randomIndex :=
    if bool_decide (length validCards = 0)%nat then 0%nat
    else (r mod length validCards)%nat in
  Ok (validCards !! randomIndex).

(** [chooseCardMedium] *)
Definition chooseCardMedium (a : t) (g : GameState) : t * js (option Card) :=
  let validCards := getValidCards ai g in
  let trickNumber := currentTrick g in
  let isLeading := bool_decide (leadCard g = None) in
  let a := updatePlayedCards g a in
  if bool_decide (trickNumber = 5)
  then (a, defined (chooseBestCardToWin g validCards isLeading))
  else
    match leadCard g with
    | None => (a, defined (getLowestCard validCards))
    | Some l =>
        let leadSuit := suit l in
        let sameSuit := filter (λ c, suit c = leadSuit) validCards in
        if bool_decide (0 < length sameSuit)%nat then
          let leadValue := getValue l in
          let losingCards := filter (λ c, getValue c < leadValue) sameSuit in
          if bool_decide (0 < length losingCards)%nat
          then (a, defined (getLowestCard losingCards))
          else (a, defined (getLowestCard sameSuit))
        else (a, defined (getLowestCard validCards))
    end.

(** [chooseCardHard] *)
Definition chooseCardHard (a : t) (g : GameState) : t * js (option Card) :=
  let validCards := getValidCards ai g in
  let trickNumber := currentTrick g in
  let isLeading := bool_decide (leadCard g = None) in
  let a := updatePlayedCards g a in
  if bool_decide (trickNumber = 5) then
    if isLeading
    then (a, defined (chooseOptimalLeadCard a validCards))
    else (a, defined (chooseBestCardToWin g validCards false))
  else if isLeading
       then (a, defined (chooseStrategicLeadCard validCards))
       else (a, defined (chooseStrategicFollowCard g validCards)).

(** [chooseCard]: the switch on [game.aiDifficulty]. *)
Definition chooseCard (r : nat) (a : t) (g : GameState) : t * js (option Card) :=
  let difficulty := aiDifficulty g in
  if bool_decide (difficulty = "easy") then (a, chooseCardEasy r g)
  else if bool_decide (difficulty = "medium") then chooseCardMedium a g
  else if bool_decide (difficulty = "hard") then chooseCardHard a g
  else if bool_decide (difficulty = "grandmaster") then chooseCardGrandmaster a g
  else chooseCardMedium a g.

End Doubles.

End AI.

(** ** Names, paths and the log format (js/game.js, js/gameLogger.js) *)

(** The strings of the arrays [suits] and [ranks] of [Deck.initialize]. *)
Definition suitName (s : Suit) : string :=
  match s with
  | clubs => "clubs" | diamonds => "diamonds"
  | hearts => "hearts" | spades => "spades"
  end.

Definition rankName (r : Rank) : string :=
  match r with
  | r2 => "2" | r3 => "3" | r4 => "4" | r5 => "5" | r6 => "6" | r7 => "7"
  | r8 => "8" | r9 => "9" | r10 => "10"
  | jack => "jack" | queen => "queen" | king => "king" | ace => "ace"
  end.

(** [Card.getImagePath] *)
Definition getImagePath (c : Card) : string :=
  "assets/cards/fronts/" +:+ suitName (suit c) +:+ "_" +:+ rankName (rank c)
  +:+ ".svg".

(** [Card.toString] *)
Definition Card_toString (c : Card) : string :=
  rankName (rank c) +:+ " of " +:+ suitName (suit c).

(** [GameLogger.cardToString] *)
Definition cardToString (c : Card) : string :=
  suitName (suit c) +:+ "_" +:+ rankName (rank c).

(** [str.split(sep)] for a separator of one character: the pieces between
    the separators, at least one. *)
Fixpoint split_from (sep : ascii) (piece : string) (s : string) : list string :=
  match s with
  | EmptyString => [piece]
  | String a s' =>
      if bool_decide (a = sep) then piece :: split_from sep EmptyString s'
      else split_from sep (piece +:+ String a EmptyString) s'
  end.

Definition split (sep : ascii) (s : string) : list string :=
  split_from sep EmptyString s.

(** The table [values] of [parseCard]. *)
Definition parseCard_values : gmap string Z :=
  list_to_map
    [("2", 2); ("3", 3); ("4", 4); ("5", 5); ("6", 6); ("7", 7); ("8", 8);
     ("9", 9); ("10", 10); ("jack", 11); ("queen", 12); ("king", 13);
     ("ace", 14)].

Module ParsedCard.
(** The object that [parseCard] returns: [rank] is [undefined] when the
    string has no underscore; [getValue] is the number that [values[rank]]
    gives, none when [rank] is no key of the table. *)
Record t : Type := mk {
  suit : string;
  rank : option string;
  getValue : option Z
}.
End ParsedCard.

(** [GameLogger.parseCard]: [const [suit, rank] = str.split('_')]. *)
Definition parseCard (str : string) : ParsedCard.t :=
  match split "_" str with
  | [] => ParsedCard.mk EmptyString None None
  | [suit] => ParsedCard.mk suit None None
  | suit :: rank :: _ =>
      ParsedCard.mk suit (Some rank) (parseCard_values !! rank)
  end.

(** ** Saving the settings, and the handlers of the page that change them *)

(** The decimal digits of a number that is not negative, most significant
    first, in front of [acc]. *)
Fixpoint digits_from (fuel : nat) (n : Z) (acc : string) : string :=
  match fuel with
  | O => acc
  | S fuel =>
      let acc := String (ascii_of_nat (48 + Z.to_nat (n mod 10))) acc in
      if n / 10 =? 0 then acc else digits_from fuel (n / 10) acc
  end.

(** [Number.prototype.toString] on the numbers of [scoreGoal]; as JavaScript
    prints an integer below 10^21 in absolute value.  From 10^21 on
    JavaScript prints an exponent, and from 2^53 on the number of the code is
    a rounded double: the properties below that print a goal assume an
    integer below 2^53 ([safeInteger]). *)
Definition number_toString (x : number) : string :=
  match x with
  | NaN => "NaN"
  | Num z =>
      if z <? 0
      then String "-" (digits_from (S (Z.to_nat (Z.log2 (- z)))) (- z) EmptyString)
      else digits_from (S (Z.to_nat (Z.log2 z))) z EmptyString
  end.

(** [Boolean.prototype.toString] *)
Definition bool_toString (b : bool) : string := if b then "true" else "false".

(** [GameState.saveSettings]: the store after the call, and how the call
    ends.  [this.soundEnabled.toString()] raises when the field is
    [undefined], after the first three items are stored. *)
Definition saveSettings (localStorage : gmap string string) (g : GameState)
    : gmap string string * js unit :=
  let localStorage := <["aiDifficulty" := aiDifficulty g]> localStorage in
  let localStorage := <["cardBack" := selectedCardBack g]> localStorage in
  let localStorage :=
    <["scoreGoal" := number_toString (scoreGoal g)]> localStorage in
  match soundEnabled g with
  | None => (localStorage, TypeError)
  | Some b => (<["soundEnabled" := bool_toString b]> localStorage, Ok ())
  end.

(** [GameState.startNewGame] *)
Definition startNewGame (rnd : nat → nat) (g : GameState) : GameState :=
  startNewRound rnd g.

(** [value >= 1 && value <= 20] on a number: false for [NaN]. *)
Definition inRange (x : number) (lo hi : Z) : bool :=
  match x with
  | NaN => false
  | Num z => (lo <=? z) && (z <=? hi)
  end.

(** The [change] handler of the score-goal input in [initializeSettings]
    (js/ui.js), on the game and the store; in its other branch it writes the
    current goal back into the input and leaves both as they are. *)
Definition scoreGoalInput_change (input : string)
    (localStorage : gmap string string) (g : GameState)
    : GameState * (gmap string string * js unit) :=
  let value := parseInt input in
  if inRange value 1 20 then
    let g := set_scoreGoal value g in
    (g, saveSettings localStorage g)
  else (g, (localStorage, Ok ())).

(** The [change] handler of the difficulty select in [initializeSettings]:
    the value of a select is a string. *)
Definition aiDifficultySelect_change (value : string)
    (localStorage : gmap string string) (g : GameState)
    : GameState * (gmap string string * js unit) :=
  let g := set_aiDifficulty value g in
  (g, saveSettings localStorage g).

(** [selectCardBack] (js/ui.js), before it updates the page. *)
Definition selectCardBack (back : string)
    (localStorage : gmap string string) (g : GameState)
    : GameState * (gmap string string * js unit) :=
  let g := set_selectedCardBack back g in
  (g, saveSettings localStorage g).

(** [score >= goal] on numbers: false when the goal is [NaN]. *)
Definition reaches (score : Z) (goal : number) : bool :=
  match goal with
  | NaN => false
  | Num z => z <=? score
  end.

(** What [handleGameOver] (js/ui.js) announces once its timer fires: the
    match to the player, the match to the AI, or one more round.  It reads
    the winner of the last trick first, which raises on an empty history. *)
Inductive Outcome : Type := PlayerWonMatch | AIWonMatch | RoundComplete.

Definition handleGameOver (g : GameState) : js Outcome :=
  match last (trickHistory g) with
  | None => TypeError
  | Some _ =>
      if reaches (playerScore g) (scoreGoal g) then Ok PlayerWonMatch
      else if reaches (aiScore g) (scoreGoal g) then Ok AIWonMatch
      else Ok RoundComplete
  end.

(** The game side of [handleRedealOffers] (js/ui.js): both hands are judged
    as dealt; the player's is redealt when it qualifies and the player says
    yes, the AI's whenever it qualifies. *)
Definition handleRedealOffers (playerWantsRedeal : bool) (g : GameState) : GameState :=
  let playerQualifies := handQualifiesForRedeal (playerHand g) in
  let aiQualifies := handQualifiesForRedeal (aiHand g) in
  let g := if playerQualifies && playerWantsRedeal
           then redealHand player g else g in
  if aiQualifies then redealHand ai g else g.

(** * Vocabulary of the properties *)

(** The winner that [evaluateTrick] computes, as a function of the three
    fields it reads. *)
Definition trickWinner (l f : Card) (leader : Player) : Player :=
  if bool_decide (suit f = suit l) then
    if getValue l >? getValue f then leader else other leader
  else leader.

(** ** Legal play

    The page drives the game through three handlers: a click plays a card
    of [playerHand] ([handlePlayerCardClick]), the AI plays a card of
    [getValidCards('ai')], a part of [aiHand] ([handleAITurn]), and a trick
    that is complete is taken off the table by [clearTrick] before anything
    else is played ([handleTrickComplete]). *)

Inductive Action : Type :=
| Play (p : Player) (card : Card)
| ClearTrick.

(** Both cards of a trick lie on the table: the trick is resolved and waits
    for [clearTrick]. *)
Definition resolved (g : GameState) : bool :=
  bool_decide (leadCard g ≠ None) && bool_decide (followCard g ≠ None).

(** One action of legal play; [None] when the action is not one. *)
Definition step (act : Action) (g : GameState) : option GameState :=
  match act with
  | Play p card =>
      if resolved g then None
      else if bool_decide (card ∈ hand p g) then
        match playCard card p g with
        | Ok (_, g') => Some g'
        | TypeError => None
        end
      else None
  | ClearTrick => if resolved g then Some (clearTrick g) else None
  end.

Fixpoint run (acts : list Action) (g : GameState) : option GameState :=
  match acts with
  | [] => Some g
  | act :: acts => g' ← step act g; run acts g'
  end.

(** The states of a round: those that legal play reaches from the state that
    [startNewRound] leaves, with no redeal. *)
Definition reachable (g : GameState) : Prop :=
  ∃ rnd g0 acts, run acts (startNewRound rnd g0) = Some g.

(** A trick is in progress, with one card in flight, when the lead card is
    set and the follow card is not. *)
Definition inFlightCards (g : GameState) : nat :=
  match leadCard g, followCard g with
  | Some _, None => 1
  | _, _ => 0
  end.

(** What legal play keeps true of a round, by the cards on the table: the
    cards in hand and in the history, the trick number and the end of the
    round after the fifth trick. *)
Definition round_inv (g : GameState) : Prop :=
  let n := length (trickHistory g) in
  let held := (length (playerHand g) + length (aiHand g))%nat in
  let counted :=
    (held + 2 * n = 10)%nat ∧
    if gameActive g then currentTrick g = Z.of_nat n + 1 ∧ (n ≤ 4)%nat
    else n = 5%nat in
  match leadCard g, followCard g with
  | None, None => counted
  | Some _, None =>
      (held + 2 * n = 9)%nat ∧ gameActive g = true ∧
      currentTrick g = Z.of_nat n + 1 ∧ (n ≤ 4)%nat
  | Some l, Some f =>
      counted ∧
      ∃ t, last (trickHistory g) = Some t ∧
           Trick.leadCard t = l ∧ Trick.followCard t = f
  | None, Some _ => False
  end.

(** ** Sample states *)

(** The second trick complete on the table: the player led the 5 of clubs
    and the 9 of clubs followed. *)
Definition trick_5c_9c : GameState :=
  set_leadPlayer (Some player)
    (set_followCard (Some (mkCard clubs r9))
       (set_leadCard (Some (mkCard clubs r5))
          (set_currentTrick 2 GameState_fields))).

(** The same two cards as the fifth trick. *)
Definition trick5_5c_9c : GameState := set_currentTrick 5 trick_5c_9c.

(** The oracle whose draws are all 0. *)
Definition rnd0 : nat → nat := λ _, 0%nat.

(** The first round of a session with nothing stored. *)
Definition round1 : GameState := startNewMatch rnd0 (GameState_new ∅).

(** A round played to its end from [round1], where every card is a club:
    the player leads the 3, the AI takes each trick and leads the next. *)
Definition round1_acts : list Action :=
  [Play player (mkCard clubs r3); Play ai (mkCard clubs r8); ClearTrick;
   Play ai (mkCard clubs r9); Play player (mkCard clubs r4); ClearTrick;
   Play ai (mkCard clubs r10); Play player (mkCard clubs r5); ClearTrick;
   Play ai (mkCard clubs jack); Play player (mkCard clubs r6); ClearTrick;
   Play ai (mkCard clubs queen); Play player (mkCard clubs r7)].

Definition round1_over : GameState := default round1 (run round1_acts round1).

(** The scenario of the specification: the AI, at grandmaster level, holds
    the 9 of clubs and the 7 of diamonds and follows the 5 of clubs on the
    second trick. *)
Definition scenario_9c_7d : GameState :=
  set_aiDifficulty "grandmaster"
    (set_currentPlayer (Some ai)
       (set_leadPlayer (Some player)
          (set_leadCard (Some (mkCard clubs r5))
             (set_currentTrick 2
                (set_aiHand [mkCard clubs r9; mkCard diamonds r7]
                   GameState_fields))))).

(** Exact arithmetic in the place of the double [Math.floor((t / 5) * n)]. *)
Definition exact_fifths (t n : Z) : Z := t * n / 5.

(** The AI to move with hand [h] on trick [t], against the lead [lead] if
    any, at the level [level]. *)
Definition ai_to_move (h : list Card) (t : Z) (lead : option Card)
    (level : string) : GameState :=
  set_aiDifficulty level
    (set_currentPlayer (Some ai)
       (set_leadCard lead (set_currentTrick t (set_aiHand h GameState_fields)))).

(** A first character after which [parseInt] reads no number: no white
    space, no sign, no decimal digit. *)
Definition nonNumericStart (a : ascii) : bool :=
  negb (isWhiteSpace a) &&
  negb (bool_decide (a = "+"%char)) && negb (bool_decide (a = "-"%char)) &&
  match digitValue a with
  | Some d => 10 <=? d
  | None => true
  end.

(** ** More vocabulary of legal play *)

(** The cards that have left the hands: those of the tricks of the history,
    and the lead card of a trick in progress. *)
Definition playedSoFar (g : GameState) : list Card :=
  (t ← trickHistory g; [Trick.leadCard t; Trick.followCard t])
  ++ match leadCard g, followCard g with
     | Some l, None => [l]
     | _, _ => []
     end.

(** Whose turn it is, and what the history says of the leaders and winners:
    the follower is the other player, the winner of a trick leads the next,
    every record holds the winner that its cards and its leader give, and a
    player who followed off suit holds no card of that suit. *)
Definition turn_inv (g : GameState) : Prop :=
  ∃ lp cp,
    leadPlayer g = Some lp ∧ currentPlayer g = Some cp ∧
    match leadCard g, followCard g with
    | Some _, None => cp = other lp
    | _, _ =>
        gameActive g = true →
        cp = lp ∧ ∀ t, last (trickHistory g) = Some t → Trick.winner t = Some lp
    end ∧
    Forall (λ t, ∃ x,
              Trick.leadPlayer t = Some x ∧
              Trick.winner t
              = Some (trickWinner (Trick.leadCard t) (Trick.followCard t) x) ∧
              (suit (Trick.followCard t) ≠ suit (Trick.leadCard t) →
               ∀ c, c ∈ hand (other x) g → suit c ≠ suit (Trick.leadCard t)))
      (trickHistory g).

(** The scores of a round that started with the scores [ps0] and [as0]. *)
Definition score_inv (ps0 as0 : Z) (g : GameState) : Prop :=
  if gameActive g then playerScore g = ps0 ∧ aiScore g = as0
  else ∃ t w, last (trickHistory g) = Some t ∧ Trick.winner t = Some w ∧
              score w g = (match w with player => ps0 | ai => as0 end) + 1 ∧
              score (other w) g = (match w with player => as0 | ai => ps0 end).

(** Every card of the deck is in one place: a hand, the cards played, or
    what is left of the deck; and the records of the history are numbered
    from 1. *)
Definition cards_inv (g : GameState) : Prop :=
  playerHand g ++ aiHand g ++ playedSoFar g ++ cards (deck g) ≡ₚ cards Deck_new ∧
  Trick.trickNumber <$> trickHistory g
  = (λ i, Z.of_nat i) <$> seq 1 (length (trickHistory g)).

(** All of it together, for a round that started with the scores [ps0] and
    [as0]. *)
Definition game_inv (ps0 as0 : Z) (g : GameState) : Prop :=
  round_inv g ∧ turn_inv g ∧ score_inv ps0 as0 g ∧ cards_inv g.

(** ** More sample states *)

(** The oracle that draws [7 * i] at index [i], and the first round of a
    grandmaster game under it: the player holds five spades, the AI the 10
    of spades and four clubs. *)
Definition rnd7 : nat → nat := λ i, (7 * i)%nat.

Definition round7 : GameState :=
  startNewMatch rnd7 (GameState_new {[ "aiDifficulty" := "grandmaster" ]}).

(** The AI takes the first trick with its spade, then leads clubs, which the
    player cannot follow. *)
Definition round7_acts : list Action :=
  [Play player (mkCard spades r9); Play ai (mkCard spades r10); ClearTrick;
   Play ai (mkCard clubs r2); Play player (mkCard spades jack); ClearTrick;
   Play ai (mkCard clubs r3); Play player (mkCard spades king); ClearTrick;
   Play ai (mkCard clubs r4); Play player (mkCard spades queen); ClearTrick].

(** The AI to lead on trick 5, with the 5 of clubs against the ace of
    spades. *)
Definition round7_trick5 : GameState := default round7 (run round7_acts round7).

(** The same round after the first trick, the AI to lead on trick 2. *)
Definition round7_trick2 : GameState :=
  default round7 (run (take 3 round7_acts) round7).

(** The same round with the player to follow the 2 of clubs. *)
Definition round7_follow : GameState :=
  default round7 (run (take 4 round7_acts) round7).

(** ** Vocabulary of the strategies *)

(** The method returns a card, and the card is one of [valid]. *)
Definition picks (valid : list Card) (m : js Card) : Prop :=
  ∃ c, m = Ok c ∧ c ∈ valid.

(** ** Vocabulary of the settings, the redeal and the log *)

(** The cards that [handleRedealOffers] takes out of the game: the hands it
    replaces. *)
Definition discarded (playerWantsRedeal : bool) (g : GameState) : list Card :=
  (if handQualifiesForRedeal (playerHand g) && playerWantsRedeal
   then playerHand g else []) ++
  (if handQualifiesForRedeal (aiHand g) then aiHand g else []).

(** The numbers that JavaScript holds exactly as integers, and [NaN]. *)
Definition safeInteger (x : number) : bool :=
  match x with
  | NaN => true
  | Num z => Z.abs z <? 2 ^ 53
  end.

(** A string of ASCII characters. *)
Fixpoint asciiOnly (s : string) : bool :=
  match s with
  | EmptyString => true
  | String a s' => (nat_of_ascii a <? 128)%nat && asciiOnly s'
  end.

(** The strings on which [parseInt] is read exactly: ASCII characters, and
    an integer that a double holds. *)
Definition exactNumeral (v : string) : bool :=
  asciiOnly v && safeInteger (parseInt v).

(** A store whose score goal, if any, is such a string. *)
Definition exactGoal (localStorage : gmap string string) : bool :=
  match localStorage !! "scoreGoal" with
  | Some v => exactNumeral v
  | None => true
  end.

(** The four settings of a game. *)
Definition settings (g : GameState) : string * string * number * option bool :=
  (aiDifficulty g, selectedCardBack g, scoreGoal g, soundEnabled g).

(** What a page can do to the game and the store, in any state and in any
    order, legal play or not: call a method of [GameState] that changes the
    game, or change a setting through one of the three handlers. *)
Inductive Call : Type :=
| CallStartNewMatch (rnd : nat → nat)
| CallStartNewRound (rnd : nat → nat)
| CallStartNewGame (rnd : nat → nat)
| CallPlayCard (card : Card) (p : Player)
| CallClearTrick
| CallRedealHand (p : Player)
| CallResetScores
| ChangeDifficulty (value : string)
| SelectCardBack (back : string)
| ChangeScoreGoal (input : string).

(** The game and the store after a call; a handler leaves the store as
    [saveSettings] left it, also when that raised. *)
Definition call (c : Call) (s : GameState * gmap string string)
    : GameState * gmap string string :=
  match c with
  | CallStartNewMatch rnd => (startNewMatch rnd s.1, s.2)
  | CallStartNewRound rnd => (startNewRound rnd s.1, s.2)
  | CallStartNewGame rnd => (startNewGame rnd s.1, s.2)
  | CallPlayCard card p =>
      (match playCard card p s.1 with
       | Ok (_, g') => g'
       | TypeError => s.1
       end, s.2)
  | CallClearTrick => (clearTrick s.1, s.2)
  | CallRedealHand p => (redealHand p s.1, s.2)
  | CallResetScores => (resetScores s.1, s.2)
  | ChangeDifficulty value =>
      ((aiDifficultySelect_change value s.2 s.1).1,
       (aiDifficultySelect_change value s.2 s.1).2.1)
  | SelectCardBack back =>
      ((selectCardBack back s.2 s.1).1, (selectCardBack back s.2 s.1).2.1)
  | ChangeScoreGoal input =>
      ((scoreGoalInput_change input s.2 s.1).1,
       (scoreGoalInput_change input s.2 s.1).2.1)
  end.

(** The game and the store of a page that was loaded with the store
    [localStorage], after the calls [cs]. *)
Definition session (localStorage : gmap string string) (cs : list Call)
    : GameState * gmap string string :=
  foldl (λ s c, call c s) (GameState_new localStorage, localStorage) cs.

(** A game whose sound setting is set, as a store with that key gives. *)
Definition sound_on : GameState := GameState_new {[ "soundEnabled" := "true" ]}.

(** The first trick of [round1] resolved and still on the table: the AI has
    taken it with the 8 of clubs and has the turn. *)
Definition round1_uncleared : GameState :=
  default round1 (run (take 2 round1_acts) round1).

(** The sizes of the hands, by the tricks in the history: between tricks
    both players hold the same number of cards, and with a card in flight
    the leader holds one less. *)
Definition hands_inv (g : GameState) : Prop :=
  let n := length (trickHistory g) in
  match leadCard g, followCard g with
  | Some _, None =>
      ∃ lp, leadPlayer g = Some lp ∧
            (length (hand lp g) + n + 1 = 5)%nat ∧
            (length (hand (other lp) g) + n = 5)%nat
  | _, _ =>
      (length (playerHand g) + n = 5)%nat ∧ (length (aiHand g) + n = 5)%nat
  end.

(** * Properties *)

(** ** Reading a field after an assignment *)

(** Field reads go through the assignments by computation. *)
Ltac fields :=
  cbn [deck playerHand aiHand playerScore aiScore scoreGoal currentTrick
       leadCard followCard leadPlayer currentPlayer playedCards trickHistory
       gameActive roundActive aiDifficulty selectedCardBack soundEnabled
       set_deck set_playerHand set_aiHand set_playerScore set_aiScore
       set_scoreGoal set_currentTrick set_leadCard set_followCard
       set_leadPlayer set_currentPlayer set_playedCards set_trickHistory
       set_gameActive set_roundActive set_aiDifficulty set_selectedCardBack
       set_soundEnabled hand set_hand score] in *.

(** ** Card values *)

Lemma getValue_table (s : Suit) :
  (λ r, getValue (mkCard s r)) <$> ranks = [2; 3; 4; 5; 6; 7; 8; 9; 10; 11; 12; 13; 14].
Proof. reflexivity. Qed.

Lemma getValue_range (c : Card) : 2 ≤ getValue c ≤ 14.
Proof. destruct c as [s []]; unfold getValue; simpl; lia. Qed.

Lemma getValue_inj (c d : Card) : getValue c = getValue d → rank c = rank d.
Proof. destruct c as [? []], d as [? []]; unfold getValue; simpl; congruence. Qed.

(** ** Trick evaluation *)

Lemma evaluateTrick_eq (g : GameState) (l f : Card) (p : Player) :
  leadCard g = Some l → followCard g = Some f → leadPlayer g = Some p →
  let w := trickWinner l f p in
  let g1 := set_trickHistory
              (trickHistory g ++ [Trick.mk (currentTrick g) l f (Some p) (Some w)]) g in
  evaluateTrick g =
    if bool_decide (currentTrick g = 5) then
      Ok (game_over,
          set_gameActive false
            (match w with
             | player => set_playerScore (playerScore g + 1) g1
             | ai => set_aiScore (aiScore g + 1) g1
             end))
    else
      Ok (trick_complete,
          set_currentTrick (currentTrick g + 1)
            (set_currentPlayer (Some w) (set_leadPlayer (Some w) g1))).
Proof.
  intros Hl Hf Hp. unfold evaluateTrick, trickWinner. rewrite Hl, Hf, Hp.
  cbn [currentTrick set_trickHistory playerScore aiScore].
  destruct p, (bool_decide (suit f = suit l)), (getValue l >? getValue f);
    repeat case_bool_decide; simplify_eq; reflexivity.
Qed.

(** C1. In a completed trick with lead card [A], follow card [B] and lead
    player [p], [evaluateTrick] records as winner: [p] when [B] is off the
    suit of [A]; on the same suit, [p] when [A] has the greater value and
    the follower when [B] has the greater value.  The values of the ranks are
    2 to 10, jack 11, queen 12, king 13 and ace 14 in every suit. *)
Theorem C1_evaluateTrick_winner (g : GameState) (A B : Card) (p : Player) :
  leadCard g = Some A → followCard g = Some B → leadPlayer g = Some p →
  ∃ r g' w,
    evaluateTrick g = Ok (r, g') ∧
    trickHistory g' =
      trickHistory g ++ [Trick.mk (currentTrick g) A B (Some p) (Some w)] ∧
    (suit B ≠ suit A → w = p) ∧
    (suit B = suit A → getValue A > getValue B → w = p) ∧
    (suit B = suit A → getValue B > getValue A → w = other p) ∧
    ∀ s, (λ r, getValue (mkCard s r)) <$> [r2; r3; r4; r5; r6; r7; r8; r9; r10; jack; queen; king; ace]
         = [2; 3; 4; 5; 6; 7; 8; 9; 10; 11; 12; 13; 14].
Proof.
  intros HA HB Hp.
  assert (Hw : (suit B ≠ suit A → trickWinner A B p = p) ∧
               (suit B = suit A → getValue A > getValue B → trickWinner A B p = p) ∧
               (suit B = suit A → getValue B > getValue A → trickWinner A B p = other p)).
  { unfold trickWinner.
    destruct (Z.gtb_spec (getValue A) (getValue B));
      case_bool_decide; repeat split; intros; first [done | lia]. }
  destruct Hw as (Hw1 & Hw2 & Hw3).
  pose proof (evaluateTrick_eq g A B p HA HB Hp) as He. cbv zeta in He.
  case_bool_decide.
  - eexists _, _, (trickWinner A B p). split; [exact He|].
    split; [|by auto].
    destruct (trickWinner A B p); reflexivity.
  - eexists _, _, (trickWinner A B p). split; [exact He|].
    split; [|by auto].
    reflexivity.
Qed.

Lemma C1_witness :
  ∃ r g' w,
    evaluateTrick trick_5c_9c = Ok (r, g') ∧
    trickHistory g' =
      trickHistory trick_5c_9c ++
        [Trick.mk (currentTrick trick_5c_9c) (mkCard clubs r5) (mkCard clubs r9)
           (Some player) (Some w)] ∧
    (suit (mkCard clubs r9) ≠ suit (mkCard clubs r5) → w = player) ∧
    (suit (mkCard clubs r9) = suit (mkCard clubs r5) →
     getValue (mkCard clubs r5) > getValue (mkCard clubs r9) → w = player) ∧
    (suit (mkCard clubs r9) = suit (mkCard clubs r5) →
     getValue (mkCard clubs r9) > getValue (mkCard clubs r5) → w = other player) ∧
    ∀ s, (λ r, getValue (mkCard s r)) <$> [r2; r3; r4; r5; r6; r7; r8; r9; r10; jack; queen; king; ace]
         = [2; 3; 4; 5; 6; 7; 8; 9; 10; 11; 12; 13; 14].
Proof.
  apply (C1_evaluateTrick_winner trick_5c_9c (mkCard clubs r5) (mkCard clubs r9) player);
    reflexivity.
Defined.

(** C2. When a trick resolves with winner [w]: on trick 5 the score of [w]
    goes up by one and the other score stays; on any other trick (tricks 1 to
    4 in a round) both scores stay, and the state changes only in the
    history, in the lead player and the current player, which both become
    [w], and in the trick number, which goes up by one. *)
Theorem C2_only_trick5_scores (g : GameState) (A B : Card) (p : Player) :
  leadCard g = Some A → followCard g = Some B → leadPlayer g = Some p →
  ∃ r g' w,
    evaluateTrick g = Ok (r, g') ∧
    Trick.winner <$> last (trickHistory g') = Some (Some w) ∧
    (currentTrick g = 5 →
       score w g' = score w g + 1 ∧ score (other w) g' = score (other w) g) ∧
    (currentTrick g ≠ 5 →
       playerScore g' = playerScore g ∧ aiScore g' = aiScore g ∧
       leadPlayer g' = Some w ∧ currentPlayer g' = Some w ∧
       currentTrick g' = currentTrick g + 1 ∧
       g' = set_currentTrick (currentTrick g + 1)
              (set_currentPlayer (Some w)
                 (set_leadPlayer (Some w)
                    (set_trickHistory (trickHistory g') g)))).
Proof.
  intros HA HB Hp.
  pose proof (evaluateTrick_eq g A B p HA HB Hp) as He. cbv zeta in He.
  case_bool_decide as H5.
  - eexists _, _, (trickWinner A B p). split; [exact He|].
    split; [|split; [|done]].
    + destruct (trickWinner A B p); fields; by rewrite last_snoc.
    + intros _. destruct (trickWinner A B p); fields; done.
  - eexists _, _, (trickWinner A B p). split; [exact He|].
    split; [|split; [done|]].
    + fields. by rewrite last_snoc.
    + intros _. fields. done.
Qed.

Lemma C2_witness :
  ∃ r g' w,
    evaluateTrick trick5_5c_9c = Ok (r, g') ∧
    Trick.winner <$> last (trickHistory g') = Some (Some w) ∧
    (currentTrick trick5_5c_9c = 5 →
       score w g' = score w trick5_5c_9c + 1 ∧
       score (other w) g' = score (other w) trick5_5c_9c) ∧
    (currentTrick trick5_5c_9c ≠ 5 →
       playerScore g' = playerScore trick5_5c_9c ∧
       aiScore g' = aiScore trick5_5c_9c ∧
       leadPlayer g' = Some w ∧ currentPlayer g' = Some w ∧
       currentTrick g' = currentTrick trick5_5c_9c + 1 ∧
       g' = set_currentTrick (currentTrick trick5_5c_9c + 1)
              (set_currentPlayer (Some w)
                 (set_leadPlayer (Some w)
                    (set_trickHistory (trickHistory g') trick5_5c_9c)))).
Proof.
  apply (C2_only_trick5_scores trick5_5c_9c (mkCard clubs r5) (mkCard clubs r9) player);
    reflexivity.
Defined.

(** ** Legal cards *)

Lemma existsb_suit (l : Card) (h : list Card) :
  existsb (λ c, bool_decide (suit c = suit l)) h = true ↔
  ∃ c, c ∈ h ∧ suit c = suit l.
Proof.
  rewrite existsb_exists. split; intros (c & Hc & Hs); exists c.
  - apply bool_decide_eq_true in Hs. by rewrite list_elem_of_In.
  - rewrite bool_decide_eq_true. by rewrite <- list_elem_of_In.
Qed.

Lemma filter_suit_nonempty (l : Card) (h : list Card) :
  (0 < length (filter (λ c, suit c = suit l) h))%nat ↔
  ∃ c, c ∈ h ∧ suit c = suit l.
Proof.
  split.
  - intros Hlen. destruct (filter _ h) as [|c cs] eqn:E; [simpl in Hlen; lia|].
    exists c. apply and_comm, (list_elem_of_filter (λ c, suit c = suit l)).
    rewrite E. left.
  - intros (c & Hc & Hs).
    assert (c ∈ filter (λ c, suit c = suit l) h) as Hin
        by by apply list_elem_of_filter.
    destruct (filter _ h); [by apply elem_of_nil in Hin | simpl; lia].
Qed.

(** C3. A player who leads may play the whole hand; a player who follows and
    holds a card of the lead suit may play exactly the cards of the hand in
    that suit; a player who follows and holds none may play the whole
    hand. *)
Theorem C3_getValidCards (p : Player) (g : GameState) :
  (leadCard g = None → getValidCards p g = hand p g) ∧
  (∀ l, leadCard g = Some l →
     ((∃ c, c ∈ hand p g ∧ suit c = suit l) →
        getValidCards p g = filter (λ c, suit c = suit l) (hand p g) ∧
        ∀ c, c ∈ getValidCards p g ↔ c ∈ hand p g ∧ suit c = suit l) ∧
     ((¬ ∃ c, c ∈ hand p g ∧ suit c = suit l) →
        getValidCards p g = hand p g)).
Proof.
  unfold getValidCards. split.
  - by intros ->.
  - intros l ->. split; intros Hs; case_bool_decide as Hlen;
      rewrite filter_suit_nonempty in Hlen; try done.
    split; [done|]. intros c. rewrite list_elem_of_filter. tauto.
Qed.

(** ** Illegal moves *)

(** C6. A play that [canPlayCard] refuses returns [false]: it raises
    nothing and the state after it is the state before it, field for
    field. *)
Theorem C6_illegal_play_rejected (card : Card) (p : Player) (g : GameState) :
  canPlayCard card p g = false → playCard card p g = Ok (false, g).
Proof. intros H. unfold playCard. by rewrite H. Qed.

Lemma C6_witness :
  canPlayCard (mkCard clubs r3) ai round1 = false ∧
  playCard (mkCard clubs r3) ai round1 = Ok (false, round1).
Proof.
  split; [reflexivity|].
  apply (C6_illegal_play_rejected (mkCard clubs r3) ai round1). reflexivity.
Defined.

(** [playCard] raises on no state: it calls [evaluateTrick] with both
    cards of the trick set. *)
Lemma playCard_never_throws (card : Card) (p : Player) (g : GameState) :
  ∃ b g', playCard card p g = Ok (b, g').
Proof.
  unfold playCard. destruct (canPlayCard card p g); simpl; [|by eauto].
  set (g1 := if bool_decide _ then _ else g).
  destruct (leadCard g1) as [l|] eqn:El; [|by eauto].
  set (g2 := set_playedCards _ _).
  assert (leadCard g2 = Some l) as E2 by (subst g2; fields; done).
  assert (followCard g2 = Some card) as F2 by (subst g2; fields; done).
  unfold evaluateTrick. rewrite E2, F2.
  case_bool_decide; simpl; eauto.
Qed.

(** ** Redeal *)

Lemma Math_max_leb (vs : list Z) (m : maxval) (z : Z) :
  maxval_leb
    (foldl (λ m v, match m with
                   | NegInfinity => Fin v
                   | Fin a => Fin (Z.max a v)
                   end) m vs) z
  = maxval_leb m z && forallb (λ v, v <=? z) vs.
Proof.
  revert m. induction vs as [|v vs IH]; intros m; simpl.
  - by rewrite andb_true_r.
  - rewrite IH. destruct m as [|a]; simpl; [done|].
    rewrite andb_assoc. f_equal.
    destruct (Z.leb_spec a z), (Z.leb_spec v z), (Z.leb_spec (Z.max a v) z);
      simpl; try done; lia.
Qed.

(** A hand qualifies exactly when none of its cards is above 9. *)
Lemma handQualifiesForRedeal_spec (hand : list Card) :
  handQualifiesForRedeal hand = true ↔ ∀ c, c ∈ hand → getValue c ≤ 9.
Proof.
  unfold handQualifiesForRedeal, Math_max. rewrite Math_max_leb. simpl.
  rewrite forallb_forall. split.
  - intros H c Hc. apply Z.leb_le, H, list_elem_of_In, list_elem_of_fmap.
    by exists c.
  - intros H v Hv. apply list_elem_of_In, list_elem_of_fmap in Hv as (c & -> & Hc).
    by apply Z.leb_le, H.
Qed.

(** C10. The maximum of no value is [-Infinity], which is not above 9: the
    empty hand qualifies for a redeal. *)
Theorem C10_empty_hand_qualifies :
  Math_max (getValue <$> []) = NegInfinity ∧ handQualifiesForRedeal [] = true.
Proof. split; reflexivity. Qed.

(** ** Whose turn, which card *)

(** C4, as the code has it.  [canPlayCard] refuses every card out of turn.
    In turn it does not look for the card in the hand: a leader may play any
    card, and a follower any card of the lead suit, or any card at all when
    the hand holds none of that suit. *)
Theorem C4_canPlayCard_turn_and_suit (card : Card) (p : Player) (g : GameState) :
  (currentPlayer g ≠ Some p → canPlayCard card p g = false) ∧
  (currentPlayer g = Some p → leadCard g = None → canPlayCard card p g = true) ∧
  (currentPlayer g = Some p → ∀ l, leadCard g = Some l →
     ((∃ c, c ∈ hand p g ∧ suit c = suit l) →
        canPlayCard card p g = bool_decide (suit card = suit l)) ∧
     ((¬ ∃ c, c ∈ hand p g ∧ suit c = suit l) →
        canPlayCard card p g = true)).
Proof.
  unfold canPlayCard. split; [|split].
  - intros H. by rewrite bool_decide_eq_true_2.
  - intros Hp ->. rewrite bool_decide_eq_false_2; [done|]. by intros [].
  - intros Hp l ->. rewrite bool_decide_eq_false_2; [|by intros []].
    split; intros Hs.
    + apply existsb_suit in Hs. by rewrite Hs.
    + rewrite <- existsb_suit in Hs. by destruct (existsb _ _).
Qed.

(** C4, as the specification has it, fails in the first state of a round:
    the 8 of clubs is in the hand of the AI, not of the player, and the
    player may lead it. *)
Lemma C4_counterexample :
  reachable round1 ∧
  (mkCard clubs r8 ∉ hand player round1) ∧
  canPlayCard (mkCard clubs r8) player round1 = true.
Proof.
  split; [|split].
  - by exists rnd0, (set_aiScore 0 (set_playerScore 0 (GameState_new ∅))), [].
  - apply (bool_decide_unpack _). by vm_compute.
  - reflexivity.
Qed.

(** What the missing test lets through: [playCard] accepts that card, puts
    it on the table as the lead, and takes no card from either hand.  The
    count of the cards of a round below is therefore a property of legal
    play, where a card is played from the hand of its player. *)
Lemma playCard_card_not_in_hand :
  ∃ g', playCard (mkCard clubs r8) player round1 = Ok (true, g') ∧
        leadCard g' = Some (mkCard clubs r8) ∧
        playerHand g' = playerHand round1 ∧ aiHand g' = aiHand round1.
Proof. eexists. split; [by vm_compute|]. repeat split. Qed.

(** ** The deck *)

Lemma replace_Permutation (x b : Card) (l : list Card) (j : nat) :
  l !! j = Some b → b :: <[j := x]> l ≡ₚ x :: l.
Proof.
  revert j. induction l as [|y l IH]; intros [|j] Hj; simplify_eq/=.
  - apply perm_swap.
  - rewrite perm_swap, (IH j Hj). apply perm_swap.
Qed.

Lemma swap_Permutation (i j : nat) (l : list Card) : swap i j l ≡ₚ l.
Proof.
  unfold swap.
  destruct (l !! i) as [a|] eqn:Hi; [|done].
  destruct (l !! j) as [b|] eqn:Hj; [|done].
  revert i j Hi Hj. induction l as [|y l IH]; intros [|i] [|j] Hi Hj; simplify_eq/=.
  - done.
  - by apply replace_Permutation.
  - by apply replace_Permutation.
  - by rewrite (IH i j).
Qed.

Lemma shuffle_from_Permutation (rnd : nat → nat) (i : nat) (l : list Card) :
  shuffle_from rnd i l ≡ₚ l.
Proof.
  revert l. induction i as [|i IH]; intros l; simpl; [done|].
  by rewrite IH, swap_Permutation.
Qed.

(** A shuffled deck holds the cards it held before. *)
Lemma shuffle_Permutation (rnd : nat → nat) (d : Deck) :
  cards (shuffle rnd d) ≡ₚ cards d.
Proof. apply shuffle_from_Permutation. Qed.

(** The deck that [initialize] builds: the 52 cards, each once. *)
Lemma initialize_all_cards (d : Deck) :
  length (cards (initialize d)) = 52%nat ∧
  NoDup (cards (initialize d)) ∧
  ∀ c, c ∈ cards (initialize d).
Proof.
  split; [reflexivity|]. split.
  - apply (bool_decide_unpack _). by vm_compute.
  - intros [[] []]; apply (bool_decide_unpack _); by vm_compute.
Qed.

Lemma startNewRound_hands (rnd : nat → nat) (g : GameState) :
  let d := cards (shuffle rnd (initialize (deck g))) in
  let g' := startNewRound rnd g in
  playerHand g' = take 5 d ∧ aiHand g' = take 5 (drop 5 d) ∧
  cards (deck g') = drop 10 d ∧
  length (playerHand g') = 5%nat ∧ length (aiHand g') = 5%nat ∧
  length (cards (deck g')) = 42%nat.
Proof.
  intros d g'.
  assert (length d = 52%nat) as Hd.
  { unfold d. rewrite shuffle_Permutation. apply initialize_all_cards. }
  unfold g', startNewRound, deal. fields. cbn [cards]. fold d.
  rewrite drop_drop, !length_take, !length_drop, Hd.
  repeat split; lia.
Qed.

(** ** Playing a card of the hand *)

Lemma splice_found (card : Card) (h : list Card) :
  card ∈ h →
  let index := findIndex (λ c, suit c = suit card ∧ rank c = rank card) h in
  index ≠ -1 ∧ S (length (splice1 index h)) = length h.
Proof.
  intros Hin. unfold findIndex, splice1.
  destruct (list_find _ h) as [[i c]|] eqn:E; simpl.
  - apply list_find_Some in E as (Hi & _ & _). split; [lia|].
    rewrite Nat2Z.id, length_delete by eauto.
    apply lookup_lt_Some in Hi. lia.
  - apply list_find_None in E. rewrite Forall_forall in E.
    by destruct (E card Hin).
Qed.

(** What a play of a card of the hand does to the cards in hand, to the table
    and to the counters. *)
Lemma playCard_effect (card : Card) (p : Player) (g : GameState) (b : bool)
    (g' : GameState) :
  card ∈ hand p g → playCard card p g = Ok (b, g') →
  (b = false ∧ g' = g) ∨
  (b = true ∧
   (S (length (playerHand g') + length (aiHand g'))
    = length (playerHand g) + length (aiHand g))%nat ∧
   match leadCard g with
   | None =>
       leadCard g' = Some card ∧ followCard g' = followCard g ∧
       trickHistory g' = trickHistory g ∧ gameActive g' = gameActive g ∧
       currentTrick g' = currentTrick g
   | Some l =>
       leadCard g' = Some l ∧ followCard g' = Some card ∧
       (∃ t, trickHistory g' = trickHistory g ++ [t] ∧
             Trick.leadCard t = l ∧ Trick.followCard t = card) ∧
       if bool_decide (currentTrick g = 5)
       then gameActive g' = false ∧ currentTrick g' = currentTrick g
       else gameActive g' = gameActive g ∧ currentTrick g' = currentTrick g + 1
   end).
Proof.
  intros Hin Hplay. unfold playCard in Hplay.
  destruct (canPlayCard card p g); cbn [negb] in Hplay; [|left; by simplify_eq].
  right. destruct (splice_found card (hand p g) Hin) as [Hidx Hlen].
  rewrite bool_decide_eq_true_2 in Hplay by done.
  assert (S (length (playerHand (set_hand p (splice1
            (findIndex (λ c, suit c = suit card ∧ rank c = rank card) (hand p g))
            (hand p g)) g))
             + length (aiHand (set_hand p (splice1
            (findIndex (λ c, suit c = suit card ∧ rank c = rank card) (hand p g))
            (hand p g)) g)))
          = length (playerHand g) + length (aiHand g))%nat as Hheld.
  { destruct p; fields; lia. }
  revert Hplay Hheld. generalize (splice1
            (findIndex (λ c, suit c = suit card ∧ rank c = rank card) (hand p g))
            (hand p g)). clear Hidx Hlen Hin.
  intros h Hplay Hheld.
  assert (leadCard (set_hand p h g) = leadCard g) as El by (by destruct p).
  rewrite El in Hplay.
  destruct (leadCard g) as [l|] eqn:Hl.
  - unfold evaluateTrick in Hplay.
    destruct p; fields; rewrite Hl in Hplay; fields;
      destruct (bool_decide (currentTrick g = 5));
      repeat match type of Hplay with
             | context [bool_decide ?P] => destruct (bool_decide P)
             end;
      cbn [js_bind] in Hplay; simplify_eq; fields;
      (split; [done|]); (split; [lia|]);
      (split; [done|]); (split; [done|]); (split; [by eexists|]); done.
  - destruct p; fields; simplify_eq; fields; done.
Qed.

(** ** Rounds under legal play *)

Lemma startNewRound_fields (rnd : nat → nat) (g : GameState) :
  let g' := startNewRound rnd g in
  currentTrick g' = 1 ∧ leadCard g' = None ∧ followCard g' = None ∧
  playedCards g' = [] ∧ trickHistory g' = [] ∧
  leadPlayer g' = Some player ∧ currentPlayer g' = Some player ∧
  gameActive g' = true ∧ roundActive g' = true ∧
  playerScore g' = playerScore g ∧ aiScore g' = aiScore g.
Proof. repeat split. Qed.

Lemma startNewRound_inv (rnd : nat → nat) (g : GameState) :
  round_inv (startNewRound rnd g).
Proof.
  destruct (startNewRound_hands rnd g) as (_ & _ & _ & Hp & Ha & _).
  destruct (startNewRound_fields rnd g)
    as (Ht & Hl & Hf & _ & Hh & _ & _ & Hact & _).
  cbv zeta in *. unfold round_inv.
  rewrite Hl, Hf, Hh, Hp, Ha, Hact, Ht. simpl. lia.
Qed.

Lemma resolved_spec (g : GameState) :
  resolved g = true ↔ ∃ l f, leadCard g = Some l ∧ followCard g = Some f.
Proof.
  unfold resolved. rewrite andb_true_iff, !bool_decide_eq_true.
  destruct (leadCard g) as [l|], (followCard g) as [f|]; split;
    try (by intros [? ?]); try (by intros (? & ? & ? & ?)); eauto.
Qed.

Lemma step_inv (act : Action) (g g' : GameState) :
  round_inv g → step act g = Some g' → round_inv g'.
Proof.
  intros Hinv Hstep. destruct act as [p card|]; simpl in Hstep.
  - destruct (resolved g) eqn:R; [done|].
    case_bool_decide as Hin; [|done].
    destruct (playCard card p g) as [[b g1]|] eqn:E; [|done].
    simplify_eq.
    apply playCard_effect in E as [[-> ->] | (-> & Hheld & Hm)]; [done| |done].
    assert (¬ ∃ l f, leadCard g = Some l ∧ followCard g = Some f) as Hnr.
    { rewrite <- resolved_spec. by rewrite R. }
    unfold round_inv in *.
    destruct (leadCard g) as [l|], (followCard g) as [f|]; try done.
    + destruct Hnr. eauto.
    + destruct Hm as (-> & -> & (t & Hh & Htl & Htf) & Hm).
      rewrite Hh, length_app, last_snoc. simpl length.
      destruct Hinv as (Hsum & Hact & Htr & Hle).
      split; [|by exists t]. split; [lia|].
      case_bool_decide as H5; destruct Hm as [-> Ht]; [lia|].
      rewrite Hact, Ht. lia.
    + destruct Hm as (-> & -> & -> & Hact & ->).
      destruct Hinv as (Hsum & Hrest). rewrite Hact.
      destruct (gameActive g); [|lia].
      destruct Hrest. repeat split; [lia|done|lia].
  - destruct (resolved g) eqn:R; [|done]. simplify_eq.
    apply resolved_spec in R as (l & f & Hl & Hf).
    unfold round_inv in *. rewrite Hl, Hf in Hinv. by destruct Hinv.
Qed.

Lemma run_inv (acts : list Action) (g g' : GameState) :
  round_inv g → run acts g = Some g' → round_inv g'.
Proof.
  revert g. induction acts as [|act acts IH]; intros g Hinv Hrun; simpl in Hrun.
  - by simplify_eq.
  - destruct (step act g) as [g1|] eqn:E; [|done]. simpl in Hrun.
    eauto using step_inv.
Qed.


(** The two cards of a resolved trick that still lie on the table are those
    of the last trick of the history: they are counted there, not in
    flight. *)
Lemma resolved_trick_in_history (g : GameState) (l f : Card) :
  reachable g → leadCard g = Some l → followCard g = Some f →
  ∃ t, last (trickHistory g) = Some t ∧
       Trick.leadCard t = l ∧ Trick.followCard t = f.
Proof.
  intros (rnd & g0 & acts & Hrun) Hl Hf.
  pose proof (run_inv acts _ g (startNewRound_inv rnd g0) Hrun) as Hinv.
  unfold round_inv in Hinv. rewrite Hl, Hf in Hinv. by destruct Hinv.
Qed.



(** ** Starting a round *)

(** C7, as the code has it.  [startNewRound] rebuilds the deck of 52 cards
    and shuffles it, deals its first five cards to the player and the next
    five to the AI, resets the trick number, the table and the history, and
    gives the lead and the turn to the human player: whatever the oracle
    draws and whoever led before. *)
Theorem C7_startNewRound_player_leads (rnd : nat → nat) (g : GameState) :
  let d := cards (shuffle rnd (initialize (deck g))) in
  let g' := startNewRound rnd g in
  d ≡ₚ cards Deck_new ∧
  playerHand g' = take 5 d ∧ aiHand g' = take 5 (drop 5 d) ∧
  cards (deck g') = drop 10 d ∧
  length (playerHand g') = 5%nat ∧ length (aiHand g') = 5%nat ∧
  currentTrick g' = 1 ∧ leadCard g' = None ∧ followCard g' = None ∧
  playedCards g' = [] ∧ trickHistory g' = [] ∧
  leadPlayer g' = Some player ∧ currentPlayer g' = Some player.
Proof.
  intros d g'.
  destruct (startNewRound_hands rnd g) as (Hp & Ha & Hd & Hpl & Hal & _).
  split; [unfold d; rewrite shuffle_Permutation; reflexivity|].
  repeat (split; [assumption|]). repeat split.
Qed.

(** C7, as the specification has it, fails: the player leads the first
    round, and leads the round that follows it, where an alternation would
    have the AI lead. *)
Lemma C7_counterexample :
  leadPlayer round1 = Some player ∧
  run round1_acts round1 = Some round1_over ∧
  leadPlayer (startNewRound rnd0 round1_over) = Some player ∧
  leadPlayer (startNewRound rnd0 round1_over) ≠ Some (other player).
Proof.
  split; [reflexivity|]. split; [by vm_compute|].
  split; [reflexivity|]. by vm_compute.
Qed.

(** ** Stored settings *)

Lemma parseInt_nonNumericStart (a : ascii) (v : string) :
  nonNumericStart a = true → parseInt (String a v) = NaN.
Proof.
  destruct a as [[] [] [] [] [] [] [] []]; intros H;
    first [discriminate H | reflexivity].
Qed.

Lemma loadSettings_scoreGoal (localStorage : gmap string string) (g : GameState) :
  scoreGoal (loadSettings localStorage g) =
    match localStorage !! "scoreGoal" with
    | Some v => if bool_decide (v = EmptyString) then scoreGoal g else parseInt v
    | None => scoreGoal g
    end.
Proof.
  unfold loadSettings.
  destruct (localStorage !! "soundEnabled"),
    (localStorage !! "scoreGoal") as [v|],
    (localStorage !! "aiDifficulty") as [dv|],
    (localStorage !! "cardBack") as [cv|]; unfold truthy;
    repeat case_bool_decide; simplify_eq; reflexivity.
Qed.

(** C9, as the code has it.  Loading returns a state on every store.  A
    score goal that is not stored, or stored as the empty string, leaves the
    goal as it was, 5 in a fresh game; every other stored string [v]
    installs [parseInt v], well formed or not, and that is [NaN] for a string
    that starts with a character that is no white space, sign or digit.
    Stated for the stores whose goal is a string of ASCII characters that
    denotes an integer below 2^53, which [parseInt] reads exactly. *)
Theorem C9_loadSettings_installs_parseInt (localStorage : gmap string string)
    (g : GameState) :
  exactGoal localStorage = true →
  scoreGoal (loadSettings localStorage g) =
    match localStorage !! "scoreGoal" with
    | Some v => if bool_decide (v = EmptyString) then scoreGoal g else parseInt v
    | None => scoreGoal g
    end ∧
  scoreGoal (GameState_new localStorage) =
    match localStorage !! "scoreGoal" with
    | Some v => if bool_decide (v = EmptyString) then Num 5 else parseInt v
    | None => Num 5
    end ∧
  ∀ a v, nonNumericStart a = true →
         localStorage !! "scoreGoal" = Some (String a v) →
         scoreGoal (loadSettings localStorage g) = NaN.
Proof.
  intros _. split; [apply loadSettings_scoreGoal|]. split.
  - unfold GameState_new. by rewrite loadSettings_scoreGoal.
  - intros a v Ha Hv. rewrite loadSettings_scoreGoal, Hv.
    rewrite bool_decide_eq_false_2 by done.
    by apply parseInt_nonNumericStart.
Qed.

Lemma C9_witness :
  scoreGoal (loadSettings {[ "scoreGoal" := " 12 tricks" ]} GameState_fields) =
    match ({[ "scoreGoal" := " 12 tricks" ]} : gmap string string) !! "scoreGoal" with
    | Some v =>
        if bool_decide (v = EmptyString) then scoreGoal GameState_fields
        else parseInt v
    | None => scoreGoal GameState_fields
    end ∧
  scoreGoal (GameState_new {[ "scoreGoal" := " 12 tricks" ]}) =
    match ({[ "scoreGoal" := " 12 tricks" ]} : gmap string string) !! "scoreGoal" with
    | Some v => if bool_decide (v = EmptyString) then Num 5 else parseInt v
    | None => Num 5
    end ∧
  ∀ a v, nonNumericStart a = true →
         ({[ "scoreGoal" := " 12 tricks" ]} : gmap string string) !! "scoreGoal"
         = Some (String a v) →
         scoreGoal (loadSettings {[ "scoreGoal" := " 12 tricks" ]} GameState_fields)
         = NaN.
Proof.
  apply (C9_loadSettings_installs_parseInt {[ "scoreGoal" := " 12 tricks" ]}
           GameState_fields).
  reflexivity.
Defined.

(** C9, as the specification has it, fails: with the score goal stored as
    the string abc the goal becomes [NaN], where the goal of a session with
    nothing stored is 5. *)
Lemma C9_counterexample :
  parseInt "abc" = NaN ∧
  scoreGoal (GameState_new {[ "scoreGoal" := "abc" ]}) = NaN ∧
  scoreGoal (GameState_new ∅) = Num 5.
Proof. repeat split; by vm_compute. Qed.

(** ** The grandmaster follows *)

Lemma foldl_lowest (first : Card) (rest : list Card) :
  let c := foldl (λ lowest card,
                    if getValue card <? getValue lowest then card else lowest)
             first rest in
  c ∈ first :: rest ∧ ∀ c', c' ∈ first :: rest → getValue c ≤ getValue c'.
Proof.
  revert first. induction rest as [|x rest IH]; intros first; simpl.
  - split; [left|]. intros c' Hc'. apply list_elem_of_singleton in Hc' as ->. lia.
  - destruct (Z.ltb_spec (getValue x) (getValue first)) as [Hlt|Hge].
    + destruct (IH x) as [Hin Hmin]. split.
      * apply elem_of_cons in Hin as [->|Hin]; [right; left|by do 2 right].
      * intros c' Hc'. apply elem_of_cons in Hc' as [->|Hc'].
        -- etrans; [apply Hmin; left|lia].
        -- by apply Hmin.
    + destruct (IH first) as [Hin Hmin]. split.
      * apply elem_of_cons in Hin as [->|Hin]; [left|by do 2 right].
      * intros c' Hc'. apply elem_of_cons in Hc' as [->|Hc']; [apply Hmin; left|].
        apply elem_of_cons in Hc' as [->|Hc'].
        -- etrans; [apply Hmin; left|lia].
        -- apply Hmin. by right.
Qed.

(** [getLowestCard] of an array that is not empty returns one of its cards,
    of the least value. *)
Lemma getLowestCard_spec (cards : list Card) :
  (0 < length cards)%nat →
  ∃ c, AI.getLowestCard cards = Ok c ∧ c ∈ cards ∧
       ∀ c', c' ∈ cards → getValue c ≤ getValue c'.
Proof.
  destruct cards as [|first rest]; simpl; [lia|]. intros _.
  eexists. split; [reflexivity|]. apply foldl_lowest.
Qed.

Lemma filter_nonempty {A} (P : A → Prop) `{!∀ x, Decision (P x)} (l : list A) (x : A) :
  x ∈ l → P x → (0 < length (filter P l))%nat.
Proof.
  intros Hx HP.
  assert (x ∈ filter P l) as Hin by by apply list_elem_of_filter.
  destruct (filter P l); [by apply elem_of_nil in Hin | simpl; lia].
Qed.

(** Following a lead suit that the hand holds, the legal cards are the cards
    of the hand in that suit. *)
Lemma getValidCards_follow_suit (p : Player) (g : GameState) (l c : Card) :
  leadCard g = Some l → c ∈ hand p g → suit c = suit l →
  getValidCards p g = filter (λ c, suit c = suit l) (hand p g).
Proof.
  intros Hl Hc Hs. unfold getValidCards. rewrite Hl.
  rewrite bool_decide_eq_true_2; [done|].
  by apply (filter_nonempty (λ c, suit c = suit l) _ c).
Qed.

(** [chooseCardGrandmaster] off trick 5, following, with a card [w] in hand
    that beats the lead: the choice is the lowest card of the hand that
    beats the lead. *)
Lemma chooseCardGrandmaster_follow (floor_fifths : Z → Z → Z) (a : AI.t)
    (g : GameState) (l w : Card) :
  currentTrick g ≠ 5 → leadCard g = Some l →
  w ∈ aiHand g → suit w = suit l → getValue w > getValue l →
  ∃ c, (AI.chooseCardGrandmaster floor_fifths a g).2 = Ok (Some c) ∧
       c ∈ aiHand g ∧ suit c = suit l ∧ getValue c > getValue l ∧
       ∀ c', c' ∈ aiHand g → suit c' = suit l → getValue c' > getValue l →
             getValue c ≤ getValue c'.
Proof.
  intros Ht Hl Hw Hws Hwv.
  unfold AI.chooseCardGrandmaster.
  rewrite (bool_decide_eq_false_2 (currentTrick g = 5)) by done.
  rewrite Hl. rewrite (bool_decide_eq_false_2 (Some l = None)) by done.
  cbn [snd]. unfold AI.grandmasterFollow. rewrite Hl.
  rewrite (getValidCards_follow_suit ai g l w Hl Hw Hws). cbn [hand].
  set (sameSuit := filter (λ c, suit c = suit l)
                     (filter (λ c, suit c = suit l) (aiHand g))).
  assert (∀ c, c ∈ sameSuit ↔ c ∈ aiHand g ∧ suit c = suit l) as Hsame.
  { intros c. unfold sameSuit. rewrite !list_elem_of_filter. tauto. }
  assert (w ∈ sameSuit) as Hw' by by apply Hsame.
  rewrite (bool_decide_eq_true_2 (0 < length sameSuit)%nat)
    by (by destruct sameSuit; [apply elem_of_nil in Hw'|simpl; lia]).
  pose proof (filter_nonempty (λ c, getValue c > getValue l) sameSuit w Hw' Hwv)
    as Hwin.
  rewrite (bool_decide_eq_true_2 _ Hwin).
  destruct (getLowestCard_spec _ Hwin) as (c & -> & Hc & Hmin).
  exists c. split; [reflexivity|].
  apply list_elem_of_filter in Hc as [Hcv Hc]. apply Hsame in Hc as [Hc Hcs].
  repeat split; [done..|].
  intros c' Hc' Hs' Hv'. apply Hmin, list_elem_of_filter. split; [done|].
  by apply Hsame.
Qed.

(** C8. At grandmaster level, following on one of the tricks 1 to 4 with a
    card in hand that is of the lead suit and above the lead card, the AI
    chooses a card of its hand that is of the lead suit and above the lead
    card, and no such card of the hand has a lower value. *)
Theorem C8_grandmaster_takes_trick (floor_fifths : Z → Z → Z) (r : nat)
    (a : AI.t) (g : GameState) (l w : Card) :
  aiDifficulty g = "grandmaster" → 1 ≤ currentTrick g ≤ 4 →
  leadCard g = Some l →
  w ∈ aiHand g → suit w = suit l → getValue w > getValue l →
  ∃ c, (AI.chooseCard floor_fifths r a g).2 = Ok (Some c) ∧
       c ∈ aiHand g ∧ suit c = suit l ∧ getValue c > getValue l ∧
       ∀ c', c' ∈ aiHand g → suit c' = suit l → getValue c' > getValue l →
             getValue c ≤ getValue c'.
Proof.
  intros Hd Ht Hl Hw Hws Hwv.
  unfold AI.chooseCard. rewrite Hd.
  rewrite (bool_decide_eq_false_2 ("grandmaster" = "easy")) by done.
  rewrite (bool_decide_eq_false_2 ("grandmaster" = "medium")) by done.
  rewrite (bool_decide_eq_false_2 ("grandmaster" = "hard")) by done.
  rewrite (bool_decide_eq_true_2 ("grandmaster" = "grandmaster")) by done.
  apply (chooseCardGrandmaster_follow floor_fifths a g l w); [lia|done..].
Qed.

(** The card so chosen takes the trick: played by the AI against a lead of
    the player, it is accepted and the trick goes to the AI. *)
Lemma grandmaster_choice_wins (floor_fifths : Z → Z → Z) (a : AI.t)
    (g : GameState) (l w : Card) :
  currentTrick g ≠ 5 → leadCard g = Some l → followCard g = None →
  leadPlayer g = Some player → currentPlayer g = Some ai →
  w ∈ aiHand g → suit w = suit l → getValue w > getValue l →
  ∃ c g', (AI.chooseCardGrandmaster floor_fifths a g).2 = Ok (Some c) ∧
          playCard c ai g = Ok (true, g') ∧
          Trick.winner <$> last (trickHistory g') = Some (Some ai).
Proof.
  intros Ht Hl Hf Hlp Hcp Hw Hws Hwv.
  destruct (chooseCardGrandmaster_follow floor_fifths a g l w)
    as (c & Hc & Hin & Hs & Hv & _); [done..|].
  exists c. unfold playCard, canPlayCard.
  rewrite Hcp, (bool_decide_eq_false_2 (Some ai ≠ Some ai)) by (by intros []).
  rewrite Hl.
  assert (existsb (λ c0, bool_decide (suit c0 = suit l)) (hand ai g) = true) as ->.
  { apply existsb_suit. by exists w. }
  rewrite (bool_decide_eq_true_2 (suit c = suit l)) by done. cbn [negb].
  destruct (splice_found c (hand ai g) Hin) as [Hidx _].
  rewrite (bool_decide_eq_true_2 _ Hidx). fields. rewrite Hl.
  set (g2 := set_playedCards _ _).
  assert (trickWinner l c player = ai) as Hwin.
  { unfold trickWinner. rewrite bool_decide_eq_true_2 by done.
    destruct (Z.gtb_spec (getValue l) (getValue c)); [lia|done]. }
  rewrite (evaluateTrick_eq g2 l c player) by (subst g2; by fields).
  rewrite Hwin. subst g2. fields.
  case_bool_decide; cbn [js_bind]; eexists; (split; [done|]);
    (split; [reflexivity|]); fields; by rewrite last_snoc.
Qed.

Lemma C8_witness :
  (AI.chooseCard exact_fifths 0 AI.new scenario_9c_7d).2
  = Ok (Some (mkCard clubs r9)).
Proof.
  destruct (C8_grandmaster_takes_trick exact_fifths 0 AI.new scenario_9c_7d
              (mkCard clubs r5) (mkCard clubs r9))
    as (c & -> & Hc & Hs & _).
  - reflexivity.
  - vm_compute. split; discriminate.
  - reflexivity.
  - left.
  - reflexivity.
  - reflexivity.
  - do 2 f_equal.
    apply elem_of_cons in Hc as [->|Hc]; [reflexivity|].
    apply list_elem_of_singleton in Hc as ->. discriminate Hs.
Defined.

(** ** The strategies on sample hands *)

(** Leading on trick 1 with the ace and the 3 of spades and the 7 of hearts,
    the grandmaster gets rid of the lone heart. *)
Example grandmaster_dumps_singleton :
  (AI.chooseCard exact_fifths 0 AI.new
     (ai_to_move [mkCard spades ace; mkCard spades r3; mkCard hearts r7]
        1 None "grandmaster")).2
  = Ok (Some (mkCard hearts r7)).
Proof. by vm_compute. Qed.

(** With two suits of two cards, it leads the top of the weaker suit on
    trick 1 and the top of the stronger suit on trick 3. *)
Example grandmaster_drains_suits :
  let h := [mkCard spades ace; mkCard spades r3; mkCard hearts king; mkCard hearts r2] in
  (AI.chooseCard exact_fifths 0 AI.new (ai_to_move h 1 None "grandmaster")).2
  = Ok (Some (mkCard hearts king)) ∧
  (AI.chooseCard exact_fifths 0 AI.new (ai_to_move h 3 None "grandmaster")).2
  = Ok (Some (mkCard spades ace)).
Proof. split; by vm_compute. Qed.

(** Unable to beat the 5 of clubs, it follows with its highest club; out of
    clubs, it throws its lowest card. *)
Example grandmaster_cannot_win :
  (AI.chooseCard exact_fifths 0 AI.new
     (ai_to_move [mkCard clubs r4; mkCard clubs r3; mkCard diamonds r7]
        2 (Some (mkCard clubs r5)) "grandmaster")).2
  = Ok (Some (mkCard clubs r4)) ∧
  (AI.chooseCard exact_fifths 0 AI.new
     (ai_to_move [mkCard hearts r4; mkCard spades r3; mkCard diamonds r7]
        2 (Some (mkCard clubs r5)) "grandmaster")).2
  = Ok (Some (mkCard spades r3)).
Proof. split; by vm_compute. Qed.

(** A difficulty that is none of the four plays as medium; with no card to
    play, medium raises and easy returns [undefined]. *)
Example unknown_level_is_medium :
  let g level := ai_to_move [mkCard clubs r9; mkCard clubs r3; mkCard diamonds r7]
                   2 (Some (mkCard clubs r5)) level in
  (AI.chooseCard exact_fifths 0 AI.new (g "expert")).2
  = (AI.chooseCard exact_fifths 0 AI.new (g "medium")).2 ∧
  (AI.chooseCard exact_fifths 0 AI.new (ai_to_move [] 2 None "medium")).2
  = TypeError ∧
  (AI.chooseCard exact_fifths 0 AI.new (ai_to_move [] 2 None "easy")).2
  = Ok None.
Proof. repeat split; by vm_compute. Qed.

(** * Further properties of the code *)

(** ** One step of legal play, case by case *)

Lemma card_eq (c d : Card) : suit c = suit d ∧ rank c = rank d → c = d.
Proof. destruct c, d; simpl; intros [-> ->]; reflexivity. Qed.

Lemma splice_found_Permutation (card : Card) (h : list Card) :
  card ∈ h →
  let index := findIndex (λ c, suit c = suit card ∧ rank c = rank card) h in
  index ≠ -1 ∧ h ≡ₚ card :: splice1 index h.
Proof.
  intros Hin. unfold findIndex, splice1.
  destruct (list_find _ h) as [[i c]|] eqn:E; simpl.
  - apply list_find_Some in E as (Hi & Hc & _). split; [lia|].
    apply card_eq in Hc as ->. rewrite Nat2Z.id. by apply delete_Permutation.
  - apply list_find_None in E. rewrite Forall_forall in E.
    by destruct (E card Hin).
Qed.

(** A play of legal play is refused, or is a lead, or is a follow. *)
Lemma step_Play_cases (p : Player) (card : Card) (g g' : GameState) :
  step (Play p card) g = Some g' →
  g' = g ∨
  ∃ h', hand p g ≡ₚ card :: h' ∧ currentPlayer g = Some p ∧
    ((leadCard g = None ∧
      g' = set_currentPlayer (Some (other p))
             (set_playedCards (playedCards g ++ [(card, p)])
                (set_leadPlayer (Some p)
                   (set_leadCard (Some card) (set_hand p h' g))))) ∨
     (∃ l r,
        leadCard g = Some l ∧ followCard g = None ∧
        ((∃ c, c ∈ hand p g ∧ suit c = suit l) → suit card = suit l) ∧
        evaluateTrick
          (set_playedCards (playedCards g ++ [(card, p)])
             (set_followCard (Some card) (set_hand p h' g)))
        = Ok (r, g'))).
Proof.
  intros Hstep. simpl in Hstep.
  destruct (resolved g) eqn:R; [done|].
  case_bool_decide as Hin; [|done].
  destruct (playCard card p g) as [[b g1]|] eqn:E; [|done].
  simplify_eq. unfold playCard in E.
  destruct (canPlayCard card p g) eqn:Hcan; cbn [negb] in E;
    [|left; by simplify_eq].
  right. destruct (splice_found_Permutation card (hand p g) Hin) as [Hidx Hperm].
  rewrite bool_decide_eq_true_2 in E by done.
  eexists. split; [exact Hperm|].
  unfold canPlayCard in Hcan.
  case_bool_decide as Hcp; [done|].
  assert (currentPlayer g = Some p) as Hcur.
  { destruct (decide (currentPlayer g = Some p)); [done|by destruct Hcp]. }
  split; [done|].
  revert E. generalize (splice1
    (findIndex (λ c, suit c = suit card ∧ rank c = rank card) (hand p g))
    (hand p g)). intros h' E.
  assert (leadCard (set_hand p h' g) = leadCard g) as El by (by destruct p).
  assert (playedCards (set_hand p h' g) = playedCards g) as Ep by (by destruct p).
  rewrite El in E. destruct (leadCard g) as [l|] eqn:Hl.
  - right. cbn [playedCards set_followCard] in E. rewrite Ep in E.
    destruct (evaluateTrick _) as [[r g2]|] eqn:Ev; [|done].
    cbn [js_bind] in E. simplify_eq.
    exists l, r. split; [done|]. split.
    { unfold resolved in R. rewrite Hl in R.
      rewrite (bool_decide_eq_true_2 (Some l ≠ None)) in R by done.
      destruct (followCard g); [done|done]. }
    split; [|done].
    intros Hs. apply existsb_suit in Hs. rewrite Hs in Hcan.
    by apply bool_decide_eq_true in Hcan.
  - left. split; [done|]. simplify_eq.
    cbn [playedCards set_leadPlayer set_leadCard]. by rewrite Ep.
Qed.

Lemma step_ClearTrick_cases (g g' : GameState) :
  step ClearTrick g = Some g' →
  ∃ l f, leadCard g = Some l ∧ followCard g = Some f ∧ g' = clearTrick g.
Proof.
  simpl. destruct (resolved g) eqn:R; [|done]. intros ?; simplify_eq.
  apply resolved_spec in R as (l & f & Hl & Hf). by exists l, f.
Qed.

(** The fields after a lead. *)
Lemma lead_result (p : Player) (card : Card) (h' : list Card) (g : GameState) :
  let g' := set_currentPlayer (Some (other p))
              (set_playedCards (playedCards g ++ [(card, p)])
                 (set_leadPlayer (Some p)
                    (set_leadCard (Some card) (set_hand p h' g)))) in
  hand p g' = h' ∧ hand (other p) g' = hand (other p) g ∧ deck g' = deck g ∧
  leadCard g' = Some card ∧ followCard g' = followCard g ∧
  trickHistory g' = trickHistory g ∧ gameActive g' = gameActive g ∧
  leadPlayer g' = Some p ∧ currentPlayer g' = Some (other p) ∧
  currentTrick g' = currentTrick g ∧
  playerScore g' = playerScore g ∧ aiScore g' = aiScore g.
Proof. destruct p; repeat split. Qed.

(** The fields after a follow, which resolves the trick. *)
Lemma follow_result (p : Player) (card l : Card) (lp : Player) (h' : list Card)
    (pc : list (Card * Player)) (g g' : GameState) (r : TrickResult) :
  leadCard g = Some l → leadPlayer g = Some lp →
  evaluateTrick (set_playedCards pc (set_followCard (Some card) (set_hand p h' g)))
  = Ok (r, g') →
  let w := trickWinner l card lp in
  hand p g' = h' ∧ hand (other p) g' = hand (other p) g ∧ deck g' = deck g ∧
  leadCard g' = Some l ∧ followCard g' = Some card ∧
  trickHistory g'
  = trickHistory g ++ [Trick.mk (currentTrick g) l card (Some lp) (Some w)] ∧
  if bool_decide (currentTrick g = 5) then
    r = game_over ∧ gameActive g' = false ∧ leadPlayer g' = Some lp ∧
    currentPlayer g' = currentPlayer g ∧ currentTrick g' = currentTrick g ∧
    score w g' = score w g + 1 ∧ score (other w) g' = score (other w) g
  else
    r = trick_complete ∧ gameActive g' = gameActive g ∧ leadPlayer g' = Some w ∧
    currentPlayer g' = Some w ∧ currentTrick g' = currentTrick g + 1 ∧
    playerScore g' = playerScore g ∧ aiScore g' = aiScore g.
Proof.
  intros Hl Hlp Hev w.
  rewrite (evaluateTrick_eq _ l card lp) in Hev by (by destruct p).
  cbv zeta in Hev. fold w in Hev.
  assert (currentTrick (set_playedCards pc
            (set_followCard (Some card) (set_hand p h' g))) = currentTrick g)
    as Et by (by destruct p).
  rewrite Et in Hev. destruct (bool_decide (currentTrick g = 5)).
  - simplify_eq. destruct p, w; repeat split; by rewrite ?Hl, ?Hlp.
  - simplify_eq. destruct p; repeat split; by rewrite ?Hl, ?Hlp.
Qed.

(** ** What legal play keeps true *)

Lemma run_invariant (I : GameState → Prop) :
  (∀ act g g', I g → step act g = Some g' → I g') →
  ∀ acts g g', I g → run acts g = Some g' → I g'.
Proof.
  intros Hstep acts. induction acts as [|act acts IH]; intros g g' Hg Hrun;
    simpl in Hrun.
  - by simplify_eq.
  - destruct (step act g) as [g1|] eqn:E; [|done]. simpl in Hrun. eauto.
Qed.

Lemma other_cases (p q : Player) : q = p ∨ q = other p.
Proof. destruct p, q; auto. Qed.

Lemma other_other (p : Player) : other (other p) = p.
Proof. by destruct p. Qed.

Lemma turn_history_mono (g g' : GameState) (t : Trick.t) :
  (∀ q c, c ∈ hand q g' → c ∈ hand q g) →
  (∃ x, Trick.leadPlayer t = Some x ∧
        Trick.winner t
        = Some (trickWinner (Trick.leadCard t) (Trick.followCard t) x) ∧
        (suit (Trick.followCard t) ≠ suit (Trick.leadCard t) →
         ∀ c, c ∈ hand (other x) g → suit c ≠ suit (Trick.leadCard t))) →
  ∃ x, Trick.leadPlayer t = Some x ∧
       Trick.winner t
       = Some (trickWinner (Trick.leadCard t) (Trick.followCard t) x) ∧
       (suit (Trick.followCard t) ≠ suit (Trick.leadCard t) →
        ∀ c, c ∈ hand (other x) g' → suit c ≠ suit (Trick.leadCard t)).
Proof.
  intros Hsub (x & Hx & Hw & Hv). exists x. repeat split; [done..|].
  intros Hoff c Hc. apply (Hv Hoff). by apply Hsub.
Qed.

Lemma lead_preserves (ps0 as0 : Z) (p : Player) (card : Card) (h' : list Card)
    (g g' : GameState) :
  game_inv ps0 as0 g → hand p g ≡ₚ card :: h' → leadCard g = None →
  round_inv g' →
  hand p g' = h' ∧ hand (other p) g' = hand (other p) g ∧ deck g' = deck g ∧
  leadCard g' = Some card ∧ followCard g' = followCard g ∧
  trickHistory g' = trickHistory g ∧ gameActive g' = gameActive g ∧
  leadPlayer g' = Some p ∧ currentPlayer g' = Some (other p) ∧
  currentTrick g' = currentTrick g ∧
  playerScore g' = playerScore g ∧ aiScore g' = aiScore g →
  game_inv ps0 as0 g'.
Proof.
  intros (Hr & Ht & Hs & Hc & Hn) Hperm Hl Hr'
    (Fh & Fo & Fd & Fl & Ff & Fhist & Fact & Flp & Fcp & Ftr & Fps & Fas).
  assert (followCard g = None) as Hf.
  { unfold round_inv in Hr. rewrite Hl in Hr. by destruct (followCard g). }
  assert (∀ q c, c ∈ hand q g' → c ∈ hand q g) as Hsub.
  { intros q c. destruct (other_cases p q) as [-> | ->].
    - rewrite Fh, Hperm. by right.
    - by rewrite Fo. }
  split; [done|]. split; [|split; [|split]].
  - destruct Ht as (lp & cp & _ & _ & _ & Hall).
    exists p, (other p). rewrite Fl, Ff, Hf, Fhist.
    repeat split; [done..|].
    eapply Forall_impl; [exact Hall|]. intros t. by apply turn_history_mono.
  - unfold score_inv in *. rewrite Fact, Fhist, Fps, Fas.
    destruct (gameActive g); [done|].
    destruct Hs as (t & w & ? & ? & Hw & Ho). exists t, w.
    repeat split; [done..| |]; destruct w; simpl in *; congruence.
  - unfold playedSoFar in *. rewrite Fl, Ff, Hf, Fhist, Fd.
    rewrite Hl, ?Hf in Hc. rewrite <- Hc.
    destruct p; cbn [hand other] in *; rewrite Fh, Fo, Hperm; solve_Permutation.
  - by rewrite Fhist.
Qed.

Lemma follow_preserves (ps0 as0 : Z) (p lp : Player) (card l : Card)
    (h' : list Card) (r : TrickResult) (g g' : GameState) :
  game_inv ps0 as0 g → hand p g ≡ₚ card :: h' → currentPlayer g = Some p →
  leadCard g = Some l → followCard g = None → leadPlayer g = Some lp →
  ((∃ c, c ∈ hand p g ∧ suit c = suit l) → suit card = suit l) →
  round_inv g' →
  (let w := trickWinner l card lp in
   hand p g' = h' ∧ hand (other p) g' = hand (other p) g ∧ deck g' = deck g ∧
   leadCard g' = Some l ∧ followCard g' = Some card ∧
   trickHistory g'
   = trickHistory g ++ [Trick.mk (currentTrick g) l card (Some lp) (Some w)] ∧
   if bool_decide (currentTrick g = 5) then
     r = game_over ∧ gameActive g' = false ∧ leadPlayer g' = Some lp ∧
     currentPlayer g' = currentPlayer g ∧ currentTrick g' = currentTrick g ∧
     score w g' = score w g + 1 ∧ score (other w) g' = score (other w) g
   else
     r = trick_complete ∧ gameActive g' = gameActive g ∧ leadPlayer g' = Some w ∧
     currentPlayer g' = Some w ∧ currentTrick g' = currentTrick g + 1 ∧
     playerScore g' = playerScore g ∧ aiScore g' = aiScore g) →
  game_inv ps0 as0 g'.
Proof.
  intros (Hr & Ht & Hs & Hc & Hn) Hperm Hcur Hl Hf Hlp Hsuit Hr'.
  cbv zeta. set (w := trickWinner l card lp).
  intros (Fh & Fo & Fd & Fl & Ff & Fhist & Frest).
  assert (∀ q c, c ∈ hand q g' → c ∈ hand q g) as Hsub.
  { intros q c. destruct (other_cases p q) as [-> | ->].
    - rewrite Fh, Hperm. by right.
    - by rewrite Fo. }
  assert (gameActive g = true ∧ currentTrick g = Z.of_nat (length (trickHistory g)) + 1)
    as [Hact Htn].
  { unfold round_inv in Hr. rewrite Hl, Hf in Hr. tauto. }
  assert (p = other lp) as Hp.
  { destruct Ht as (lp' & cp & Hlp' & Hcp & Hst & _).
    rewrite Hl, Hf in Hst. congruence. }
  assert (Forall (λ t, ∃ x,
              Trick.leadPlayer t = Some x ∧
              Trick.winner t
              = Some (trickWinner (Trick.leadCard t) (Trick.followCard t) x) ∧
              (suit (Trick.followCard t) ≠ suit (Trick.leadCard t) →
               ∀ c, c ∈ hand (other x) g' → suit c ≠ suit (Trick.leadCard t)))
            (trickHistory g')) as Hall'.
  { destruct Ht as (_ & _ & _ & _ & _ & Hall).
    rewrite Fhist. apply Forall_app. split.
    - eapply Forall_impl; [exact Hall|]. intros t. by apply turn_history_mono.
    - apply Forall_singleton. exists lp. simpl. repeat split; [done..|].
      intros Hoff c Hc' Hs'. apply Hoff, Hsuit. exists c. split; [|done].
      rewrite <- Hp in Hc'. by apply Hsub. }
  split; [done|]. split; [|split; [|split]].
  - case_bool_decide as H5.
    + destruct Frest as (_ & Fact & Flp & Fcp & _).
      exists lp, p. rewrite Fl, Ff, Flp, Fcp, Fact. by repeat split.
    + destruct Frest as (_ & Fact & Flp & Fcp & _).
      exists w, w. rewrite Fl, Ff, Flp, Fcp.
      repeat split; [done..| |done].
      intros t. rewrite Fhist, last_snoc. by intros [= <-].
  - unfold score_inv in *. rewrite Hact in Hs. destruct Hs as [Hps Has].
    case_bool_decide as H5.
    + destruct Frest as (_ & Fact & _ & _ & _ & Fw & Fow). rewrite Fact.
      eexists _, w. rewrite Fhist, last_snoc. split; [done|]. split; [done|].
      rewrite Fw, Fow. destruct w; simpl; by rewrite ?Hps, ?Has.
    + destruct Frest as (_ & Fact & _ & _ & _ & Fps & Fas).
      by rewrite Fact, Hact, Fps, Fas.
  - unfold playedSoFar in *. rewrite Fl, Ff, Fhist, Fd, bind_app.
    rewrite Hl, Hf in Hc. rewrite <- Hc. simpl.
    destruct p; cbn [hand other] in *; rewrite Fh, Fo, Hperm; solve_Permutation.
  - rewrite Fhist, fmap_app, length_app, Hn. simpl.
    rewrite Nat.add_1_r, seq_S, fmap_app. simpl. do 2 f_equal. lia.
Qed.

Lemma clear_preserves (ps0 as0 : Z) (l f : Card) (g : GameState) :
  game_inv ps0 as0 g → leadCard g = Some l → followCard g = Some f →
  game_inv ps0 as0 (clearTrick g).
Proof.
  intros (Hr & Ht & Hs & Hc & Hn) Hl Hf.
  split; [by eapply (step_inv ClearTrick g); [done|];
             simpl; rewrite (proj2 (resolved_spec g)) by eauto|].
  split; [|split; [|split]].
  - destruct Ht as (lp & cp & Hlp & Hcp & Hst & Hall).
    exists lp, cp. rewrite Hl, Hf in Hst.
    split; [done|]. split; [done|]. split; [exact Hst|].
    eapply Forall_impl; [exact Hall|]. intros t.
    apply turn_history_mono. by intros [].
  - exact Hs.
  - unfold playedSoFar in *. rewrite Hl, Hf in Hc. exact Hc.
  - exact Hn.
Qed.

Lemma step_game_inv (ps0 as0 : Z) (act : Action) (g g' : GameState) :
  game_inv ps0 as0 g → step act g = Some g' → game_inv ps0 as0 g'.
Proof.
  intros Hinv Hstep.
  assert (round_inv g') as Hr' by (eapply step_inv; [apply Hinv|done]).
  destruct act as [p card|].
  - apply step_Play_cases in Hstep
      as [-> | (h' & Hperm & Hcur & [[Hl ->] | (l & r & Hl & Hf & Hsuit & Hev)])].
    + done.
    + eapply lead_preserves; [done..|]. apply lead_result.
    + destruct Hinv as (Hr & Ht & Hrest).
      destruct (Ht) as (lp & cp & Hlp & _).
      eapply (follow_preserves ps0 as0 p lp card l h' r g g'); [done..|].
      by eapply follow_result.
  - apply step_ClearTrick_cases in Hstep as (l & f & Hl & Hf & ->).
    by eapply clear_preserves.
Qed.

Lemma startNewRound_game_inv (rnd : nat → nat) (g0 : GameState) :
  game_inv (playerScore g0) (aiScore g0) (startNewRound rnd g0).
Proof.
  destruct (startNewRound_hands rnd g0) as (Hp & Ha & Hd & _).
  destruct (startNewRound_fields rnd g0)
    as (Ht & Hl & Hf & _ & Hh & Hlp & Hcp & Hact & _ & Hps & Has).
  cbv zeta in *.
  split; [apply startNewRound_inv|]. split; [|split; [|split]].
  - exists player, player. rewrite Hl, Hh.
    split; [done|]. split; [done|]. split; [|by apply Forall_nil].
    intros _. split; [done|]. by intros t [=].
  - unfold score_inv. by rewrite Hact.
  - unfold playedSoFar. rewrite Hl, Hh, Hp, Ha, Hd.
    cbn [mbind list_bind app].
    rewrite <- (drop_drop _ 5 5), !take_drop, shuffle_Permutation.
    reflexivity.
  - by rewrite Hh.
Qed.

Lemma run_game_inv (rnd : nat → nat) (g0 g : GameState) (acts : list Action) :
  run acts (startNewRound rnd g0) = Some g →
  game_inv (playerScore g0) (aiScore g0) g.
Proof.
  apply (run_invariant (game_inv (playerScore g0) (aiScore g0))).
  - intros act g1 g2. apply step_game_inv.
  - apply startNewRound_game_inv.
Qed.

Lemma Deck_new_NoDup : NoDup (cards Deck_new).
Proof. apply (initialize_all_cards {| cards := []; deck_soundEnabled := true |}). Qed.

(** ** The cards of a round *)

(** X1. In every state of a round under legal play, the two hands, the cards
    played so far and the rest of the deck hold the 52 cards, each once: no
    card is lost, and none is in two places.  When no resolved trick lies on
    the table, the cards played so far are those that the AI lists in
    [updatePlayedCards]. *)
Theorem cards_conserved (g : GameState) (a : AI.t) :
  reachable g →
  playerHand g ++ aiHand g ++ playedSoFar g ++ cards (deck g) ≡ₚ cards Deck_new ∧
  NoDup (playerHand g ++ aiHand g ++ playedSoFar g ++ cards (deck g)) ∧
  (resolved g = false →
   AI.playedCards (AI.updatePlayedCards g a) = playedSoFar g).
Proof.
  intros (rnd & g0 & acts & Hrun).
  destruct (run_game_inv rnd g0 g acts Hrun) as (Hr & _ & _ & Hc & _).
  split; [done|]. split; [rewrite Hc; apply Deck_new_NoDup|].
  intros Hres. unfold playedSoFar, AI.updatePlayedCards. simpl.
  unfold round_inv in Hr.
  destruct (leadCard g) as [l|] eqn:Hl, (followCard g) as [f|] eqn:Hf; try done.
  assert (resolved g = true) as Hres'; [|congruence].
  apply resolved_spec. eauto.
Qed.

Lemma cards_conserved_witness :
  playerHand round1_over ++ aiHand round1_over ++ playedSoFar round1_over
    ++ cards (deck round1_over) ≡ₚ cards Deck_new.
Proof.
  apply (cards_conserved round1_over AI.new).
  exists rnd0, (set_aiScore 0 (set_playerScore 0 (GameState_new ∅))), round1_acts.
  vm_compute. reflexivity.
Defined.

Lemma round1_over_run : run round1_acts round1 = Some round1_over.
Proof. by vm_compute. Qed.

Lemma round7_trick5_run : run round7_acts round7 = Some round7_trick5.
Proof. by vm_compute. Qed.

Lemma round7_trick2_run : run (take 3 round7_acts) round7 = Some round7_trick2.
Proof. by vm_compute. Qed.

Lemma round7_follow_run : run (take 4 round7_acts) round7 = Some round7_follow.
Proof. by vm_compute. Qed.

(** ** Scores, turns and the history *)

(** X2. A round of legal play gives one point: while it runs the scores are
    those it started with, and when it is over the winner of its last trick,
    which is trick 5, has one point more and the other player the same. *)
Theorem round_awards_one_point (rnd : nat → nat) (g0 g : GameState)
    (acts : list Action) :
  run acts (startNewRound rnd g0) = Some g →
  if gameActive g
  then playerScore g = playerScore g0 ∧ aiScore g = aiScore g0
  else ∃ t w, last (trickHistory g) = Some t ∧ Trick.trickNumber t = 5 ∧
              Trick.winner t = Some w ∧
              score w g = score w g0 + 1 ∧
              score (other w) g = score (other w) g0.
Proof.
  intros Hrun.
  destruct (run_game_inv rnd g0 g acts Hrun) as (Hr & _ & Hs & _ & Hn).
  unfold score_inv in Hs. destruct (gameActive g) eqn:Hact; [done|].
  destruct Hs as (t & w & Hlast & Hw & Hsw & Hso).
  exists t, w. split; [done|]. split.
  - assert (length (trickHistory g) = 5%nat) as H5.
    { unfold round_inv in Hr. rewrite Hact in Hr. cbv zeta in Hr.
      destruct (leadCard g), (followCard g); intuition (try done). }
    rewrite H5 in Hn. apply last_Some in Hlast as [h' Hh].
    rewrite Hh in Hn, H5. rewrite fmap_app in Hn. simpl in Hn.
    rewrite length_app in H5. simpl in H5.
    assert (length (Trick.trickNumber <$> h') = 4%nat) as H4
      by (rewrite length_fmap; lia).
    destruct (Trick.trickNumber <$> h') as [|? [|? [|? [|? [|]]]]];
      simpl in *; try lia. by simplify_eq.
  - split; [done|]. by destruct w.
Qed.

Lemma round_awards_one_point_witness :
  ∃ t w, last (trickHistory round1_over) = Some t ∧ Trick.trickNumber t = 5 ∧
         Trick.winner t = Some w ∧
         score w round1_over = score w (resetScores (GameState_new ∅)) + 1 ∧
         score (other w) round1_over
         = score (other w) (resetScores (GameState_new ∅)).
Proof.
  exact (round_awards_one_point rnd0 (resetScores (GameState_new ∅))
           round1_over round1_acts round1_over_run).
Defined.

Lemma first_leader_step (act : Action) (g g' : GameState) :
  round_inv g ∧
  (trickHistory g = [] → inFlightCards g = 0%nat → leadPlayer g = Some player) →
  step act g = Some g' →
  round_inv g' ∧
  (trickHistory g' = [] → inFlightCards g' = 0%nat → leadPlayer g' = Some player).
Proof.
  intros [Hr IH] Hstep. split; [by eapply step_inv|]. intros Hh Hfl.
  destruct act as [p card|].
  - apply step_Play_cases in Hstep
      as [-> | (h' & _ & _ & [[Hl ->] | (l & r & Hl & Hf & _ & Hev)])];
      [auto| |].
    + unfold round_inv in Hr. rewrite Hl in Hr.
      destruct (followCard g) eqn:Hf; [done|].
      unfold inFlightCards in Hfl. destruct p; fields; by rewrite Hf in Hfl.
    + unfold evaluateTrick in Hev.
      assert (leadCard (set_playedCards (playedCards g ++ [(card, p)])
                (set_followCard (Some card) (set_hand p h' g))) = Some l)
        as El by (by destruct p).
      rewrite El in Hev. cbn [followCard set_playedCards set_followCard] in Hev.
      repeat case_bool_decide; simplify_eq; fields;
        by destruct (trickHistory (set_hand p h' g)).
  - apply step_ClearTrick_cases in Hstep as (l & f & Hl & Hf & ->).
    apply IH; [done|]. unfold inFlightCards. by rewrite Hl, Hf.
Qed.

(** X3. Under legal play the players take turns as the game has it: with a
    lead on the table the turn is the other player's; with the table clear,
    or a resolved trick on it, in a round that is not over, the turn and the
    lead are with the winner of the last trick, and with the human player
    before the first trick. *)
Theorem winner_leads_next (g : GameState) :
  reachable g →
  ∃ lp cp,
    leadPlayer g = Some lp ∧ currentPlayer g = Some cp ∧
    (inFlightCards g = 1%nat → cp = other lp) ∧
    (inFlightCards g = 0%nat → gameActive g = true →
       cp = lp ∧
       match last (trickHistory g) with
       | Some t => Trick.winner t = Some lp
       | None => lp = player
       end).
Proof.
  intros (rnd & g0 & acts & Hrun).
  assert (trickHistory g = [] → inFlightCards g = 0%nat →
          leadPlayer g = Some player) as Hfirst.
  { apply (run_invariant _ first_leader_step acts (startNewRound rnd g0) g);
      [|done]. split; [apply startNewRound_inv|done]. }
  destruct (run_game_inv rnd g0 g acts Hrun)
    as (Hr & (lp & cp & Hlp & Hcp & Hst & _) & _).
  exists lp, cp. split; [done|]. split; [done|].
  unfold inFlightCards in *.
  destruct (leadCard g) as [l|] eqn:Hl, (followCard g) as [f|] eqn:Hf;
    (split; [try done|]); try done.
  - intros _ Hact. destruct (Hst Hact) as [-> Hlast]. split; [done|].
    destruct (last (trickHistory g)) as [t|] eqn:E; [auto|].
    apply last_None in E. specialize (Hfirst E eq_refl). congruence.
  - unfold round_inv in Hr. by rewrite Hl, Hf in Hr.
  - intros _ Hact. destruct (Hst Hact) as [-> Hlast]. split; [done|].
    destruct (last (trickHistory g)) as [t|] eqn:E; [auto|].
    apply last_None in E. specialize (Hfirst E eq_refl). congruence.
Qed.

Lemma round7_reachable (acts : list Action) (g : GameState) :
  run acts round7 = Some g → reachable g.
Proof.
  intros Hrun.
  by exists rnd7, (set_aiScore 0 (set_playerScore 0
                    (GameState_new {[ "aiDifficulty" := "grandmaster" ]}))), acts.
Qed.

Lemma winner_leads_next_witness :
  ∃ lp cp,
    leadPlayer round7_trick2 = Some lp ∧ currentPlayer round7_trick2 = Some cp ∧
    (inFlightCards round7_trick2 = 1%nat → cp = other lp) ∧
    (inFlightCards round7_trick2 = 0%nat → gameActive round7_trick2 = true →
       cp = lp ∧
       match last (trickHistory round7_trick2) with
       | Some t => Trick.winner t = Some lp
       | None => lp = player
       end).
Proof.
  apply (winner_leads_next round7_trick2).
  exact (round7_reachable _ _ round7_trick2_run).
Defined.

(** X4. Under legal play the history is a faithful record: its tricks are
    numbered 1, 2, ... in order, there are at most five, and each holds a
    leader and, as winner, the player that its two cards and its leader
    give by the rule of the game. *)
Theorem history_is_faithful (g : GameState) :
  reachable g →
  Trick.trickNumber <$> trickHistory g
  = (λ i, Z.of_nat i) <$> seq 1 (length (trickHistory g)) ∧
  (length (trickHistory g) ≤ 5)%nat ∧
  ∀ t, t ∈ trickHistory g →
       ∃ x, Trick.leadPlayer t = Some x ∧
            Trick.winner t
            = Some (if bool_decide (suit (Trick.followCard t)
                                    = suit (Trick.leadCard t))
                    then if getValue (Trick.leadCard t)
                            >? getValue (Trick.followCard t)
                         then x else other x
                    else x).
Proof.
  intros (rnd & g0 & acts & Hrun).
  destruct (run_game_inv rnd g0 g acts Hrun)
    as (Hr & (lp & cp & _ & _ & _ & Hall) & _ & _ & Hn).
  split; [done|]. split.
  - unfold round_inv in Hr. cbv zeta in Hr.
    destruct (leadCard g), (followCard g), (gameActive g);
      intuition (try done; try lia).
  - intros t Ht. rewrite Forall_forall in Hall.
    destruct (Hall t Ht) as (x & Hx & Hw & _). by exists x.
Qed.

Lemma history_is_faithful_witness :
  Trick.trickNumber <$> trickHistory round1_over = [1; 2; 3; 4; 5].
Proof.
  destruct (history_is_faithful round1_over) as [Hn _].
  - exists rnd0, (set_aiScore 0 (set_playerScore 0 (GameState_new ∅))), round1_acts.
    exact round1_over_run.
  - rewrite Hn. reflexivity.
Defined.

(** ** The suits the opponent is out of *)

Lemma updateOpponentVoids_elem (hist : list Trick.t) (init : gset Suit) (s : Suit) :
  s ∈ foldl (λ voids trick,
               if bool_decide (Trick.leadPlayer trick = Some ai) then
                 if bool_decide (suit (Trick.followCard trick)
                                 ≠ suit (Trick.leadCard trick))
                 then voids ∪ {[ suit (Trick.leadCard trick) ]}
                 else voids
               else voids) init hist
  ↔ s ∈ init ∨
    ∃ t, t ∈ hist ∧ Trick.leadPlayer t = Some ai ∧
         suit (Trick.followCard t) ≠ suit (Trick.leadCard t) ∧
         suit (Trick.leadCard t) = s.
Proof.
  revert init. induction hist as [|t hist IH]; intros init; simpl.
  - split; [auto|]. intros [?|(t & Ht & _)]; [done|]. by apply elem_of_nil in Ht.
  - rewrite IH. split.
    + intros [Hin|(t' & Ht' & H')].
      * repeat case_bool_decide; try auto.
        apply elem_of_union in Hin as [?|Hs]; [auto|].
        apply elem_of_singleton in Hs. right. exists t.
        split; [left|done].
      * right. exists t'. split; [by right|done].
    + intros [Hin|(t' & Ht' & Hlp & Hoff & Hs)].
      * left. repeat case_bool_decide; try done. apply elem_of_union. auto.
      * apply elem_of_cons in Ht' as [->|Ht'].
        -- left. rewrite !bool_decide_eq_true_2 by done.
           apply elem_of_union. right. by apply elem_of_singleton.
        -- right. by exists t'.
Qed.

(** X5. [updateOpponentVoids] marks exactly the suits that the AI led and
    the player did not follow; under legal play the player holds no card of
    a suit so marked. *)
Theorem opponent_voids_sound (g : GameState) (a : AI.t) (s : Suit) :
  reachable g →
  s ∈ AI.opponentVoidSuits (AI.updateOpponentVoids g a) →
  (∃ t, t ∈ trickHistory g ∧ Trick.leadPlayer t = Some ai ∧
        suit (Trick.leadCard t) = s ∧ suit (Trick.followCard t) ≠ s) ∧
  ∀ c, c ∈ playerHand g → suit c ≠ s.
Proof.
  intros (rnd & g0 & acts & Hrun) Hs.
  destruct (run_game_inv rnd g0 g acts Hrun)
    as (_ & (lp & cp & _ & _ & _ & Hall) & _).
  unfold AI.updateOpponentVoids in Hs. simpl in Hs.
  apply updateOpponentVoids_elem in Hs as [Hs|(t & Ht & Hlp & Hoff & <-)];
    [by apply not_elem_of_empty in Hs|].
  split; [by exists t|].
  rewrite Forall_forall in Hall.
  destruct (Hall t Ht) as (x & Hx & _ & Hvoid).
  assert (x = ai) as -> by congruence.
  exact (Hvoid Hoff).
Qed.

Lemma opponent_voids_sound_witness :
  clubs ∈ AI.opponentVoidSuits (AI.updateOpponentVoids round7_trick5 AI.new) ∧
  ∀ c, c ∈ playerHand round7_trick5 → suit c ≠ clubs.
Proof.
  assert (clubs ∈ AI.opponentVoidSuits
                    (AI.updateOpponentVoids round7_trick5 AI.new)) as Hin.
  { apply (bool_decide_unpack _). by vm_compute. }
  split; [exact Hin|].
  apply (opponent_voids_sound round7_trick5 AI.new clubs); [|exact Hin].
  exact (round7_reachable _ _ round7_trick5_run).
Defined.

(** ** Grouping by suit *)

Lemma filter_snoc_suit (s : Suit) (done : list Card) (card : Card) :
  filter (λ c, suit c = s) (done ++ [card])
  = filter (λ c, suit c = s) done ++ (if decide (suit card = s) then [card] else []).
Proof. rewrite filter_app. f_equal. Qed.

Lemma filter_none {A} (P : A → Prop) `{!∀ x, Decision (P x)} (l : list A) :
  (∀ x, x ∈ l → ¬ P x) → filter P l = [].
Proof.
  induction l as [|x l IH]; intros Hnone; [done|].
  rewrite filter_cons, decide_False by (apply Hnone; left).
  apply IH. intros y Hy. apply Hnone. by right.
Qed.

Lemma groupBySuit_step_inv (bySuit : list (Suit * list Card)) (done : list Card)
    (card : Card) :
  NoDup bySuit.*1 →
  (∀ e, e ∈ bySuit → e.2 = filter (λ c, suit c = e.1) done ∧ e.2 ≠ []) →
  (∀ c, c ∈ done → suit c ∈ bySuit.*1) →
  let bySuit' :=
    if existsb (λ e, bool_decide (e.1 = suit card)) bySuit
    then (λ e, if bool_decide (e.1 = suit card)
               then (e.1, e.2 ++ [card]) else e) <$> bySuit
    else bySuit ++ [(suit card, [card])] in
  NoDup bySuit'.*1 ∧
  (∀ e, e ∈ bySuit' →
        e.2 = filter (λ c, suit c = e.1) (done ++ [card]) ∧ e.2 ≠ []) ∧
  (∀ c, c ∈ done ++ [card] → suit c ∈ bySuit'.*1).
Proof.
  intros Hnd Hgr Hcov. cbv zeta.
  destruct (existsb _ bySuit) eqn:Hex.
  - assert (((λ e : Suit * list Card,
                if bool_decide (e.1 = suit card)
                then (e.1, e.2 ++ [card]) else e) <$> bySuit).*1 = bySuit.*1)
      as Hkeys.
    { rewrite <- list_fmap_compose. apply list_fmap_ext.
      intros i e _. simpl. by case_bool_decide. }
    rewrite Hkeys. split; [done|]. split.
    + intros e' He'. apply list_elem_of_fmap in He' as (e & -> & He).
      destruct (Hgr e He) as [Hf Hne]. rewrite filter_snoc_suit.
      case_bool_decide as Hk; simpl.
      * rewrite decide_True by done. split; [by rewrite <- Hf|].
        by destruct (e.2).
      * rewrite decide_False by done. by rewrite app_nil_r.
    + intros c Hc. apply elem_of_app in Hc as [Hc|Hc]; [by apply Hcov|].
      apply list_elem_of_singleton in Hc as ->.
      apply existsb_exists in Hex as (e & He & Hk).
      apply bool_decide_eq_true in Hk. rewrite <- Hk.
      apply list_elem_of_fmap. exists e. split; [done|]. by apply list_elem_of_In.
  - assert (suit card ∉ bySuit.*1) as Hfresh.
    { intros Hin. apply list_elem_of_fmap in Hin as (e & Hk & He).
      assert (existsb (λ e, bool_decide (e.1 = suit card)) bySuit = true)
        as Hex'; [|congruence].
      apply existsb_exists. exists e. split; [by apply list_elem_of_In|].
      by apply bool_decide_eq_true. }
    rewrite fmap_app. simpl. split; [|split].
    + apply NoDup_app. split; [done|]. split; [|apply NoDup_singleton].
      intros s Hs Hs'. apply list_elem_of_singleton in Hs' as ->. done.
    + intros e He. apply elem_of_app in He as [He|He].
      * destruct (Hgr e He) as [Hf Hne]. split; [|done].
        rewrite filter_snoc_suit, decide_False, app_nil_r; [done|].
        intros Hk. apply Hfresh. rewrite Hk.
        apply list_elem_of_fmap. by exists e.
      * apply list_elem_of_singleton in He as ->. simpl. split; [|done].
        rewrite filter_snoc_suit, decide_True by done.
        assert (filter (λ c, suit c = suit card) done = []) as ->; [|done].
        apply filter_none.
        intros c Hc Hk. apply Hfresh. rewrite <- Hk. by apply Hcov.
    + intros c Hc. apply elem_of_app in Hc as [Hc|Hc].
      * apply elem_of_app. left. by apply Hcov.
      * apply list_elem_of_singleton in Hc as ->. apply elem_of_app. right. left.
Qed.

Lemma groupBySuit_foldl (cards done : list Card) (bySuit : list (Suit * list Card)) :
  NoDup bySuit.*1 →
  (∀ e, e ∈ bySuit → e.2 = filter (λ c, suit c = e.1) done ∧ e.2 ≠ []) →
  (∀ c, c ∈ done → suit c ∈ bySuit.*1) →
  let result :=
    foldl (λ bySuit card,
             if existsb (λ e, bool_decide (e.1 = suit card)) bySuit
             then (λ e, if bool_decide (e.1 = suit card)
                        then (e.1, e.2 ++ [card]) else e) <$> bySuit
             else bySuit ++ [(suit card, [card])])
      bySuit cards in
  NoDup result.*1 ∧
  (∀ e, e ∈ result →
        e.2 = filter (λ c, suit c = e.1) (done ++ cards) ∧ e.2 ≠ []) ∧
  (∀ c, c ∈ done ++ cards → suit c ∈ result.*1).
Proof.
  revert done bySuit. induction cards as [|card cards IH];
    intros done bySuit Hnd Hgr Hcov; simpl.
  - by rewrite app_nil_r.
  - destruct (groupBySuit_step_inv bySuit done card Hnd Hgr Hcov)
      as (Hnd' & Hgr' & Hcov').
    specialize (IH (done ++ [card]) _ Hnd' Hgr' Hcov').
    cbv zeta in IH. by rewrite <- app_assoc in IH.
Qed.

(** [groupBySuit] makes one group for each suit that occurs, holding the
    cards of that suit in their order; no group is empty. *)
Lemma groupBySuit_spec (cards : list Card) :
  NoDup (AI.groupBySuit cards).*1 ∧
  (∀ e, e ∈ AI.groupBySuit cards →
        e.2 = filter (λ c, suit c = e.1) cards ∧ e.2 ≠ []) ∧
  (∀ c, c ∈ cards → suit c ∈ (AI.groupBySuit cards).*1).
Proof.
  apply (groupBySuit_foldl cards [] []).
  - apply NoDup_nil_2.
  - intros e He. by apply elem_of_nil in He.
  - intros c Hc. by apply elem_of_nil in Hc.
Qed.

Lemma group_Some (bySuit : list (Suit * list Card)) (s : Suit) (cs : list Card) :
  AI.group bySuit s = Some cs → (s, cs) ∈ bySuit.
Proof.
  unfold AI.group. destruct (list_find _ bySuit) as [[i [s' cs']]|] eqn:E; [|done].
  simpl. intros [= <-]. apply list_find_Some in E as (Hi & Hk & _).
  simpl in Hk. subst s'. by eapply list_elem_of_lookup_2.
Qed.

Lemma group_of_key (bySuit : list (Suit * list Card)) (s : Suit) :
  s ∈ bySuit.*1 → ∃ cs, AI.group bySuit s = Some cs.
Proof.
  intros Hs. apply list_elem_of_fmap in Hs as (e & -> & He).
  unfold AI.group.
  destruct (list_find_elem_of (λ e', e'.1 = e.1) bySuit e He eq_refl) as [r ->].
  by eexists.
Qed.

(** ** Every strategy picks a legal card *)

Lemma foldl_highest (first : Card) (rest : list Card) :
  let c := foldl (λ highest card,
                    if getValue card >? getValue highest then card else highest)
             first rest in
  c ∈ first :: rest ∧ ∀ c', c' ∈ first :: rest → getValue c' ≤ getValue c.
Proof.
  revert first. induction rest as [|x rest IH]; intros first; simpl.
  - split; [left|]. intros c' Hc'. apply list_elem_of_singleton in Hc' as ->. lia.
  - destruct (Z.gtb_spec (getValue x) (getValue first)) as [Hgt|Hle].
    + destruct (IH x) as [Hin Hmax]. split.
      * apply elem_of_cons in Hin as [->|Hin]; [right; left|by do 2 right].
      * intros c' Hc'. apply elem_of_cons in Hc' as [->|Hc'].
        -- etrans; [|apply Hmax; left]. lia.
        -- by apply Hmax.
    + destruct (IH first) as [Hin Hmax]. split.
      * apply elem_of_cons in Hin as [->|Hin]; [left|by do 2 right].
      * intros c' Hc'. apply elem_of_cons in Hc' as [->|Hc']; [apply Hmax; left|].
        apply elem_of_cons in Hc' as [->|Hc'].
        -- etrans; [|apply Hmax; left]. lia.
        -- apply Hmax. by right.
Qed.

(** [getHighestCard] of an array that is not empty returns one of its cards,
    of the greatest value. *)
Lemma getHighestCard_spec (cards : list Card) :
  (0 < length cards)%nat →
  ∃ c, AI.getHighestCard cards = Ok c ∧ c ∈ cards ∧
       ∀ c', c' ∈ cards → getValue c' ≤ getValue c.
Proof.
  destruct cards as [|first rest]; simpl; [lia|]. intros _.
  eexists. split; [reflexivity|]. apply foldl_highest.
Qed.

Lemma length_pos_elem {A} (l : list A) : l ≠ [] ↔ (0 < length l)%nat.
Proof. destruct l; simpl; split; try done; lia. Qed.

Lemma picks_lowest (valid cards : list Card) :
  (0 < length cards)%nat → (∀ c, c ∈ cards → c ∈ valid) →
  picks valid (AI.getLowestCard cards).
Proof.
  intros Hlen Hsub. destruct (getLowestCard_spec cards Hlen) as (c & Hc & Hin & _).
  exists c. auto.
Qed.

Lemma picks_highest (valid cards : list Card) :
  (0 < length cards)%nat → (∀ c, c ∈ cards → c ∈ valid) →
  picks valid (AI.getHighestCard cards).
Proof.
  intros Hlen Hsub. destruct (getHighestCard_spec cards Hlen) as (c & Hc & Hin & _).
  exists c. auto.
Qed.

Lemma filter_sub {A} (P : A → Prop) `{!∀ x, Decision (P x)} (l : list A) (x : A) :
  x ∈ filter P l → x ∈ l.
Proof. rewrite list_elem_of_filter. tauto. Qed.

Lemma chooseBestCardToWin_picks (g : GameState) (validCards : list Card)
    (isLeading : bool) :
  (0 < length validCards)%nat → (isLeading = false → leadCard g ≠ None) →
  picks validCards (AI.chooseBestCardToWin g validCards isLeading).
Proof.
  intros Hlen Hlead. unfold AI.chooseBestCardToWin.
  destruct isLeading; [by apply picks_highest|].
  destruct (leadCard g) as [l|]; [|by destruct Hlead].
  repeat case_bool_decide;
    (apply picks_lowest; [done|]); intros c Hc;
    repeat (apply filter_sub in Hc); done.
Qed.

Lemma chooseStrategicFollowCard_picks (g : GameState) (validCards : list Card) :
  (0 < length validCards)%nat → leadCard g ≠ None →
  picks validCards (AI.chooseStrategicFollowCard g validCards).
Proof.
  intros Hlen Hlead. unfold AI.chooseStrategicFollowCard.
  destruct (leadCard g) as [l|]; [|done].
  repeat case_bool_decide;
    first [apply picks_lowest | apply picks_highest]; try done;
    intros c Hc; repeat (apply filter_sub in Hc); done.
Qed.

Lemma grandmasterFollow_picks (g : GameState) (validCards : list Card) (t : Z) :
  (0 < length validCards)%nat → leadCard g ≠ None →
  picks validCards (AI.grandmasterFollow g validCards t).
Proof.
  intros Hlen Hlead. unfold AI.grandmasterFollow.
  destruct (leadCard g) as [l|]; [|done].
  repeat case_bool_decide;
    first [apply picks_lowest | apply picks_highest]; try done;
    intros c Hc; repeat (apply filter_sub in Hc); done.
Qed.

Lemma groupBySuit_groups_sub (cards : list Card) (e : Suit * list Card) :
  e ∈ AI.groupBySuit cards →
  (0 < length e.2)%nat ∧ ∀ c, c ∈ e.2 → c ∈ cards ∧ suit c = e.1.
Proof.
  intros He. destruct (groupBySuit_spec cards) as (_ & Hgr & _).
  destruct (Hgr e He) as [Hf Hne]. split; [by apply length_pos_elem|].
  intros c Hc. rewrite Hf in Hc. apply list_elem_of_filter in Hc. tauto.
Qed.

Lemma bestOfSuits_foldl (scoreOf : Card → Z) (valid : list Card)
    (groups : list (Suit * list Card)) (best : option Card) (bestScore : Z) :
  (∀ e, e ∈ groups → (0 < length e.2)%nat ∧ ∀ c, c ∈ e.2 → c ∈ valid) →
  (∀ c, best = Some c → c ∈ valid) →
  ∃ best' score',
    foldl (λ acc e,
             let* (bestCard, bestScore) := acc in
             let* highest := AI.getHighestCard e.2 in
             if scoreOf highest >? bestScore
             then Ok (Some highest, scoreOf highest)
             else Ok (bestCard, bestScore))
      (Ok (best, bestScore)) groups
    = Ok (best', score') ∧
    ∀ c, best' = Some c → c ∈ valid.
Proof.
  revert best bestScore. induction groups as [|e groups IH];
    intros best bestScore Hgr Hbest; simpl.
  - by eexists _, _.
  - destruct (Hgr e) as [Hlen Hsub]; [left|].
    destruct (getHighestCard_spec e.2 Hlen) as (hi & -> & Hin & _). simpl.
    destruct (scoreOf hi >? bestScore); apply IH;
      try (intros e' He'; apply Hgr; by right); [|done].
    intros c [= <-]. by apply Hsub.
Qed.

Lemma bestOfSuits_picks (scoreOf : Card → Z) (validCards : list Card) :
  (0 < length validCards)%nat →
  picks validCards (AI.bestOfSuits scoreOf validCards).
Proof.
  intros Hlen. unfold AI.bestOfSuits. cbv zeta.
  destruct (bestOfSuits_foldl scoreOf validCards (AI.groupBySuit validCards)
              None (-1)) as (best & sc & -> & Hbest); [|done|].
  { intros e He. destruct (groupBySuit_groups_sub validCards e He) as [? Hsub].
    split; [done|]. intros c Hc. by apply Hsub. }
  simpl. destruct best as [c|]; [exists c; auto|].
  by apply picks_highest.
Qed.

Lemma chooseStrategicLeadCard_picks (validCards : list Card) :
  (0 < length validCards)%nat →
  picks validCards (AI.chooseStrategicLeadCard validCards).
Proof.
  intros Hlen. unfold AI.chooseStrategicLeadCard.
  set (bySuit := AI.groupBySuit validCards).
  assert (∀ (groups : list (Suit * list Card)) acc,
            (∀ e, e ∈ groups → e.1 ∈ bySuit.*1) →
            (∀ s, acc.1 = Some s → s ∈ bySuit.*1) →
            ∀ s, (foldl (λ (acc : option Suit * option nat) e,
                           match acc.2 with
                           | Some smallestCount =>
                               if bool_decide (length e.2 < smallestCount)%nat
                               then (Some e.1, Some (length e.2)) else acc
                           | None => (Some e.1, Some (length e.2))
                           end) acc groups).1 = Some s → s ∈ bySuit.*1) as Hfold.
  { induction groups as [|e groups IH]; intros acc Hgr Hacc; simpl; [done|].
    apply IH; [intros e' He'; apply Hgr; by right|].
    destruct (acc.2); [case_bool_decide|]; simpl; try done;
      intros s [= <-]; apply Hgr; left. }
  destruct (foldl _ _ bySuit).1 as [weakestSuit|] eqn:E;
    [|by apply picks_lowest].
  apply (Hfold bySuit (None, None)) in E; [| |done].
  - destruct (group_of_key bySuit weakestSuit E) as [cs Hcs]. rewrite Hcs.
    apply group_Some in Hcs.
    destruct (groupBySuit_groups_sub validCards _ Hcs) as [Hl Hsub].
    apply picks_lowest; [done|]. intros c Hc. by apply Hsub.
  - intros e He. apply list_elem_of_fmap. by exists e.
Qed.

Lemma grandmasterTrick5_picks (a : AI.t) (g : GameState) (validCards : list Card)
    (isLeading : bool) :
  (0 < length validCards)%nat → (isLeading = false → leadCard g ≠ None) →
  picks validCards (AI.grandmasterTrick5 a g validCards isLeading).
Proof.
  intros Hlen Hlead. unfold AI.grandmasterTrick5. destruct isLeading.
  - case_bool_decide.
    + apply picks_lowest; [done|]. intros c. apply filter_sub.
    + by apply bestOfSuits_picks.
  - destruct (leadCard g) as [l|]; [|by destruct Hlead].
    repeat case_bool_decide;
      (apply picks_lowest; [done|]); intros c Hc;
      repeat (apply filter_sub in Hc); done.
Qed.

(** ** Sorting *)

Lemma insert_sorted_Permutation {A} (compare : A → A → Z) (x : A) (l : list A) :
  insert_sorted compare x l ≡ₚ x :: l.
Proof.
  induction l as [|y l IH]; simpl; [done|].
  destruct (compare x y <? 0); [done|]. rewrite IH. apply perm_swap.
Qed.

Lemma sort_Permutation {A} (compare : A → A → Z) (l : list A) :
  sort compare l ≡ₚ l.
Proof.
  unfold sort.
  assert (∀ acc, foldl (λ sorted x, insert_sorted compare x sorted) acc l
                 ≡ₚ acc ++ l) as H; [|apply (H [])].
  induction l as [|x l IH]; intros acc; simpl; [by rewrite app_nil_r|].
  rewrite IH, insert_sorted_Permutation. solve_Permutation.
Qed.

(** ** The grandmaster leads *)

Lemma multiCardSuits_foldl (h : list Card) (groups : list (Suit * list Card))
    (entries : list AI.SuitEntry) :
  (∀ e, e ∈ groups →
        (2 ≤ length e.2)%nat ∧ e.2 = filter (λ c, suit c = e.1) h) →
  ∃ more,
    foldl (λ acc e,
             let* entries := acc in
             if bool_decide (2 ≤ length e.2)%nat then
               let* hi := AI.getHighestCard e.2 in
               let* lo := AI.getLowestCard e.2 in
               Ok (entries ++ [AI.mkSuitEntry e.1 e.2 hi lo])
             else Ok entries)
      (Ok entries) groups
    = Ok (entries ++ more) ∧
    length more = length groups ∧
    Forall (λ entry,
              AI.highest entry ∈ h ∧
              ∀ c', c' ∈ h → suit c' = suit (AI.highest entry) →
                    getValue c' ≤ getValue (AI.highest entry)) more.
Proof.
  revert entries. induction groups as [|e groups IH]; intros entries Hgr; simpl.
  - exists []. by rewrite app_nil_r.
  - destruct (Hgr e) as [Hlen Hfil]; [left|].
    rewrite bool_decide_eq_true_2 by done.
    destruct (getHighestCard_spec e.2) as (hi & -> & Hin & Hmax); [lia|].
    destruct (getLowestCard_spec e.2) as (lo & -> & _); [lia|]. simpl.
    destruct (IH (entries ++ [AI.mkSuitEntry e.1 e.2 hi lo])) as (more & -> & Hl & Hall).
    { intros e' He'. apply Hgr. by right. }
    exists (AI.mkSuitEntry e.1 e.2 hi lo :: more).
    split; [by rewrite <- app_assoc|]. split; [simpl; lia|].
    apply Forall_cons. split; [|done]. simpl.
    rewrite Hfil in Hin. apply list_elem_of_filter in Hin as [Hs Hin].
    split; [done|]. intros c' Hc' Hs'. apply Hmax. rewrite Hfil.
    apply list_elem_of_filter. split; [congruence|done].
Qed.

(** Leading on tricks 1 to 4 from a hand that is not empty, the grandmaster
    returns a card of the hand that is the highest of its suit there; and
    when the hand has a suit of one card, the card returned is alone in its
    suit. *)
Lemma grandmasterLead_spec (floor_fifths : Z → Z → Z) (h : list Card) (t : Z) :
  (0 < length h)%nat →
  ∃ c, AI.grandmasterLead floor_fifths h h t = Ok (Some c) ∧ c ∈ h ∧
       (∀ c', c' ∈ h → suit c' = suit c → getValue c' ≤ getValue c) ∧
       ((∃ c1, c1 ∈ h ∧ filter (λ c', suit c' = suit c1) h = [c1]) →
        filter (λ c', suit c' = suit c) h = [c]).
Proof.
  intros Hlen. unfold AI.grandmasterLead. cbv zeta.
  destruct (groupBySuit_spec h) as (_ & Hgr & Hcov).
  set (G := AI.groupBySuit h) in *.
  assert (∀ e, e ∈ G → AI.group G e.1 = Some e.2) as Hgroup.
  { intros e He.
    destruct (group_of_key G e.1) as [cs Hcs];
      [apply list_elem_of_fmap; by exists e|].
    rewrite Hcs. f_equal. apply group_Some in Hcs.
    destruct (Hgr _ Hcs) as [H1 _]. destruct (Hgr e He) as [H2 _].
    simpl in H1. congruence. }
  destruct (head (omap _ G)) as [c|] eqn:Hhead.
  - apply head_Some_elem_of, list_elem_of_omap in Hhead as (e & He & Hfe).
    rewrite (Hgroup e He) in Hfe. destruct (Hgr e He) as [Hfil _].
    destruct (e.2) as [|c0 [|]] eqn:E2; simplify_eq.
    assert (c ∈ filter (λ c', suit c' = e.1) h) as Hc by (rewrite <- Hfil; left).
    apply list_elem_of_filter in Hc as [Hs Hc].
    exists c. split; [done|]. split; [done|]. rewrite Hs. split; [|done].
    intros c' Hc' Hs'.
    assert (c' ∈ filter (λ c', suit c' = e.1) h) as Hc''
      by by apply list_elem_of_filter.
    rewrite <- Hfil in Hc''. apply list_elem_of_singleton in Hc'' as ->. lia.
  - apply head_None in Hhead.
    assert (∀ e, e ∈ G →
              (2 ≤ length e.2)%nat ∧ e.2 = filter (λ c, suit c = e.1) h) as Hbig.
    { intros e He. destruct (Hgr e He) as [Hfil Hne]. split; [|done].
      destruct (e.2) as [|c0 [|c1 rest]] eqn:E2; [done| |simpl; lia].
      assert (c0 ∈ omap (λ e, match AI.group G e.1 with
                              | Some [c] => Some c
                              | _ => None
                              end) G) as Hin.
      { apply list_elem_of_omap. exists e. split; [done|].
        by rewrite (Hgroup e He), E2. }
      rewrite Hhead in Hin. by apply elem_of_nil in Hin. }
    destruct (multiCardSuits_foldl h G [] Hbig) as (more & -> & Hl & Hall).
    simpl.
    assert (G ≠ []) as HG.
    { destruct h as [|c0 h']; [simpl in Hlen; lia|].
      intros HG. specialize (Hcov c0 ltac:(left)).
      rewrite HG in Hcov. by apply elem_of_nil in Hcov. }
    assert (0 < length more)%nat as Hmore.
    { rewrite Hl. by apply length_pos_elem. }
    rewrite bool_decide_eq_true_2 by done.
    assert (∀ sorted, sorted ≡ₚ more →
              ∃ first rest, sorted = first :: rest ∧ first ∈ more) as Hfirst.
    { intros sorted Hp. destruct sorted as [|first rest].
      - apply Permutation_length in Hp. simpl in Hp. lia.
      - exists first, rest. split; [done|]. rewrite <- Hp. left. }
    destruct (t <=? 2);
      match goal with
      | |- context [sort ?cmp more] =>
          destruct (Hfirst (sort cmp more) (sort_Permutation cmp more))
            as (first & rest & -> & Hin)
      end;
      rewrite Forall_forall in Hall; destruct (Hall first Hin) as [Hh Hmax];
      (exists (AI.highest first); split; [done|]; split; [done|];
       split; [done|]);
      intros (c1 & Hc1 & Hone);
      specialize (Hcov c1 Hc1);
      apply list_elem_of_fmap in Hcov as (e1 & He1k & He1);
      destruct (Hbig e1 He1) as [Hlen1 Hfil1];
      rewrite <- He1k, Hone in Hfil1; rewrite Hfil1 in Hlen1;
      simpl in Hlen1; lia.
Qed.

(** ** Legal cards and playable cards *)

Lemma getValidCards_sub (p : Player) (g : GameState) (c : Card) :
  c ∈ getValidCards p g → c ∈ hand p g.
Proof.
  unfold getValidCards. destruct (leadCard g); [|done].
  case_bool_decide; [apply filter_sub|done].
Qed.

Lemma getValidCards_nonempty (p : Player) (g : GameState) :
  (0 < length (hand p g))%nat → (0 < length (getValidCards p g))%nat.
Proof.
  unfold getValidCards. destruct (leadCard g); [|done]. by case_bool_decide.
Qed.

Lemma canPlayCard_valid (p : Player) (g : GameState) (c : Card) :
  currentPlayer g = Some p → c ∈ hand p g →
  canPlayCard c p g = true ↔ c ∈ getValidCards p g.
Proof.
  intros Hcp Hc. unfold canPlayCard, getValidCards.
  rewrite bool_decide_eq_false_2 by (by intros []).
  destruct (leadCard g) as [l|]; [|done].
  destruct (existsb _ _) eqn:Hex.
  - apply existsb_suit, filter_suit_nonempty in Hex.
    rewrite (bool_decide_eq_true_2 (0 < length _)%nat) by done.
    rewrite bool_decide_eq_true, list_elem_of_filter. tauto.
  - rewrite (bool_decide_eq_false_2 (0 < length _)%nat); [done|].
    intros Hlen. apply filter_suit_nonempty, existsb_suit in Hlen. congruence.
Qed.

(** X6. The cards that [getValidCards] lists are cards of the hand, and for
    the player whose turn it is they are exactly the cards of the hand that
    [canPlayCard] accepts; a hand that is not empty has at least one. *)
Theorem valid_cards_are_playable (p : Player) (g : GameState) :
  (∀ c, c ∈ getValidCards p g → c ∈ hand p g) ∧
  (currentPlayer g = Some p →
   ∀ c, c ∈ hand p g → canPlayCard c p g = true ↔ c ∈ getValidCards p g) ∧
  (hand p g ≠ [] → getValidCards p g ≠ []).
Proof.
  split; [apply getValidCards_sub|]. split.
  - intros Hcp c. by apply canPlayCard_valid.
  - rewrite !length_pos_elem. apply getValidCards_nonempty.
Qed.

(** A play that [canPlayCard] accepts returns [true]. *)
Lemma playCard_accepts (card : Card) (p : Player) (g : GameState) :
  canPlayCard card p g = true → ∃ g', playCard card p g = Ok (true, g').
Proof.
  intros Hcan. unfold playCard. rewrite Hcan. cbn [negb].
  set (g1 := if bool_decide _ then _ else g).
  destruct (leadCard g1) as [l|] eqn:El; [|by eauto].
  set (g2 := set_playedCards _ _).
  assert (leadCard g2 = Some l) as E2 by (subst g2; fields; done).
  assert (followCard g2 = Some card) as F2 by (subst g2; fields; done).
  unfold evaluateTrick. rewrite E2, F2.
  case_bool_decide; simpl; eauto.
Qed.

(** ** The choice of the AI *)

Lemma defined_picks (valid : list Card) (m : js Card) :
  picks valid m → ∃ c, defined m = Ok (Some c) ∧ c ∈ valid.
Proof. intros (c & -> & Hc). by exists c. Qed.

Lemma chooseCardEasy_valid (r : nat) (g : GameState) :
  (0 < length (aiHand g))%nat →
  ∃ c, AI.chooseCardEasy r g = Ok (Some c) ∧ c ∈ getValidCards ai g.
Proof.
  intros Hlen. unfold AI.chooseCardEasy. cbv zeta.
  pose proof (getValidCards_nonempty ai g Hlen) as Hv.
  rewrite bool_decide_eq_false_2 by lia.
  destruct (lookup_lt_is_Some_2 (getValidCards ai g)
              (r mod length (getValidCards ai g))) as [c Hc].
  { apply Nat.mod_upper_bound. lia. }
  exists c. rewrite Hc. split; [done|]. by eapply list_elem_of_lookup_2.
Qed.

Lemma chooseCardMedium_valid (a : AI.t) (g : GameState) :
  (0 < length (aiHand g))%nat →
  ∃ c, (AI.chooseCardMedium a g).2 = Ok (Some c) ∧ c ∈ getValidCards ai g.
Proof.
  intros Hlen. unfold AI.chooseCardMedium. cbv zeta.
  pose proof (getValidCards_nonempty ai g Hlen) as Hv.
  case_bool_decide.
  - apply defined_picks, chooseBestCardToWin_picks; [done|].
    intros Hl. by apply bool_decide_eq_false in Hl.
  - destruct (leadCard g) as [l|]; repeat case_bool_decide; cbn [snd];
      apply defined_picks, picks_lowest; try done;
      intros c Hc; repeat (apply filter_sub in Hc); done.
Qed.

Lemma chooseCardHard_valid (a : AI.t) (g : GameState) :
  (0 < length (aiHand g))%nat →
  ∃ c, (AI.chooseCardHard a g).2 = Ok (Some c) ∧ c ∈ getValidCards ai g.
Proof.
  intros Hlen. unfold AI.chooseCardHard. cbv zeta.
  pose proof (getValidCards_nonempty ai g Hlen) as Hv.
  repeat case_bool_decide; cbn [snd]; apply defined_picks.
  - by apply bestOfSuits_picks.
  - by apply chooseBestCardToWin_picks.
  - by apply chooseStrategicLeadCard_picks.
  - by apply chooseStrategicFollowCard_picks.
Qed.

Lemma chooseCardGrandmaster_valid (floor_fifths : Z → Z → Z) (a : AI.t)
    (g : GameState) :
  (0 < length (aiHand g))%nat →
  ∃ c, (AI.chooseCardGrandmaster floor_fifths a g).2 = Ok (Some c) ∧
       c ∈ getValidCards ai g.
Proof.
  intros Hlen. unfold AI.chooseCardGrandmaster. cbv zeta.
  pose proof (getValidCards_nonempty ai g Hlen) as Hv.
  case_bool_decide; [|case_bool_decide as Hl]; cbn [snd].
  - apply defined_picks, grandmasterTrick5_picks; [done|].
    intros Hl. by apply bool_decide_eq_false in Hl.
  - unfold getValidCards in *. rewrite Hl in *. cbn [hand] in *.
    destruct (grandmasterLead_spec floor_fifths (aiHand g) (currentTrick g) Hlen)
      as (c & Hc & Hin & _).
    by exists c.
  - by apply defined_picks, grandmasterFollow_picks.
Qed.

(** X7. Whatever the difficulty, stored or not among the four, and whatever
    the random draw, the AI with a hand that is not empty chooses a card: the
    choice raises nothing, is not [undefined], and is one of the cards that
    [getValidCards] lists for the AI. *)
Theorem AI_chooses_legal_card (floor_fifths : Z → Z → Z) (r : nat) (a : AI.t)
    (g : GameState) :
  aiHand g ≠ [] →
  ∃ c, (AI.chooseCard floor_fifths r a g).2 = Ok (Some c) ∧
       c ∈ getValidCards ai g ∧ c ∈ aiHand g.
Proof.
  intros Hne. apply length_pos_elem in Hne.
  assert (∃ c, (AI.chooseCard floor_fifths r a g).2 = Ok (Some c) ∧
               c ∈ getValidCards ai g) as (c & Hc & Hv).
  { unfold AI.chooseCard. cbv zeta. repeat case_bool_decide.
    - by apply chooseCardEasy_valid.
    - by apply chooseCardMedium_valid.
    - by apply chooseCardHard_valid.
    - by apply chooseCardGrandmaster_valid.
    - by apply chooseCardMedium_valid. }
  exists c. split; [done|]. split; [done|].
  by apply (getValidCards_sub ai g).
Qed.

Lemma AI_chooses_legal_card_witness :
  ∃ c, (AI.chooseCard exact_fifths 0 AI.new round7_trick2).2 = Ok (Some c) ∧
       c ∈ getValidCards ai round7_trick2 ∧ c ∈ aiHand round7_trick2.
Proof.
  apply (AI_chooses_legal_card exact_fifths 0 AI.new round7_trick2).
  by vm_compute.
Defined.

(** X8. When it is the turn of the AI and its hand is not empty, the card it
    chooses is accepted: [canPlayCard] holds of it and [playCard] returns
    [true]. *)
Theorem AI_choice_is_played (floor_fifths : Z → Z → Z) (r : nat) (a : AI.t)
    (g : GameState) :
  currentPlayer g = Some ai → aiHand g ≠ [] →
  ∃ c g', (AI.chooseCard floor_fifths r a g).2 = Ok (Some c) ∧
          canPlayCard c ai g = true ∧ playCard c ai g = Ok (true, g').
Proof.
  intros Hcp Hne. apply length_pos_elem in Hne.
  assert (∃ c, (AI.chooseCard floor_fifths r a g).2 = Ok (Some c) ∧
               c ∈ getValidCards ai g) as (c & Hc & Hv).
  { unfold AI.chooseCard. cbv zeta. repeat case_bool_decide.
    - by apply chooseCardEasy_valid.
    - by apply chooseCardMedium_valid.
    - by apply chooseCardHard_valid.
    - by apply chooseCardGrandmaster_valid.
    - by apply chooseCardMedium_valid. }
  assert (canPlayCard c ai g = true) as Hcan.
  { apply canPlayCard_valid; [done| |done]. by apply (getValidCards_sub ai g). }
  destruct (playCard_accepts c ai g Hcan) as [g' Hg'].
  by exists c, g'.
Qed.

Lemma AI_choice_is_played_witness :
  ∃ c g', (AI.chooseCard exact_fifths 0 AI.new round7_trick2).2 = Ok (Some c) ∧
          canPlayCard c ai round7_trick2 = true ∧
          playCard c ai round7_trick2 = Ok (true, g').
Proof.
  apply (AI_choice_is_played exact_fifths 0 AI.new round7_trick2).
  - reflexivity.
  - by vm_compute.
Defined.

Lemma chooseCard_grandmaster (floor_fifths : Z → Z → Z) (r : nat) (a : AI.t)
    (g : GameState) :
  aiDifficulty g = "grandmaster" →
  AI.chooseCard floor_fifths r a g = AI.chooseCardGrandmaster floor_fifths a g.
Proof.
  intros Hd. unfold AI.chooseCard. rewrite Hd.
  rewrite (bool_decide_eq_false_2 ("grandmaster" = "easy")) by done.
  rewrite (bool_decide_eq_false_2 ("grandmaster" = "medium")) by done.
  rewrite (bool_decide_eq_false_2 ("grandmaster" = "hard")) by done.
  by rewrite (bool_decide_eq_true_2 ("grandmaster" = "grandmaster")).
Qed.

(** X9. Leading on a trick other than the fifth with a hand that is not
    empty, the grandmaster leads a card that is the highest of its suit in
    the hand; and when the hand holds a suit with a single card, the card
    led is the single card of its suit. *)
Theorem grandmaster_lead_high_or_single (floor_fifths : Z → Z → Z) (r : nat)
    (a : AI.t) (g : GameState) :
  aiDifficulty g = "grandmaster" → currentTrick g ≠ 5 → leadCard g = None →
  aiHand g ≠ [] →
  ∃ c, (AI.chooseCard floor_fifths r a g).2 = Ok (Some c) ∧ c ∈ aiHand g ∧
       (∀ c', c' ∈ aiHand g → suit c' = suit c → getValue c' ≤ getValue c) ∧
       ((∃ c1, c1 ∈ aiHand g ∧ filter (λ c', suit c' = suit c1) (aiHand g) = [c1]) →
        filter (λ c', suit c' = suit c) (aiHand g) = [c]).
Proof.
  intros Hd Ht Hl Hne. apply length_pos_elem in Hne.
  rewrite chooseCard_grandmaster by done.
  unfold AI.chooseCardGrandmaster. cbv zeta.
  rewrite (bool_decide_eq_false_2 (currentTrick g = 5)) by done.
  rewrite (bool_decide_eq_true_2 (leadCard g = None)) by done. cbn [snd].
  unfold getValidCards. rewrite Hl. cbn [hand].
  apply (grandmasterLead_spec floor_fifths (aiHand g) (currentTrick g) Hne).
Qed.

Lemma grandmaster_lead_high_or_single_witness :
  ∃ c, (AI.chooseCard exact_fifths 0 AI.new round7_trick2).2 = Ok (Some c) ∧
       c ∈ aiHand round7_trick2 ∧
       (∀ c', c' ∈ aiHand round7_trick2 → suit c' = suit c →
              getValue c' ≤ getValue c) ∧
       ((∃ c1, c1 ∈ aiHand round7_trick2 ∧
               filter (λ c', suit c' = suit c1) (aiHand round7_trick2) = [c1]) →
        filter (λ c', suit c' = suit c) (aiHand round7_trick2) = [c]).
Proof.
  apply (grandmaster_lead_high_or_single exact_fifths 0 AI.new round7_trick2).
  - reflexivity.
  - by vm_compute.
  - reflexivity.
  - by vm_compute.
Defined.

(** ** Following to win, following to lose *)

Lemma lowest_winner (hand : list Card) (l w : Card) :
  w ∈ hand → suit w = suit l → getValue w > getValue l →
  let sameSuit := filter (λ c, suit c = suit l)
                    (filter (λ c, suit c = suit l) hand) in
  let winning := filter (λ c, getValue c > getValue l) sameSuit in
  (0 < length sameSuit)%nat ∧ (0 < length winning)%nat ∧
  ∃ c, AI.getLowestCard winning = Ok c ∧ c ∈ hand ∧ suit c = suit l ∧
       getValue c > getValue l ∧
       ∀ c', c' ∈ hand → suit c' = suit l → getValue c' > getValue l →
             getValue c ≤ getValue c'.
Proof.
  intros Hw Hs Hv sameSuit winning.
  assert (∀ c, c ∈ sameSuit ↔ c ∈ hand ∧ suit c = suit l) as Hsame.
  { intros c. unfold sameSuit. rewrite !list_elem_of_filter. tauto. }
  assert (w ∈ sameSuit) as Hw' by by apply Hsame.
  pose proof (filter_nonempty (λ c, getValue c > getValue l) sameSuit w Hw' Hv)
    as Hwin.
  split; [by destruct sameSuit; [apply elem_of_nil in Hw'|simpl; lia]|].
  split; [done|].
  destruct (getLowestCard_spec _ Hwin) as (c & Hc & Hin & Hmin).
  exists c. split; [done|].
  apply list_elem_of_filter in Hin as [Hcv Hin]. apply Hsame in Hin as [Hin Hcs].
  repeat split; [done..|].
  intros c' Hc' Hs' Hv'. apply Hmin, list_elem_of_filter. split; [done|].
  by apply Hsame.
Qed.

(** X10. On trick 5, following with a card in hand that beats the lead, the
    AI at every level but easy plays to win: it chooses the lowest card of
    its hand that is of the lead suit and above the lead card. *)
Theorem trick5_follow_wins (floor_fifths : Z → Z → Z) (r : nat) (a : AI.t)
    (g : GameState) (l w : Card) :
  aiDifficulty g ≠ "easy" → currentTrick g = 5 → leadCard g = Some l →
  w ∈ aiHand g → suit w = suit l → getValue w > getValue l →
  ∃ c, (AI.chooseCard floor_fifths r a g).2 = Ok (Some c) ∧
       c ∈ aiHand g ∧ suit c = suit l ∧ getValue c > getValue l ∧
       ∀ c', c' ∈ aiHand g → suit c' = suit l → getValue c' > getValue l →
             getValue c ≤ getValue c'.
Proof.
  intros Hd Ht Hl Hw Hs Hv.
  destruct (lowest_winner (aiHand g) l w Hw Hs Hv) as (Hsame & Hwin & c & Hc & Hrest).
  exists c. split; [|done].
  unfold AI.chooseCard. cbv zeta.
  rewrite (bool_decide_eq_false_2 (aiDifficulty g = "easy")) by done.
  unfold AI.chooseCardMedium, AI.chooseCardHard, AI.chooseCardGrandmaster.
  cbv zeta.
  rewrite !(bool_decide_eq_true_2 (currentTrick g = 5)) by done.
  rewrite !(bool_decide_eq_false_2 (leadCard g = None)) by (by rewrite Hl).
  unfold AI.chooseBestCardToWin, AI.grandmasterTrick5. rewrite Hl.
  rewrite (getValidCards_follow_suit ai g l w Hl Hw Hs). cbn [hand].
  rewrite !(bool_decide_eq_true_2 _ Hsame), !(bool_decide_eq_true_2 _ Hwin), Hc.
  by repeat case_bool_decide.
Qed.

Lemma trick5_follow_wins_witness :
  ∃ c, (AI.chooseCard exact_fifths 0 AI.new
          (ai_to_move [mkCard clubs r9; mkCard clubs king; mkCard diamonds r7]
             5 (Some (mkCard clubs r5)) "hard")).2 = Ok (Some c) ∧
       c = mkCard clubs r9.
Proof.
  destruct (trick5_follow_wins exact_fifths 0 AI.new
              (ai_to_move [mkCard clubs r9; mkCard clubs king; mkCard diamonds r7]
                 5 (Some (mkCard clubs r5)) "hard")
              (mkCard clubs r5) (mkCard clubs king))
    as (c & Hc & Hin & Hs & Hv & Hmin).
  - by vm_compute.
  - reflexivity.
  - reflexivity.
  - right. left.
  - reflexivity.
  - reflexivity.
  - exists c. split; [exact Hc|].
    vm_compute in Hc. by injection Hc as <-.
Defined.

Lemma losers (hand : list Card) (l w : Card) :
  w ∈ hand → suit w = suit l → getValue w < getValue l →
  let sameSuit := filter (λ c, suit c = suit l)
                    (filter (λ c, suit c = suit l) hand) in
  let losing := filter (λ c, getValue c < getValue l) sameSuit in
  (0 < length sameSuit)%nat ∧ (0 < length losing)%nat ∧
  (∀ c, c ∈ losing ↔ c ∈ hand ∧ suit c = suit l ∧ getValue c < getValue l).
Proof.
  intros Hw Hs Hv sameSuit losing.
  assert (∀ c, c ∈ losing ↔ c ∈ hand ∧ suit c = suit l ∧ getValue c < getValue l)
    as Hlose.
  { intros c. unfold losing, sameSuit. rewrite !list_elem_of_filter. tauto. }
  assert (w ∈ losing) as Hw' by by apply Hlose.
  split; [|split; [|done]].
  - apply (filter_nonempty _ _ w); [|done]. by apply list_elem_of_filter.
  - destruct losing; [by apply elem_of_nil in Hw'|simpl; lia].
Qed.

(** X11. On a trick other than the fifth, following with a card in hand that
    is of the lead suit and below the lead card, the medium and the hard AI
    (and the AI of an unknown level, which plays as medium) give the trick
    away: the card chosen is of the lead suit and below the lead card, the
    highest such card of the hand at the hard level and the lowest at the
    others. *)
Theorem medium_and_hard_duck (floor_fifths : Z → Z → Z) (r : nat) (a : AI.t)
    (g : GameState) (l w : Card) :
  aiDifficulty g ≠ "easy" → aiDifficulty g ≠ "grandmaster" →
  currentTrick g ≠ 5 → leadCard g = Some l →
  w ∈ aiHand g → suit w = suit l → getValue w < getValue l →
  ∃ c, (AI.chooseCard floor_fifths r a g).2 = Ok (Some c) ∧
       c ∈ aiHand g ∧ suit c = suit l ∧ getValue c < getValue l ∧
       ∀ c', c' ∈ aiHand g → suit c' = suit l → getValue c' < getValue l →
             if bool_decide (aiDifficulty g = "hard")
             then getValue c' ≤ getValue c else getValue c ≤ getValue c'.
Proof.
  intros Hde Hdg Ht Hl Hw Hs Hv.
  destruct (losers (aiHand g) l w Hw Hs Hv) as (Hsame & Hlose & Hin).
  assert (∃ c, (AI.chooseCardMedium a g).2 = Ok (Some c) ∧
               c ∈ aiHand g ∧ suit c = suit l ∧ getValue c < getValue l ∧
               ∀ c', c' ∈ aiHand g → suit c' = suit l → getValue c' < getValue l →
                     getValue c ≤ getValue c') as Hmedium.
  { unfold AI.chooseCardMedium. cbv zeta.
    rewrite (bool_decide_eq_false_2 (currentTrick g = 5)) by done.
    rewrite Hl, (getValidCards_follow_suit ai g l w Hl Hw Hs). cbn [hand].
    rewrite (bool_decide_eq_true_2 _ Hsame), (bool_decide_eq_true_2 _ Hlose).
    destruct (getLowestCard_spec _ Hlose) as (c & -> & Hc & Hmin).
    exists c. split; [done|]. apply Hin in Hc as (? & ? & ?).
    repeat split; [done..|]. intros c' ? ? ?. by apply Hmin, Hin. }
  unfold AI.chooseCard. cbv zeta.
  rewrite (bool_decide_eq_false_2 (aiDifficulty g = "easy")) by done.
  rewrite (bool_decide_eq_false_2 (aiDifficulty g = "grandmaster")) by done.
  case_bool_decide as Hm.
  { rewrite bool_decide_eq_false_2 by (rewrite Hm; done). done. }
  case_bool_decide as Hh; [|done].
  unfold AI.chooseCardHard. cbv zeta.
  rewrite (bool_decide_eq_false_2 (currentTrick g = 5)) by done.
  rewrite (bool_decide_eq_false_2 (leadCard g = None)) by (by rewrite Hl).
  cbn [snd]. unfold AI.chooseStrategicFollowCard.
  rewrite Hl, (getValidCards_follow_suit ai g l w Hl Hw Hs). cbn [hand].
  rewrite (bool_decide_eq_true_2 _ Hsame), (bool_decide_eq_true_2 _ Hlose).
  destruct (getHighestCard_spec _ Hlose) as (c & -> & Hc & Hmax).
  exists c. split; [done|]. apply Hin in Hc as (? & ? & ?).
  repeat split; [done..|]. intros c' ? ? ?. by apply Hmax, Hin.
Qed.

Lemma medium_and_hard_duck_witness :
  ∃ c, (AI.chooseCard exact_fifths 0 AI.new
          (ai_to_move [mkCard clubs r9; mkCard clubs r3; mkCard clubs r4]
             2 (Some (mkCard clubs r5)) "hard")).2 = Ok (Some c) ∧
       c = mkCard clubs r4.
Proof.
  destruct (medium_and_hard_duck exact_fifths 0 AI.new
              (ai_to_move [mkCard clubs r9; mkCard clubs r3; mkCard clubs r4]
                 2 (Some (mkCard clubs r5)) "hard")
              (mkCard clubs r5) (mkCard clubs r3))
    as (c & Hc & _).
  - by vm_compute.
  - by vm_compute.
  - by vm_compute.
  - reflexivity.
  - right. left.
  - reflexivity.
  - reflexivity.
  - exists c. split; [exact Hc|].
    vm_compute in Hc. by injection Hc as <-.
Defined.

(** ** The AI with no card *)

(** X12. With an empty hand the choice of the AI is no card: the easy level
    returns [undefined], and so does the grandmaster when it leads on a
    trick other than the fifth; every other case raises a [TypeError] (the
    [reduce] of an empty array). *)
Theorem empty_hand_choice (floor_fifths : Z → Z → Z) (r : nat) (a : AI.t)
    (g : GameState) :
  aiHand g = [] →
  (AI.chooseCard floor_fifths r a g).2 =
    if bool_decide (aiDifficulty g = "easy") then Ok None
    else if bool_decide (aiDifficulty g = "grandmaster")
            && negb (bool_decide (currentTrick g = 5))
            && bool_decide (leadCard g = None)
         then Ok None
         else TypeError.
Proof.
  intros Hh.
  assert (getValidCards ai g = []) as Hv.
  { unfold getValidCards. cbn [hand]. rewrite Hh. by destruct (leadCard g). }
  assert (∀ x, (Z.min x (-1) <? 0) = true) as Hmin by (intros x; lia).
  unfold AI.chooseCard, AI.chooseCardEasy, AI.chooseCardMedium, AI.chooseCardHard,
    AI.chooseCardGrandmaster, AI.chooseStrategicFollowCard,
    AI.chooseBestCardToWin, AI.grandmasterTrick5, AI.grandmasterFollow,
    AI.grandmasterLead.
  cbv zeta. rewrite Hv, Hh.
  case_bool_decide as He; [done|].
  case_bool_decide as Hm.
  { rewrite (bool_decide_eq_false_2 (aiDifficulty g = "grandmaster"))
      by (rewrite Hm; done).
    destruct (leadCard g); repeat case_bool_decide; simplify_eq; by cbn. }
  case_bool_decide as Hha.
  { rewrite (bool_decide_eq_false_2 (aiDifficulty g = "grandmaster"))
      by (rewrite Hha; done).
    destruct (leadCard g); repeat case_bool_decide; simplify_eq; by cbn. }
  case_bool_decide as Hg; cbn [andb].
  - destruct (leadCard g) eqn:Hl; repeat case_bool_decide; simplify_eq;
      cbn; rewrite ?Hmin; done.
  - destruct (leadCard g); repeat case_bool_decide; simplify_eq; by cbn.
Qed.

Lemma empty_hand_choice_witness :
  (AI.chooseCard exact_fifths 0 AI.new (ai_to_move [] 2 None "hard")).2
  = TypeError.
Proof.
  by rewrite (empty_hand_choice exact_fifths 0 AI.new (ai_to_move [] 2 None "hard")).
Defined.

(** ** Leading a suit the player is out of *)

Lemma playCard_lead_eq (p : Player) (card : Card) (g : GameState) :
  currentPlayer g = Some p → leadCard g = None → card ∈ hand p g →
  ∃ h', hand p g ≡ₚ card :: h' ∧
        playCard card p g
        = Ok (true,
              set_currentPlayer (Some (other p))
                (set_playedCards (playedCards g ++ [(card, p)])
                   (set_leadPlayer (Some p)
                      (set_leadCard (Some card) (set_hand p h' g))))).
Proof.
  intros Hcp Hl Hin. unfold playCard, canPlayCard.
  rewrite bool_decide_eq_false_2 by (by intros []). rewrite Hl. cbn [negb].
  destruct (splice_found_Permutation card (hand p g) Hin) as [Hidx Hperm].
  rewrite bool_decide_eq_true_2 by done.
  eexists. split; [exact Hperm|].
  destruct p; fields; by rewrite Hl.
Qed.

Lemma playCard_follow_eq (p : Player) (card l : Card) (g : GameState) :
  currentPlayer g = Some p → leadCard g = Some l → card ∈ hand p g →
  ((∃ c, c ∈ hand p g ∧ suit c = suit l) → suit card = suit l) →
  ∃ h', hand p g ≡ₚ card :: h' ∧
        playCard card p g
        = js_bind
            (evaluateTrick
               (set_playedCards (playedCards g ++ [(card, p)])
                  (set_followCard (Some card) (set_hand p h' g))))
            (λ '(_, g'), Ok (true, g')).
Proof.
  intros Hcp Hl Hin Hsuit. unfold playCard.
  assert (canPlayCard card p g = true) as ->.
  { unfold canPlayCard. rewrite bool_decide_eq_false_2 by (by intros []).
    rewrite Hl. destruct (existsb _ _) eqn:Hex; [|done].
    apply existsb_suit in Hex. by apply bool_decide_eq_true, Hsuit. }
  cbn [negb].
  destruct (splice_found_Permutation card (hand p g) Hin) as [Hidx Hperm].
  rewrite bool_decide_eq_true_2 by done.
  eexists. split; [exact Hperm|].
  destruct p; fields; by rewrite Hl.
Qed.

Lemma voids_sound_inv (ps0 as0 : Z) (g : GameState) (a : AI.t) (s : Suit) :
  game_inv ps0 as0 g →
  s ∈ AI.opponentVoidSuits (AI.updateOpponentVoids g a) →
  ∀ c, c ∈ playerHand g → suit c ≠ s.
Proof.
  intros (_ & (lp & cp & _ & _ & _ & Hall) & _) Hs.
  unfold AI.updateOpponentVoids in Hs. simpl in Hs.
  apply updateOpponentVoids_elem in Hs as [Hs|(t & Ht & Hlp & Hoff & <-)];
    [by apply not_elem_of_empty in Hs|].
  rewrite Forall_forall in Hall.
  destruct (Hall t Ht) as (x & Hx & _ & Hvoid).
  assert (x = ai) as -> by congruence.
  exact (Hvoid Hoff).
Qed.

(** X13. The lead in a suit the player is out of wins the last trick.  Under
    legal play, the grandmaster to lead on trick 5 with a card of a suit marked
    void chooses such a card; played, it is accepted, and whatever card of
    the hand the player then plays is accepted and loses: the round is over
    and the point is the AI's. *)
Theorem void_lead_wins_round (floor_fifths : Z → Z → Z) (r : nat) (a : AI.t)
    (g : GameState) (c0 : Card) :
  reachable g → aiDifficulty g = "grandmaster" → currentTrick g = 5 →
  leadCard g = None → currentPlayer g = Some ai →
  c0 ∈ aiHand g →
  suit c0 ∈ AI.opponentVoidSuits (AI.updateOpponentVoids g a) →
  ∃ c g1,
    (AI.chooseCard floor_fifths r a g).2 = Ok (Some c) ∧
    suit c ∈ AI.opponentVoidSuits (AI.updateOpponentVoids g a) ∧
    playCard c ai g = Ok (true, g1) ∧
    ∀ d, d ∈ playerHand g1 →
         ∃ g2, playCard d player g1 = Ok (true, g2) ∧
               gameActive g2 = false ∧
               aiScore g2 = aiScore g + 1 ∧ playerScore g2 = playerScore g.
Proof.
  intros (rnd & g0 & acts & Hrun) Hd Ht Hl Hcp Hc0 Hvoid0.
  pose proof (run_game_inv rnd g0 g acts Hrun) as Hinv.
  set (voids := AI.opponentVoidSuits (AI.updateOpponentVoids g a)) in *.
  assert (∃ c, (AI.chooseCard floor_fifths r a g).2 = Ok (Some c) ∧
               c ∈ aiHand g ∧ suit c ∈ voids) as (c & Hc & Hin & Hvoid).
  { rewrite chooseCard_grandmaster by done.
    unfold AI.chooseCardGrandmaster. cbv zeta.
    rewrite (bool_decide_eq_true_2 (currentTrick g = 5)) by done.
    rewrite (bool_decide_eq_true_2 (leadCard g = None)) by done. cbn [snd].
    unfold AI.grandmasterTrick5.
    change (AI.opponentVoidSuits
              (AI.updateOpponentVoids g (AI.updatePlayedCards g a))) with voids.
    unfold getValidCards. rewrite Hl. cbn [hand].
    pose proof (filter_nonempty (λ c, suit c ∈ voids) (aiHand g) c0 Hc0 Hvoid0)
      as Hne.
    rewrite (bool_decide_eq_true_2 _ Hne).
    destruct (getLowestCard_spec _ Hne) as (c & -> & Hc & _).
    apply list_elem_of_filter in Hc as [? ?]. by exists c. }
  destruct (playCard_lead_eq ai c g Hcp Hl Hin) as (h' & _ & Hplay).
  exists c. eexists. split; [done|]. split; [done|]. split; [exact Hplay|].
  destruct (lead_result ai c h' g)
    as (_ & Fo & _ & Fl & _ & _ & _ & Flp & Fcp & Ftr & Fps & Fas).
  set (g1 := set_currentPlayer _ _) in *. cbn [other hand] in Fo, Fcp.
  intros d Hd1.
  assert (suit d ≠ suit c) as Hoff.
  { apply (voids_sound_inv _ _ g a (suit c) Hinv Hvoid). by rewrite <- Fo. }
  destruct (playCard_follow_eq player d c g1 Fcp Fl Hd1) as (h1 & _ & Hplay1).
  { intros (c' & Hc' & Hs'). exfalso.
    apply (voids_sound_inv _ _ g a (suit c) Hinv Hvoid c'); [|done].
    by rewrite <- Fo. }
  rewrite Hplay1.
  destruct (evaluateTrick _) as [[r2 g2]|] eqn:Hev.
  - pose proof (follow_result player d c ai h1 _ g1 g2 r2 Fl Flp Hev) as F.
    cbv zeta in F.
    assert (trickWinner c d ai = ai) as Hw.
    { unfold trickWinner. by rewrite bool_decide_eq_false_2. }
    rewrite Hw, Ftr, (bool_decide_eq_true_2 _ Ht) in F.
    destruct F as (_ & _ & _ & _ & _ & _ & _ & Fact & _ & _ & _ & Fw & Fow).
    cbn [score other] in Fw, Fow.
    exists g2. cbn [js_bind]. split; [done|]. split; [done|].
    by rewrite Fw, Fow, Fas, Fps.
  - rewrite (evaluateTrick_eq _ c d ai) in Hev by done.
    cbv zeta in Hev. by case_bool_decide.
Qed.

Lemma void_lead_wins_round_witness :
  ∃ c g1,
    (AI.chooseCard exact_fifths 0 AI.new round7_trick5).2 = Ok (Some c) ∧
    suit c ∈ AI.opponentVoidSuits (AI.updateOpponentVoids round7_trick5 AI.new) ∧
    playCard c ai round7_trick5 = Ok (true, g1) ∧
    ∀ d, d ∈ playerHand g1 →
         ∃ g2, playCard d player g1 = Ok (true, g2) ∧
               gameActive g2 = false ∧
               aiScore g2 = aiScore round7_trick5 + 1 ∧
               playerScore g2 = playerScore round7_trick5.
Proof.
  apply (void_lead_wins_round exact_fifths 0 AI.new round7_trick5
           (mkCard clubs r5)).
  - exact (round7_reachable _ _ round7_trick5_run).
  - reflexivity.
  - reflexivity.
  - reflexivity.
  - reflexivity.
  - apply (bool_decide_unpack _). by vm_compute.
  - apply (bool_decide_unpack _). by vm_compute.
Defined.

(** ** The deck *)

(** X14. Shuffling loses and repeats nothing, whatever the random draws: the
    shuffled deck is a permutation of the deck, and a deck that [initialize]
    has built and [shuffle] has shuffled holds all the 52 cards, each
    once. *)
Theorem shuffled_deck_complete (rnd : nat → nat) (d : Deck) :
  cards (shuffle rnd d) ≡ₚ cards d ∧
  length (cards (shuffle rnd (initialize d))) = 52%nat ∧
  NoDup (cards (shuffle rnd (initialize d))) ∧
  ∀ c, c ∈ cards (shuffle rnd (initialize d)).
Proof.
  destruct (initialize_all_cards d) as (Hl & Hn & Hall).
  split; [apply shuffle_Permutation|].
  split; [by rewrite shuffle_Permutation|].
  split; [by rewrite shuffle_Permutation|].
  intros c. rewrite shuffle_Permutation. apply Hall.
Qed.

Lemma redealHand_deck (p : Player) (g : GameState) :
  hand p (redealHand p g) = take 5 (cards (deck g)) ∧
  hand (other p) (redealHand p g) = hand (other p) g ∧
  cards (deck (redealHand p g)) = drop 5 (cards (deck g)).
Proof. by destruct p. Qed.

Lemma startNewRound_partition (rnd : nat → nat) (g0 : GameState) :
  let g1 := startNewRound rnd g0 in
  playerHand g1 ++ aiHand g1 ++ cards (deck g1) ≡ₚ cards Deck_new.
Proof.
  destruct (startNewRound_hands rnd g0) as (Hp & Ha & Hd & _).
  cbv zeta in *. rewrite Hp, Ha, Hd.
  rewrite <- (drop_drop _ 5 5), !take_drop, shuffle_Permutation.
  reflexivity.
Qed.

Lemma handleRedealOffers_cards (yes : bool) (g1 : GameState) (D : list Card) :
  length (playerHand g1) = 5%nat → length (aiHand g1) = 5%nat →
  length (cards (deck g1)) = 42%nat →
  playerHand g1 ++ aiHand g1 ++ cards (deck g1) ≡ₚ D →
  let g2 := handleRedealOffers yes g1 in
  length (playerHand g2) = 5%nat ∧ length (aiHand g2) = 5%nat ∧
  discarded yes g1 ++ playerHand g2 ++ aiHand g2 ++ cards (deck g2) ≡ₚ D ∧
  (handQualifiesForRedeal (playerHand g1) && yes = false → playerHand g2 = playerHand g1) ∧
  (handQualifiesForRedeal (aiHand g1) = false → aiHand g2 = aiHand g1).
Proof.
  intros Hlp Hla Hld Hperm g2.
  unfold g2, handleRedealOffers, discarded. cbv zeta. clear g2.
  destruct (redealHand_deck player g1) as (P1 & P2 & P3).
  destruct (redealHand_deck ai g1) as (A1 & A2 & A3).
  destruct (redealHand_deck ai (redealHand player g1)) as (B1 & B2 & B3).
  cbn [hand other] in *.
  rewrite <- (take_drop 5 (cards (deck g1))) in Hperm.
  destruct (handQualifiesForRedeal (playerHand g1) && yes) eqn:Ep,
    (handQualifiesForRedeal (aiHand g1)) eqn:Ea.
  - rewrite B1, B2, B3, P1, P3.
    rewrite !length_take, !length_drop, Hld.
    split; [lia|]. split; [lia|]. split; [|done].
    rewrite <- Hperm, <- !(assoc_L (++)).
    do 2 apply Permutation_app_head.
    by rewrite !take_drop.
  - rewrite P1, P2, P3, length_take, Hld.
    split; [lia|]. split; [done|]. split; [|done].
    rewrite <- Hperm, app_nil_r.
    apply Permutation_app_head, Permutation_app_swap_app.
  - rewrite A1, A2, A3, length_take, Hld.
    split; [done|]. split; [lia|]. split; [|done].
    rewrite <- Hperm. cbn [app].
    apply Permutation_app_swap_app.
  - rewrite take_drop in Hperm.
    split; [done|]. split; [done|]. split; [exact Hperm|]. done.
Qed.

(** X15. The redeal after the deal keeps the cards apart: whatever the
    hands and the answer of the player, both hands hold 5 cards afterwards;
    the hands, the rest of the deck and the hands given back hold the 52
    cards, each once, so that no card given back is dealt again; and a hand
    that is not redealt is left as it was. *)
Theorem redeal_keeps_cards_apart (rnd : nat → nat) (g0 : GameState) (yes : bool) :
  let g1 := startNewRound rnd g0 in
  let g2 := handleRedealOffers yes g1 in
  length (playerHand g2) = 5%nat ∧ length (aiHand g2) = 5%nat ∧
  discarded yes g1 ++ playerHand g2 ++ aiHand g2 ++ cards (deck g2)
    ≡ₚ cards Deck_new ∧
  NoDup (discarded yes g1 ++ playerHand g2 ++ aiHand g2 ++ cards (deck g2)) ∧
  (handQualifiesForRedeal (playerHand g1) && yes = false →
   playerHand g2 = playerHand g1) ∧
  (handQualifiesForRedeal (aiHand g1) = false → aiHand g2 = aiHand g1).
Proof.
  destruct (startNewRound_hands rnd g0) as (_ & _ & _ & Hlp & Hla & Hld).
  destruct (handleRedealOffers_cards yes (startNewRound rnd g0) (cards Deck_new)
              Hlp Hla Hld (startNewRound_partition rnd g0))
    as (H1 & H2 & H3 & H4 & H5).
  cbv zeta. split; [exact H1|]. split; [exact H2|]. split; [exact H3|].
  split; [|split; [exact H4|exact H5]].
  rewrite H3. apply Deck_new_NoDup.
Qed.

(** ** Numbers as strings *)

Lemma digit_cases (d : Z) :
  0 ≤ d < 10 →
  d = 0 ∨ d = 1 ∨ d = 2 ∨ d = 3 ∨ d = 4 ∨ d = 5 ∨ d = 6 ∨ d = 7 ∨ d = 8 ∨ d = 9.
Proof. lia. Qed.

Lemma digitValue_digit (d : Z) :
  0 ≤ d < 10 → digitValue (ascii_of_nat (48 + Z.to_nat d)) = Some d.
Proof.
  intros Hd. destruct (digit_cases d Hd) as [->|[->|[->|[->|[->|[->|[->|[->|[->| ->]]]]]]]]];
    reflexivity.
Qed.

(** The digits of [n] in front of [acc] read back as [n] appended to the
    number read so far. *)
Lemma parseDigits_digits_from (fuel : nat) :
  ∀ (n : Z) (acc : string) (a : option Z),
    0 ≤ n < 10 ^ Z.of_nat (S fuel) →
    ∃ k, 0 < k ∧
      parseDigits 10 (digits_from (S fuel) n acc) a =
      parseDigits 10 acc (Some (default 0 a * 10 ^ k + n)).
Proof.
  induction fuel as [|fuel IH]; intros n acc a Hn.
  all: assert (0 ≤ n mod 10 < 10) as Hd by (apply Z.mod_pos_bound; lia).
  all: assert (n = 10 * (n / 10) + n mod 10) as Hdiv by (apply Z.div_mod; lia).
  all: change (digits_from (S ?f) n acc) with
      (let acc' := String (ascii_of_nat (48 + Z.to_nat (n mod 10))) acc in
       if n / 10 =? 0 then acc' else digits_from f (n / 10) acc');
    cbv zeta; destruct (Z.eqb_spec (n / 10) 0) as [E|E].
  1, 3: exists 1; split; [lia|];
    cbn [parseDigits]; rewrite (digitValue_digit _ Hd);
    destruct (Z.ltb_spec (n mod 10) 10); [|lia];
    do 2 f_equal; lia.
  - change (10 ^ Z.of_nat 1) with 10 in Hn.
    assert (n / 10 = 0) by (apply Z.div_small; lia). lia.
  - destruct (IH (n / 10) (String (ascii_of_nat (48 + Z.to_nat (n mod 10))) acc) a)
      as (k & Hk & ->).
    { split; [apply Z.div_pos; lia|].
      apply Z.div_lt_upper_bound; [lia|].
      rewrite (Nat2Z.inj_succ (S fuel)), Z.pow_succ_r in Hn; [|apply Nat2Z.is_nonneg]. apply Hn. }
    exists (k + 1). split; [lia|].
    cbn [parseDigits]. rewrite (digitValue_digit _ Hd).
    destruct (Z.ltb_spec (n mod 10) 10); [|lia].
    do 2 f_equal. cbn [default]. rewrite Z.pow_add_r, Z.pow_1_r by lia.
    set (q := n / 10) in *. set (m := n mod 10) in *. clearbody q m.
    subst n. unfold id. ring.
Qed.

(** The string of digits starts with a digit, and a digit or nothing comes
    second. *)
Lemma digits_from_head (fuel : nat) :
  ∀ (n : Z) (acc : string), 0 ≤ n →
    ∃ d r, 0 ≤ d < 10 ∧
      digits_from (S fuel) n acc = String (ascii_of_nat (48 + Z.to_nat d)) r ∧
      (r = acc ∨ ∃ d' r', 0 ≤ d' < 10 ∧
         r = String (ascii_of_nat (48 + Z.to_nat d')) r').
Proof.
  induction fuel as [|fuel IH]; intros n acc Hn.
  all: assert (0 ≤ n mod 10 < 10) as Hd by (apply Z.mod_pos_bound; lia).
  - exists (n mod 10), acc. split; [done|]. split; [|by left].
    cbn [digits_from]. by destruct (n / 10 =? 0).
  - change (digits_from (S (S fuel)) n acc) with
      (let acc' := String (ascii_of_nat (48 + Z.to_nat (n mod 10))) acc in
       if n / 10 =? 0 then acc' else digits_from (S fuel) (n / 10) acc').
    cbv zeta. destruct (n / 10 =? 0).
    + exists (n mod 10), acc. split; [done|]. split; [done|by left].
    + destruct (IH (n / 10) (String (ascii_of_nat (48 + Z.to_nat (n mod 10))) acc))
        as (d & r & Hd' & -> & Hr); [apply Z.div_pos; lia|].
      exists d, r. split; [done|]. split; [done|]. right.
      destruct Hr as [->|Hr]; [|done]. by exists (n mod 10), acc.
Qed.

Lemma parseInt_decimal (sign : bool) (d : Z) (r : string) :
  0 ≤ d < 10 →
  (r = EmptyString ∨ ∃ d' r', 0 ≤ d' < 10 ∧
     r = String (ascii_of_nat (48 + Z.to_nat d')) r') →
  let s := String (ascii_of_nat (48 + Z.to_nat d)) r in
  parseInt (if sign then String "-" s else s) =
    match parseDigits 10 s None with
    | None => NaN
    | Some m => Num ((if sign then -1 else 1) * m)
    end.
Proof.
  intros Hd Hr.
  destruct (digit_cases d Hd) as [->|[->|[->|[->|[->|[->|[->|[->|[->| ->]]]]]]]]];
    destruct sign; try reflexivity.
  all: destruct Hr as [->|(d' & r' & Hd' & ->)]; [reflexivity|].
  all: destruct (digit_cases d' Hd') as [->|[->|[->|[->|[->|[->|[->|[->|[->| ->]]]]]]]]];
    reflexivity.
Qed.

Lemma log2_fuel (n : Z) : 0 ≤ n → n < 10 ^ Z.of_nat (S (Z.to_nat (Z.log2 n))).
Proof.
  intros Hn. rewrite Nat2Z.inj_succ, Z2Nat.id by apply Z.log2_nonneg.
  destruct (Z.eq_dec n 0) as [->|]; [done|].
  assert (n < 2 ^ Z.succ (Z.log2 n)) by (apply Z.log2_spec; lia).
  assert (2 ^ Z.succ (Z.log2 n) ≤ 10 ^ Z.succ (Z.log2 n)).
  { apply Z.pow_le_mono_l. lia. }
  lia.
Qed.

Lemma parseInt_digits_from (sign : bool) (n : Z) :
  0 ≤ n →
  let s := digits_from (S (Z.to_nat (Z.log2 n))) n EmptyString in
  parseInt (if sign then String "-" s else s) =
    Num ((if sign then -1 else 1) * n).
Proof.
  intros Hn s.
  destruct (digits_from_head (Z.to_nat (Z.log2 n)) n EmptyString Hn)
    as (d & r & Hd & E & Hr).
  destruct (parseDigits_digits_from _ n EmptyString None (conj Hn (log2_fuel n Hn)))
    as (k & _ & Hk).
  unfold s. rewrite E in Hk |- *.
  rewrite (parseInt_decimal sign d r Hd Hr). cbv zeta. rewrite Hk.
  cbn [parseDigits default]. unfold id. f_equal; lia.
Qed.

Lemma parseInt_number_toString (z : Z) : parseInt (number_toString (Num z)) = Num z.
Proof.
  unfold number_toString. destruct (Z.ltb_spec z 0).
  - rewrite (parseInt_digits_from true (- z)) by lia. f_equal; lia.
  - rewrite (parseInt_digits_from false z) by lia. f_equal; lia.
Qed.

(** ** The settings *)

Lemma evaluateTrick_settings (g g' : GameState) (r : TrickResult) :
  evaluateTrick g = Ok (r, g') → settings g' = settings g.
Proof.
  unfold evaluateTrick. destruct (leadCard g), (followCard g); try done.
  repeat case_bool_decide; intros ?; by simplify_eq.
Qed.

Lemma step_settings (act : Action) (g g' : GameState) :
  step act g = Some g' → settings g' = settings g.
Proof.
  destruct act as [p card|]; intros Hstep.
  - apply step_Play_cases in Hstep
      as [->|(h' & _ & _ & [[_ ->]|(l & r & _ & _ & _ & Hev)])]; [done| |].
    + by destruct p.
    + apply evaluateTrick_settings in Hev. rewrite Hev. by destruct p.
  - by apply step_ClearTrick_cases in Hstep as (l & f & _ & _ & ->).
Qed.

Lemma run_settings (acts : list Action) (g g' : GameState) :
  run acts g = Some g' → settings g' = settings g.
Proof.
  intros Hrun.
  apply (run_invariant (λ x, settings x = settings g)
           (λ act g1 g2 H1 Hs, eq_trans (step_settings act g1 g2 Hs) H1)
           acts g g' eq_refl Hrun).
Qed.

Lemma loadSettings_soundEnabled (localStorage : gmap string string) (g : GameState) :
  soundEnabled (loadSettings localStorage g) =
    match localStorage !! "soundEnabled" with
    | Some v => Some (bool_decide (v = "true"))
    | None => soundEnabled g
    end.
Proof.
  unfold loadSettings.
  destruct (localStorage !! "soundEnabled"),
    (localStorage !! "scoreGoal") as [v|],
    (localStorage !! "aiDifficulty") as [dv|],
    (localStorage !! "cardBack") as [cv|]; unfold truthy;
    repeat case_bool_decide; reflexivity.
Qed.

Lemma loadSettings_aiDifficulty (localStorage : gmap string string) (g : GameState) :
  aiDifficulty (loadSettings localStorage g) =
    match localStorage !! "aiDifficulty" with
    | Some v => if bool_decide (v = EmptyString) then aiDifficulty g else v
    | None => aiDifficulty g
    end.
Proof.
  unfold loadSettings.
  destruct (localStorage !! "soundEnabled"),
    (localStorage !! "scoreGoal") as [v|],
    (localStorage !! "aiDifficulty") as [dv|],
    (localStorage !! "cardBack") as [cv|]; unfold truthy;
    repeat case_bool_decide; simplify_eq; reflexivity.
Qed.

Lemma loadSettings_selectedCardBack (localStorage : gmap string string) (g : GameState) :
  selectedCardBack (loadSettings localStorage g) =
    match localStorage !! "cardBack" with
    | Some v => if bool_decide (v = EmptyString) then selectedCardBack g else v
    | None => selectedCardBack g
    end.
Proof.
  unfold loadSettings.
  destruct (localStorage !! "soundEnabled"),
    (localStorage !! "scoreGoal") as [v|],
    (localStorage !! "aiDifficulty") as [dv|],
    (localStorage !! "cardBack") as [cv|]; unfold truthy;
    repeat case_bool_decide; simplify_eq; reflexivity.
Qed.

Lemma digits_from_nonempty (fuel : nat) :
  ∀ (n : Z) (acc : string), digits_from (S fuel) n acc ≠ EmptyString.
Proof.
  induction fuel as [|fuel IH]; intros n acc.
  - cbn [digits_from]. by destruct (n / 10 =? 0).
  - change (digits_from (S (S fuel)) n acc) with
      (let acc' := String (ascii_of_nat (48 + Z.to_nat (n mod 10))) acc in
       if n / 10 =? 0 then acc' else digits_from (S fuel) (n / 10) acc').
    cbv zeta. destruct (n / 10 =? 0); [done|apply IH].
Qed.

Lemma number_toString_nonempty (x : number) : number_toString x ≠ EmptyString.
Proof.
  destruct x as [|z]; [done|]. unfold number_toString.
  destruct (z <? 0); [done|apply digits_from_nonempty].
Qed.

Lemma parseInt_toString (x : number) : parseInt (number_toString x) = x.
Proof. destruct x as [|z]; [reflexivity|apply parseInt_number_toString]. Qed.

(** What a load reads of the goal from a store in which [saveSettings] has
    put it. *)
Lemma saveSettings_scoreGoal (localStorage : gmap string string) (g g0 : GameState) :
  (saveSettings localStorage g).1 !! "scoreGoal"
  = Some (number_toString (scoreGoal g)) ∧
  scoreGoal (loadSettings (saveSettings localStorage g).1 g0) = scoreGoal g.
Proof.
  assert ((saveSettings localStorage g).1 !! "scoreGoal"
          = Some (number_toString (scoreGoal g))) as E.
  { unfold saveSettings. destruct (soundEnabled g); cbn [fst].
    - rewrite (lookup_insert_ne _ "soundEnabled" "scoreGoal") by done.
      apply lookup_insert_eq.
    - apply lookup_insert_eq. }
  split; [exact E|].
  rewrite loadSettings_scoreGoal, E.
  rewrite bool_decide_eq_false_2 by apply number_toString_nonempty.
  apply parseInt_toString.
Qed.

Lemma playCard_settings (card : Card) (p : Player) (g g' : GameState) (b : bool) :
  playCard card p g = Ok (b, g') → settings g' = settings g.
Proof.
  unfold playCard. destruct (canPlayCard card p g); cbn [negb];
    [|by intros [= _ <-]].
  set (g1 := if bool_decide _ then _ else g).
  assert (settings g1 = settings g) as H1
    by (subst g1; case_bool_decide; [by destruct p|done]).
  destruct (leadCard g1); [|by intros [= _ <-]].
  destruct (evaluateTrick _) as [[r g2]|] eqn:Hev; [|done].
  cbn [js_bind]. intros [= _ <-].
  apply evaluateTrick_settings in Hev. by rewrite Hev.
Qed.

Lemma saveSettings_without_sound (localStorage : gmap string string)
    (g : GameState) :
  soundEnabled g = None →
  (saveSettings localStorage g).2 = TypeError ∧
  (saveSettings localStorage g).1 !! "aiDifficulty" = Some (aiDifficulty g) ∧
  (saveSettings localStorage g).1 !! "cardBack" = Some (selectedCardBack g) ∧
  (saveSettings localStorage g).1 !! "scoreGoal"
  = Some (number_toString (scoreGoal g)) ∧
  (saveSettings localStorage g).1 !! "soundEnabled"
  = localStorage !! "soundEnabled".
Proof.
  intros Hs. unfold saveSettings. rewrite Hs. cbn [fst snd].
  split; [done|].
  split.
  { rewrite (lookup_insert_ne _ "scoreGoal" "aiDifficulty") by done.
    rewrite (lookup_insert_ne _ "cardBack" "aiDifficulty") by done.
    apply lookup_insert_eq. }
  split.
  { rewrite (lookup_insert_ne _ "scoreGoal" "cardBack") by done.
    apply lookup_insert_eq. }
  split; [apply lookup_insert_eq|].
  by rewrite !lookup_insert_ne by done.
Qed.

(** What every call keeps: no sound setting in the game or in the store,
    and a goal that is printed exactly. *)
Lemma call_without_sound (c : Call) (s : GameState * gmap string string) :
  soundEnabled s.1 = None ∧ s.2 !! "soundEnabled" = None ∧
  safeInteger (scoreGoal s.1) = true →
  soundEnabled (call c s).1 = None ∧ (call c s).2 !! "soundEnabled" = None ∧
  safeInteger (scoreGoal (call c s).1) = true.
Proof.
  destruct s as [g ls]. cbn [fst snd]. intros (Hs & Hls & Hgoal).
  destruct c as [rnd|rnd|rnd|card p| |p| |value|back|input]; cbn [call fst snd].
  - done.
  - done.
  - done.
  - destruct (playCard card p g) as [[b g']|] eqn:E; [|done].
    apply playCard_settings in E.
    assert (soundEnabled g' = soundEnabled g) as -> by exact (f_equal snd E).
    assert (scoreGoal g' = scoreGoal g) as -> by exact (f_equal (λ x, x.1.2) E).
    done.
  - done.
  - by destruct p.
  - done.
  - unfold aiDifficultySelect_change. cbv zeta. cbn [fst snd].
    split; [done|]. split; [|done].
    destruct (saveSettings_without_sound ls (set_aiDifficulty value g) Hs)
      as (_ & _ & _ & _ & ->). done.
  - unfold selectCardBack. cbv zeta. cbn [fst snd].
    split; [done|]. split; [|done].
    destruct (saveSettings_without_sound ls (set_selectedCardBack back g) Hs)
      as (_ & _ & _ & _ & ->). done.
  - unfold scoreGoalInput_change. cbv zeta.
    destruct (inRange (parseInt input) 1 20) eqn:E; cbn [fst snd]; [|done].
    split; [done|]. split.
    + destruct (saveSettings_without_sound ls
                  (set_scoreGoal (parseInt input) g) Hs)
        as (_ & _ & _ & _ & ->). done.
    + fields. destruct (parseInt input) as [|z]; [done|]. cbn [inRange] in E.
      apply andb_true_iff in E as [H1 H2].
      apply Z.leb_le in H1. apply Z.leb_le in H2.
      cbn [safeInteger]. apply Z.ltb_lt.
      assert (2 ^ 53 = 9007199254740992) as -> by reflexivity. lia.
Qed.

Lemma GameState_new_without_sound (localStorage : gmap string string) :
  localStorage !! "soundEnabled" = None → exactGoal localStorage = true →
  soundEnabled (GameState_new localStorage) = None ∧
  safeInteger (scoreGoal (GameState_new localStorage)) = true.
Proof.
  intros Hs Hgoal. unfold GameState_new.
  rewrite loadSettings_soundEnabled, loadSettings_scoreGoal, Hs.
  split; [done|]. unfold exactGoal in Hgoal.
  destruct (localStorage !! "scoreGoal") as [v|]; [|done].
  case_bool_decide; [done|].
  by apply andb_true_iff in Hgoal as [_ ?].
Qed.

(** X16. In a page loaded with a store that has no sound setting,
    [saveSettings] never succeeds: whatever methods of the game are called
    and whatever settings are changed, in any order, the sound setting of
    the game stays unset (only [loadSettings] sets it), so that
    [saveSettings] stores the other three settings and then raises, and the
    key of the sound setting never enters the store.  Stated for the stores
    whose goal is read exactly. *)
Theorem saveSettings_raises_without_sound (store : gmap string string)
    (cs : list Call) :
  store !! "soundEnabled" = None → exactGoal store = true →
  let g := (session store cs).1 in
  let localStorage := (session store cs).2 in
  soundEnabled g = None ∧ localStorage !! "soundEnabled" = None ∧
  (saveSettings localStorage g).2 = TypeError ∧
  (saveSettings localStorage g).1 !! "aiDifficulty" = Some (aiDifficulty g) ∧
  (saveSettings localStorage g).1 !! "cardBack" = Some (selectedCardBack g) ∧
  (saveSettings localStorage g).1 !! "scoreGoal"
  = Some (number_toString (scoreGoal g)) ∧
  (saveSettings localStorage g).1 !! "soundEnabled" = None.
Proof.
  intros Hstore Hgoal.
  assert (soundEnabled (session store cs).1 = None ∧
          (session store cs).2 !! "soundEnabled" = None ∧
          safeInteger (scoreGoal (session store cs).1) = true)
    as (Hs & Hls & _).
  { unfold session.
    destruct (GameState_new_without_sound store Hstore Hgoal) as [H1 H2].
    generalize (GameState_new store, store)
      (conj H1 (conj Hstore H2)
       : soundEnabled (GameState_new store, store).1 = None ∧
         (GameState_new store, store).2 !! "soundEnabled" = None ∧
         safeInteger (scoreGoal (GameState_new store, store).1) = true).
    induction cs as [|c cs IH]; intros s Hinv; [exact Hinv|].
    cbn [foldl]. apply IH. by apply call_without_sound. }
  cbv zeta. split; [exact Hs|]. split; [exact Hls|].
  destruct (saveSettings_without_sound (session store cs).2 (session store cs).1 Hs)
    as (H1 & H2 & H3 & H4 & H5).
  rewrite Hls in H5. done.
Qed.

Lemma saveSettings_raises_without_sound_witness :
  let cs := [ChangeScoreGoal "7"; CallStartNewMatch rnd0;
             CallPlayCard (mkCard clubs r3) player; ChangeDifficulty "hard"] in
  let g := (session ∅ cs).1 in
  let localStorage := (session ∅ cs).2 in
  soundEnabled g = None ∧ localStorage !! "soundEnabled" = None ∧
  (saveSettings localStorage g).2 = TypeError ∧
  (saveSettings localStorage g).1 !! "aiDifficulty" = Some (aiDifficulty g) ∧
  (saveSettings localStorage g).1 !! "cardBack" = Some (selectedCardBack g) ∧
  (saveSettings localStorage g).1 !! "scoreGoal"
  = Some (number_toString (scoreGoal g)) ∧
  (saveSettings localStorage g).1 !! "soundEnabled" = None.
Proof.
  apply (saveSettings_raises_without_sound ∅
           [ChangeScoreGoal "7"; CallStartNewMatch rnd0;
            CallPlayCard (mkCard clubs r3) player; ChangeDifficulty "hard"]);
    reflexivity.
Defined.

(** X17. Saving and loading is a round trip: when the sound setting is set
    and the names of the difficulty and of the card back are not empty,
    [saveSettings] returns, and a game that loads the store it wrote has the
    four settings of the game that saved them, whatever it had before. *)
Theorem settings_round_trip (localStorage : gmap string string)
    (g g0 : GameState) (sound : bool) :
  soundEnabled g = Some sound →
  aiDifficulty g ≠ EmptyString → selectedCardBack g ≠ EmptyString →
  safeInteger (scoreGoal g) = true →
  ∃ localStorage',
    saveSettings localStorage g = (localStorage', Ok ()) ∧
    settings (loadSettings localStorage' g0) = settings g.
Proof.
  intros Hs Hd Hc _.
  destruct (saveSettings_scoreGoal localStorage g g0) as [_ Hgoal].
  revert Hgoal. unfold saveSettings. rewrite Hs. cbn [fst]. intros Hgoal.
  eexists. split; [reflexivity|].
  unfold settings. rewrite Hgoal.
  rewrite loadSettings_aiDifficulty, loadSettings_selectedCardBack,
    loadSettings_soundEnabled.
  rewrite lookup_insert_eq.
  rewrite (lookup_insert_ne _ "soundEnabled" "cardBack") by done.
  rewrite (lookup_insert_ne _ "scoreGoal" "cardBack") by done.
  rewrite lookup_insert_eq.
  rewrite (lookup_insert_ne _ "soundEnabled" "aiDifficulty") by done.
  rewrite (lookup_insert_ne _ "scoreGoal" "aiDifficulty") by done.
  rewrite (lookup_insert_ne _ "cardBack" "aiDifficulty") by done.
  rewrite lookup_insert_eq.
  rewrite !bool_decide_eq_false_2 by done.
  rewrite Hs. by destruct sound.
Qed.

Lemma settings_round_trip_witness :
  ∃ localStorage',
    saveSettings {[ "scoreGoal" := "x" ]} sound_on = (localStorage', Ok ()) ∧
    settings (loadSettings localStorage' GameState_fields) = settings sound_on.
Proof.
  apply (settings_round_trip {[ "scoreGoal" := "x" ]} sound_on GameState_fields true);
    [reflexivity | discriminate | discriminate | reflexivity].
Defined.

(** ** The handlers of the page *)

(** X18. The score-goal input of the settings never installs a goal outside
    1..20: its handler either leaves the game and the store as they are, or
    installs an integer from 1 to 20 and stores it, so that the next load
    reads the same goal; the goal is stored even when [saveSettings] then
    raises for want of a sound setting. *)
Theorem scoreGoalInput_keeps_range (input : string)
    (localStorage : gmap string string) (g : GameState) :
  let g' := (scoreGoalInput_change input localStorage g).1 in
  let localStorage' := (scoreGoalInput_change input localStorage g).2.1 in
  (g' = g ∧ localStorage' = localStorage ∧
   (scoreGoalInput_change input localStorage g).2.2 = Ok () ∧
   ∀ z, parseInt input = Num z → ¬ (1 ≤ z ≤ 20)) ∨
  (∃ z, 1 ≤ z ≤ 20 ∧ parseInt input = Num z ∧
        g' = set_scoreGoal (Num z) g ∧
        ∀ g0, scoreGoal (loadSettings localStorage' g0) = Num z).
Proof.
  unfold scoreGoalInput_change. cbv zeta.
  destruct (inRange (parseInt input) 1 20) eqn:E; cbn [fst snd].
  - right. destruct (parseInt input) as [|z]; [done|]. cbn [inRange] in E.
    apply andb_true_iff in E as [H1 H2].
    apply Z.leb_le in H1. apply Z.leb_le in H2.
    exists z. split; [done|]. split; [done|]. split; [done|].
    intros g0.
    apply (saveSettings_scoreGoal localStorage (set_scoreGoal (Num z) g) g0).
  - left. split; [done|]. split; [done|]. split; [done|].
    intros z Hz. rewrite Hz in E. cbn [inRange] in E.
    apply andb_false_iff in E as [E|E]; apply Z.leb_gt in E; lia.
Qed.

Lemma handleGameOver_goal (g : GameState) (t : Trick.t) :
  last (trickHistory g) = Some t →
  handleGameOver g =
    Ok (if reaches (playerScore g) (scoreGoal g) then PlayerWonMatch
        else if reaches (aiScore g) (scoreGoal g) then AIWonMatch
        else RoundComplete).
Proof.
  intros Hlast. unfold handleGameOver. rewrite Hlast.
  by destruct (reaches (playerScore g) (scoreGoal g)),
    (reaches (aiScore g) (scoreGoal g)).
Qed.

(** X19. The end of the first round of a match under legal play, with no
    setting changed since the page was loaded, by the goal that the game
    loaded: the goal is still that one, and [handleGameOver] announces one
    more round when the goal is [NaN] or above 1; the match to the winner of
    the round when the goal is 1; and the match to the player when the goal
    is 0 or negative, whoever took the last trick.  Stated for the stores
    whose goal is read exactly. *)
Theorem first_round_outcome (store : gmap string string) (rnd : nat → nat)
    (acts : list Action) (g : GameState) :
  exactGoal store = true →
  run acts (startNewMatch rnd (GameState_new store)) = Some g →
  gameActive g = false →
  ∃ t w,
    last (trickHistory g) = Some t ∧ Trick.winner t = Some w ∧
    scoreGoal g = scoreGoal (GameState_new store) ∧
    handleGameOver g =
      Ok (match scoreGoal g with
          | NaN => RoundComplete
          | Num z =>
              if z <=? 0 then PlayerWonMatch
              else if z =? 1 then
                match w with player => PlayerWonMatch | ai => AIWonMatch end
              else RoundComplete
          end).
Proof.
  intros _ Hrun Hover.
  assert (scoreGoal g = scoreGoal (GameState_new store)) as Hgoal.
  { apply run_settings in Hrun.
    exact (f_equal (λ x, x.1.2) Hrun). }
  pose proof (run_game_inv rnd
                (set_aiScore 0 (set_playerScore 0 (GameState_new store)))
                g acts Hrun) as (_ & _ & Hscore & _).
  unfold score_inv in Hscore. rewrite Hover in Hscore.
  cbn [playerScore aiScore set_aiScore set_playerScore] in Hscore.
  destruct Hscore as (t & w & Hlast & Hw & Hsw & Hso).
  exists t, w. split; [done|]. split; [done|].
  split; [exact Hgoal|].
  rewrite (handleGameOver_goal g t Hlast).
  destruct (scoreGoal g) as [|z]; [done|]. cbn [reaches].
  destruct w; cbn [score other] in Hsw, Hso; rewrite Hsw, Hso;
    destruct (Z.leb_spec z 0), (Z.eqb_spec z 1), (Z.leb_spec z (0 + 1));
    try lia; try done.
Qed.

Lemma first_round_outcome_witness :
  ∃ t w,
    last (trickHistory round1_over) = Some t ∧ Trick.winner t = Some w ∧
    scoreGoal round1_over = scoreGoal (GameState_new ∅) ∧
    handleGameOver round1_over =
      Ok (match scoreGoal round1_over with
          | NaN => RoundComplete
          | Num z =>
              if z <=? 0 then PlayerWonMatch
              else if z =? 1 then
                match w with player => PlayerWonMatch | ai => AIWonMatch end
              else RoundComplete
          end).
Proof.
  apply (first_round_outcome ∅ rnd0 round1_acts round1_over);
    [reflexivity | exact round1_over_run | reflexivity].
Defined.

(** ** Card names, paths and the log format *)

(** X20. The log format is a round trip: [parseCard] reads back from the
    string of [cardToString] the suit, the rank and the value of the card,
    and two cards with the same string are the same card. *)
Theorem parseCard_cardToString (c : Card) :
  parseCard (cardToString c)
  = ParsedCard.mk (suitName (suit c)) (Some (rankName (rank c)))
      (Some (getValue c)) ∧
  ∀ d, cardToString d = cardToString c → d = c.
Proof.
  assert (∀ x, parseCard (cardToString x)
               = ParsedCard.mk (suitName (suit x)) (Some (rankName (rank x)))
                   (Some (getValue x))) as Hparse.
  { intros [[] []]; vm_compute; reflexivity. }
  assert (∀ s s', suitName s = suitName s' → s = s') as Hs
    by (intros [] []; by intros [=]).
  assert (∀ r r', rankName r = rankName r' → r = r') as Hr
    by (intros [] []; by intros [=]).
  split; [apply Hparse|].
  intros d Hd. pose proof (f_equal parseCard Hd) as E.
  rewrite !Hparse in E. injection E as E1 E2 _.
  destruct c, d. simpl in E1, E2. f_equal; [by apply Hs|by apply Hr].
Qed.

(** X21. No two cards share a picture or a name: [getImagePath] and
    [toString] each give different strings for different cards. *)
Theorem card_names_distinct (c d : Card) :
  (getImagePath c = getImagePath d → c = d) ∧
  (Card_toString c = Card_toString d → c = d).
Proof.
  split.
  - destruct c as [[] []], d as [[] []]; vm_compute; intros H;
      first [reflexivity | discriminate H].
  - destruct c as [[] []], d as [[] []]; vm_compute; intros H;
      first [reflexivity | discriminate H].
Qed.

(** ** Edges of the play *)

(** X22. [evaluateTrick] raises exactly when a card of the trick is missing,
    and [playCard] never lets that happen: it returns [true] or [false] in
    every state, for every card and player. *)
Theorem playCard_always_returns (g : GameState) :
  (evaluateTrick g = TypeError ↔ leadCard g = None ∨ followCard g = None) ∧
  ∀ card p, ∃ b g', playCard card p g = Ok (b, g').
Proof.
  split; [|intros card p; apply playCard_never_throws].
  unfold evaluateTrick.
  destruct (leadCard g) as [l|]; [|by split; [left|]].
  destruct (followCard g) as [f|]; [|by split; [right|]].
  split; [|by intros [|]].
  by case_bool_decide.
Qed.

(** X23. [playCard] does not ask that the table be cleared.  When the trick
    on the table is resolved and it is the turn of [p], a card that [p] may
    play on the old lead card replaces the follow card, and a new record of
    the lead card of the old trick against this card joins the history,
    under the number of the current trick. *)
Theorem play_on_uncleared_trick (p lp : Player) (card l f : Card) (g : GameState) :
  leadCard g = Some l → followCard g = Some f → leadPlayer g = Some lp →
  currentPlayer g = Some p → card ∈ hand p g →
  ((∃ c, c ∈ hand p g ∧ suit c = suit l) → suit card = suit l) →
  ∃ g' h',
    playCard card p g = Ok (true, g') ∧
    hand p g ≡ₚ card :: h' ∧ hand p g' = h' ∧
    hand (other p) g' = hand (other p) g ∧
    leadCard g' = Some l ∧ followCard g' = Some card ∧
    trickHistory g'
    = trickHistory g
      ++ [Trick.mk (currentTrick g) l card (Some lp) (Some (trickWinner l card lp))].
Proof.
  intros Hl Hf Hlp Hcp Hin Hsuit.
  destruct (playCard_follow_eq p card l g Hcp Hl Hin Hsuit) as (h' & Hperm & E).
  destruct (playCard_accepts card p g) as [g' Hg'].
  { unfold canPlayCard. rewrite bool_decide_eq_false_2 by (by intros []).
    rewrite Hl. destruct (existsb _ _) eqn:Hex; [|done].
    apply existsb_suit in Hex. by apply bool_decide_eq_true, Hsuit. }
  rewrite Hg' in E.
  destruct (evaluateTrick _) as [[r g1]|] eqn:Hev; [|done].
  cbn [js_bind] in E. injection E as ->.
  destruct (follow_result p card l lp h' _ g g1 r Hl Hlp Hev)
    as (H1 & H2 & _ & H3 & H4 & H5 & _).
  by exists g1, h'.
Qed.

Lemma play_on_uncleared_trick_witness :
  ∃ g' h',
    playCard (mkCard clubs r9) ai round1_uncleared = Ok (true, g') ∧
    hand ai round1_uncleared ≡ₚ mkCard clubs r9 :: h' ∧ hand ai g' = h' ∧
    hand (other ai) g' = hand (other ai) round1_uncleared ∧
    leadCard g' = Some (mkCard clubs r3) ∧
    followCard g' = Some (mkCard clubs r9) ∧
    trickHistory g'
    = trickHistory round1_uncleared
      ++ [Trick.mk (currentTrick round1_uncleared) (mkCard clubs r3)
            (mkCard clubs r9) (Some ai)
            (Some (trickWinner (mkCard clubs r3) (mkCard clubs r9) ai))].
Proof.
  apply (play_on_uncleared_trick ai ai (mkCard clubs r9) (mkCard clubs r3)
           (mkCard clubs r8) round1_uncleared);
    [reflexivity | reflexivity | reflexivity | reflexivity
    | apply (bool_decide_unpack _); by vm_compute | reflexivity].
Defined.

(** ** More of the choices of the AI *)

Lemma chooseCard_medium (floor_fifths : Z → Z → Z) (r : nat) (a : AI.t)
    (g : GameState) :
  aiDifficulty g ≠ "easy" → aiDifficulty g ≠ "hard" →
  aiDifficulty g ≠ "grandmaster" →
  AI.chooseCard floor_fifths r a g = AI.chooseCardMedium a g.
Proof.
  intros He Hh Hg. unfold AI.chooseCard. cbv zeta.
  rewrite (bool_decide_eq_false_2 (aiDifficulty g = "easy")) by done.
  rewrite (bool_decide_eq_false_2 (aiDifficulty g = "hard")) by done.
  rewrite (bool_decide_eq_false_2 (aiDifficulty g = "grandmaster")) by done.
  by case_bool_decide.
Qed.

Lemma chooseCard_hard (floor_fifths : Z → Z → Z) (r : nat) (a : AI.t)
    (g : GameState) :
  aiDifficulty g = "hard" →
  AI.chooseCard floor_fifths r a g = AI.chooseCardHard a g.
Proof.
  intros Hd. unfold AI.chooseCard. rewrite Hd.
  rewrite (bool_decide_eq_false_2 ("hard" = "easy")) by done.
  rewrite (bool_decide_eq_false_2 ("hard" = "medium")) by done.
  by rewrite (bool_decide_eq_true_2 ("hard" = "hard")).
Qed.

(** X24. The easy AI can play every legal card: for each card that
    [getValidCards] lists there is a random draw on which it is the card
    chosen; and the easy AI keeps no memory of the cards played. *)
Theorem easy_plays_any_legal_card (floor_fifths : Z → Z → Z) (a : AI.t)
    (g : GameState) (c : Card) :
  aiDifficulty g = "easy" → c ∈ getValidCards ai g →
  ∃ r, AI.chooseCard floor_fifths r a g = (a, Ok (Some c)).
Proof.
  intros Hd Hc. apply list_elem_of_lookup_1 in Hc as [i Hi].
  pose proof (lookup_lt_Some _ _ _ Hi) as Hlt.
  exists i. unfold AI.chooseCard. rewrite Hd.
  rewrite (bool_decide_eq_true_2 ("easy" = "easy")) by done.
  unfold AI.chooseCardEasy. cbv zeta.
  rewrite bool_decide_eq_false_2 by lia.
  rewrite Nat.mod_small by done. by rewrite Hi.
Qed.

Lemma easy_plays_any_legal_card_witness :
  ∃ r, AI.chooseCard exact_fifths r AI.new
         (ai_to_move [mkCard clubs r9; mkCard hearts r3] 2 None "easy")
       = (AI.new, Ok (Some (mkCard hearts r3))).
Proof.
  apply (easy_plays_any_legal_card exact_fifths AI.new
           (ai_to_move [mkCard clubs r9; mkCard hearts r3] 2 None "easy")
           (mkCard hearts r3)); [reflexivity|].
  apply (bool_decide_unpack _). by vm_compute.
Defined.

(** X25. Leading, the medium AI (and the AI of an unknown level) plays the
    lowest card of its hand on the first four tricks and the highest on the
    fifth. *)
Theorem medium_leads_low_then_high (floor_fifths : Z → Z → Z) (r : nat)
    (a : AI.t) (g : GameState) :
  aiDifficulty g ≠ "easy" → aiDifficulty g ≠ "hard" →
  aiDifficulty g ≠ "grandmaster" →
  leadCard g = None → aiHand g ≠ [] →
  ∃ c, (AI.chooseCard floor_fifths r a g).2 = Ok (Some c) ∧ c ∈ aiHand g ∧
       ∀ c', c' ∈ aiHand g →
             if bool_decide (currentTrick g = 5)
             then getValue c' ≤ getValue c else getValue c ≤ getValue c'.
Proof.
  intros He Hh Hg Hl Hne. apply length_pos_elem in Hne.
  rewrite chooseCard_medium by done.
  unfold AI.chooseCardMedium, getValidCards. cbv zeta. rewrite Hl. cbn [hand].
  case_bool_decide; cbn [snd].
  - rewrite (bool_decide_eq_true_2 (None = None)) by done.
    unfold AI.chooseBestCardToWin.
    destruct (getHighestCard_spec _ Hne) as (c & -> & Hc & Hmax). by exists c.
  - destruct (getLowestCard_spec _ Hne) as (c & -> & Hc & Hmin). by exists c.
Qed.

Lemma medium_leads_low_then_high_witness :
  ∃ c, (AI.chooseCard exact_fifths 0 AI.new
          (ai_to_move [mkCard clubs r9; mkCard hearts r3] 5 None "medium")).2
       = Ok (Some c) ∧
       c ∈ [mkCard clubs r9; mkCard hearts r3] ∧
       ∀ c', c' ∈ [mkCard clubs r9; mkCard hearts r3] → getValue c' ≤ getValue c.
Proof.
  apply (medium_leads_low_then_high exact_fifths 0 AI.new
           (ai_to_move [mkCard clubs r9; mkCard hearts r3] 5 None "medium"));
    [discriminate | discriminate | discriminate | reflexivity | discriminate].
Defined.

(** The loop of [bestOfSuits] keeps the best score seen: the card it ends
    with is the top card of a suit, and no top card of a suit scores more. *)
Lemma bestOfSuits_foldl_max (scoreOf : Card → Z)
    (groups : list (Suit * list Card)) (best : option Card) (bestScore : Z) :
  (∀ e, e ∈ groups → (0 < length e.2)%nat) →
  (∀ c, best = Some c → scoreOf c = bestScore) →
  ∃ best' score',
    foldl (λ acc e,
             let* (bestCard, bestScore) := acc in
             let* highest := AI.getHighestCard e.2 in
             if scoreOf highest >? bestScore
             then Ok (Some highest, scoreOf highest)
             else Ok (bestCard, bestScore))
      (Ok (best, bestScore)) groups
    = Ok (best', score') ∧
    bestScore ≤ score' ∧
    (∀ e h, e ∈ groups → AI.getHighestCard e.2 = Ok h → scoreOf h ≤ score') ∧
    (∀ c, best' = Some c →
          scoreOf c = score' ∧
          (best = Some c ∨ ∃ e, e ∈ groups ∧ AI.getHighestCard e.2 = Ok c)) ∧
    (best' = None → best = None ∧ score' = bestScore).
Proof.
  revert best bestScore. induction groups as [|e groups IH];
    intros best bestScore Hgr Hbest; simpl.
  - exists best, bestScore. split; [done|]. split; [lia|].
    split; [intros e h He; by apply elem_of_nil in He|].
    split; [|done]. intros c Hc. split; [by apply Hbest|by left].
  - destruct (getHighestCard_spec e.2 (Hgr e ltac:(left))) as (hi & Ehi & _).
    rewrite Ehi. simpl.
    destruct (Z.gtb_spec (scoreOf hi) bestScore) as [Hgt|Hle].
    + destruct (IH (Some hi) (scoreOf hi)) as (b' & s' & -> & Hge & Hall & Hb' & Hn).
      { intros e' He'. apply Hgr. by right. }
      { by intros c [= <-]. }
      exists b', s'. split; [done|]. split; [lia|]. split; [|split].
      * intros e' h He' Hh. apply elem_of_cons in He' as [->|He'].
        -- rewrite Ehi in Hh. injection Hh as <-. lia.
        -- by apply (Hall e').
      * intros c Hc. destruct (Hb' c Hc) as [Hs [[= <-]|(e' & He' & Hh)]].
        -- split; [done|]. right. exists e. split; [left|done].
        -- split; [done|]. right. exists e'. split; [by right|done].
      * intros Hb. by destruct (Hn Hb).
    + destruct (IH best bestScore) as (b' & s' & -> & Hge & Hall & Hb' & Hn).
      { intros e' He'. apply Hgr. by right. }
      { done. }
      exists b', s'. split; [done|]. split; [lia|]. split; [|split].
      * intros e' h He' Hh. apply elem_of_cons in He' as [->|He'].
        -- rewrite Ehi in Hh. injection Hh as <-. lia.
        -- by apply (Hall e').
      * intros c Hc. destruct (Hb' c Hc) as [Hs [Hc'|(e' & He' & Hh)]].
        -- split; [done|]. by left.
        -- split; [done|]. right. exists e'. split; [by right|done].
      * done.
Qed.

(** What [bestOfSuits] returns when every score is above -1: the top card of
    a suit of the cards, which no top card of a suit outscores. *)
Lemma bestOfSuits_max (scoreOf : Card → Z) (validCards : list Card) :
  (0 < length validCards)%nat → (∀ c, -1 < scoreOf c) →
  ∃ c, AI.bestOfSuits scoreOf validCards = Ok c ∧ c ∈ validCards ∧
       (∀ c', c' ∈ validCards → suit c' = suit c → getValue c' ≤ getValue c) ∧
       ∀ s h, AI.getHighestCard (filter (λ x, suit x = s) validCards) = Ok h →
              scoreOf h ≤ scoreOf c.
Proof.
  intros Hlen Hpos. unfold AI.bestOfSuits. cbv zeta.
  destruct (groupBySuit_spec validCards) as (_ & Hgr & Hcov).
  destruct (bestOfSuits_foldl_max scoreOf (AI.groupBySuit validCards) None (-1))
    as (best & sc & -> & Hge & Hall & Hbest & Hnone); [|done|].
  { intros e He. by destruct (groupBySuit_groups_sub validCards e He). }
  cbn [js_bind fst].
  destruct validCards as [|c0 rest] eqn:Ev; [simpl in Hlen; lia|].
  rewrite <- Ev in *.
  assert (c0 ∈ validCards) as Hc0 by (rewrite Ev; left).
  apply Hcov, list_elem_of_fmap in Hc0 as (e0 & _ & He0).
  destruct (groupBySuit_groups_sub validCards e0 He0) as [Hl0 _].
  destruct (getHighestCard_spec e0.2 Hl0) as (h0 & Hh0 & _).
  pose proof (Hall e0 h0 He0 Hh0) as Hsc0. pose proof (Hpos h0) as Hp0.
  destruct best as [c|]; [|destruct (Hnone eq_refl); lia].
  destruct (Hbest c eq_refl) as [Hsc [|(e & He & Hh)]]; [done|].
  destruct (Hgr e He) as [Hf _].
  destruct (groupBySuit_groups_sub validCards e He) as [Hl Hsub].
  destruct (getHighestCard_spec e.2 Hl) as (c' & Hc' & Hin & Hmax).
  rewrite Hh in Hc'. injection Hc' as <-.
  destruct (Hsub c Hin) as [Hcv Hcs].
  exists c. split; [done|]. split; [done|]. split.
  - intros c' Hc' Hs. apply Hmax. rewrite Hf.
    apply list_elem_of_filter. split; [congruence|done].
  - intros s h Hs. rewrite Hsc.
    destruct (decide (s ∈ (AI.groupBySuit validCards).*1)) as [Hin'|Hout].
    + apply list_elem_of_fmap in Hin' as (e' & -> & He').
      apply (Hall e' h He'). destruct (Hgr e' He') as [-> _]. exact Hs.
    + assert (filter (λ x, suit x = s) validCards = []) as Hnil.
      { apply filter_none. intros x Hx Hsx. apply Hout. rewrite <- Hsx.
        by apply Hcov. }
      rewrite Hnil in Hs. done.
Qed.

(** A card that no card of its suit in the list outranks is the card that
    [getHighestCard] finds in that suit. *)
Lemma top_of_suit (cards : list Card) (c h : Card) :
  c ∈ cards →
  (∀ x, x ∈ cards → suit x = suit c → getValue x ≤ getValue c) →
  AI.getHighestCard (filter (λ x, suit x = suit c) cards) = Ok h → h = c.
Proof.
  intros Hc Htop Hh.
  assert (0 < length (filter (λ x, suit x = suit c) cards))%nat as Hlen
    by (by apply (filter_nonempty _ _ c)).
  destruct (getHighestCard_spec _ Hlen) as (h' & Hh' & Hin & Hmax).
  rewrite Hh in Hh'. injection Hh' as <-.
  apply list_elem_of_filter in Hin as [Hs Hin].
  apply card_eq. split; [done|]. apply getValue_inj.
  assert (getValue c ≤ getValue h)
    by (apply Hmax, list_elem_of_filter; by split).
  pose proof (Htop h Hin Hs). lia.
Qed.

Lemma higherPlayed_nonneg (a : AI.t) (c : Card) : 0 ≤ AI.higherPlayed a c.
Proof. unfold AI.higherPlayed. lia. Qed.

Lemma estimateWinProbability_pos (a : AI.t) (c : Card) :
  -1 < AI.estimateWinProbability a c.
Proof.
  unfold AI.estimateWinProbability.
  pose proof (getValue_range c). pose proof (higherPlayed_nonneg a c). lia.
Qed.

Lemma calculateWinProbability_pos (a : AI.t) (c : Card) :
  -1 < AI.calculateWinProbability a c.
Proof.
  unfold AI.calculateWinProbability. cbv zeta.
  pose proof (getValue_range c). pose proof (higherPlayed_nonneg a c).
  repeat case_bool_decide; lia.
Qed.

(** X26. Leading the fifth trick, the hard AI plays the top card of a suit
    of its hand, and of these top cards one that [estimateWinProbability]
    scores highest, by the cards played that it has just listed. *)
Theorem hard_leads_trick5_best_estimate (floor_fifths : Z → Z → Z) (r : nat)
    (a : AI.t) (g : GameState) :
  aiDifficulty g = "hard" → currentTrick g = 5 → leadCard g = None →
  aiHand g ≠ [] →
  let a' := AI.updatePlayedCards g a in
  ∃ c, AI.chooseCard floor_fifths r a g = (a', Ok (Some c)) ∧ c ∈ aiHand g ∧
       (∀ x, x ∈ aiHand g → suit x = suit c → getValue x ≤ getValue c) ∧
       ∀ c', c' ∈ aiHand g →
             (∀ x, x ∈ aiHand g → suit x = suit c' → getValue x ≤ getValue c') →
             AI.estimateWinProbability a' c' ≤ AI.estimateWinProbability a' c.
Proof.
  intros Hd Ht Hl Hne a'. apply length_pos_elem in Hne.
  rewrite chooseCard_hard by done.
  unfold AI.chooseCardHard, getValidCards. cbv zeta. rewrite Hl. cbn [hand].
  rewrite (bool_decide_eq_true_2 (currentTrick g = 5)) by done.
  rewrite (bool_decide_eq_true_2 (None = None)) by done.
  unfold AI.chooseOptimalLeadCard. fold a'.
  destruct (bestOfSuits_max (AI.estimateWinProbability a') (aiHand g) Hne
              (estimateWinProbability_pos a'))
    as (c & -> & Hc & Htop & Hbest).
  exists c. split; [done|]. split; [done|]. split; [done|].
  intros c' Hc' Htop'.
  destruct (getHighestCard_spec (filter (λ x, suit x = suit c') (aiHand g)))
    as (h & Hh & _); [by apply (filter_nonempty _ _ c')|].
  rewrite <- (top_of_suit (aiHand g) c' h Hc' Htop' Hh).
  by apply (Hbest (suit c')).
Qed.

Lemma hard_leads_trick5_best_estimate_witness :
  let g := ai_to_move [mkCard clubs r9; mkCard hearts king] 5 None "hard" in
  let a' := AI.updatePlayedCards g AI.new in
  ∃ c, AI.chooseCard exact_fifths 0 AI.new g = (a', Ok (Some c)) ∧ c ∈ aiHand g ∧
       (∀ x, x ∈ aiHand g → suit x = suit c → getValue x ≤ getValue c) ∧
       ∀ c', c' ∈ aiHand g →
             (∀ x, x ∈ aiHand g → suit x = suit c' → getValue x ≤ getValue c') →
             AI.estimateWinProbability a' c' ≤ AI.estimateWinProbability a' c.
Proof.
  apply (hard_leads_trick5_best_estimate exact_fifths 0 AI.new
           (ai_to_move [mkCard clubs r9; mkCard hearts king] 5 None "hard"));
    [reflexivity | reflexivity | reflexivity | discriminate].
Defined.

(** X27. Leading the fifth trick with no card of a suit that it knows the
    player to be void in, the grandmaster plays the top card of a suit of its
    hand, and of these top cards one that [calculateWinProbability] scores
    highest. *)
Theorem grandmaster_leads_trick5_best_score (floor_fifths : Z → Z → Z) (r : nat)
    (a : AI.t) (g : GameState) :
  aiDifficulty g = "grandmaster" → currentTrick g = 5 → leadCard g = None →
  aiHand g ≠ [] →
  let a' := AI.updateOpponentVoids g (AI.updatePlayedCards g a) in
  (∀ x, x ∈ aiHand g → suit x ∉ AI.opponentVoidSuits a') →
  ∃ c, AI.chooseCard floor_fifths r a g = (a', Ok (Some c)) ∧ c ∈ aiHand g ∧
       (∀ x, x ∈ aiHand g → suit x = suit c → getValue x ≤ getValue c) ∧
       ∀ c', c' ∈ aiHand g →
             (∀ x, x ∈ aiHand g → suit x = suit c' → getValue x ≤ getValue c') →
             AI.calculateWinProbability a' c' ≤ AI.calculateWinProbability a' c.
Proof.
  intros Hd Ht Hl Hne a' Hvoid. apply length_pos_elem in Hne.
  rewrite chooseCard_grandmaster by done.
  unfold AI.chooseCardGrandmaster, getValidCards. cbv zeta. rewrite Hl. cbn [hand].
  rewrite (bool_decide_eq_true_2 (currentTrick g = 5)) by done.
  rewrite (bool_decide_eq_true_2 (None = None)) by done.
  unfold AI.grandmasterTrick5. fold a'.
  rewrite (filter_none (λ c, suit c ∈ AI.opponentVoidSuits a') (aiHand g)) by done.
  rewrite bool_decide_eq_false_2 by (simpl; lia).
  unfold AI.chooseBestWinningSuit.
  destruct (bestOfSuits_max (AI.calculateWinProbability a') (aiHand g) Hne
              (calculateWinProbability_pos a'))
    as (c & -> & Hc & Htop & Hbest).
  exists c. split; [done|]. split; [done|]. split; [done|].
  intros c' Hc' Htop'.
  destruct (getHighestCard_spec (filter (λ x, suit x = suit c') (aiHand g)))
    as (h & Hh & _); [by apply (filter_nonempty _ _ c')|].
  rewrite <- (top_of_suit (aiHand g) c' h Hc' Htop' Hh).
  by apply (Hbest (suit c')).
Qed.

Lemma grandmaster_leads_trick5_best_score_witness :
  let g := ai_to_move [mkCard clubs r9; mkCard hearts king] 5 None "grandmaster" in
  let a' := AI.updateOpponentVoids g (AI.updatePlayedCards g AI.new) in
  ∃ c, AI.chooseCard exact_fifths 0 AI.new g = (a', Ok (Some c)) ∧ c ∈ aiHand g ∧
       (∀ x, x ∈ aiHand g → suit x = suit c → getValue x ≤ getValue c) ∧
       ∀ c', c' ∈ aiHand g →
             (∀ x, x ∈ aiHand g → suit x = suit c' → getValue x ≤ getValue c') →
             AI.calculateWinProbability a' c' ≤ AI.calculateWinProbability a' c.
Proof.
  apply (grandmaster_leads_trick5_best_score exact_fifths 0 AI.new
           (ai_to_move [mkCard clubs r9; mkCard hearts king] 5 None "grandmaster"));
    [reflexivity | reflexivity | reflexivity | discriminate |].
  intros x _. apply not_elem_of_empty.
Defined.

(** The loop of [chooseStrategicLeadCard] ends on a suit that no suit of
    the groups is shorter than. *)
Lemma weakest_foldl (groups : list (Suit * list Card))
    (acc : option Suit * option nat) :
  let res :=
    foldl (λ (acc : option Suit * option nat) e,
             match acc.2 with
             | Some smallestCount =>
                 if bool_decide (length e.2 < smallestCount)%nat
                 then (Some e.1, Some (length e.2)) else acc
             | None => (Some e.1, Some (length e.2))
             end) acc groups in
  (∀ n, acc.2 = Some n → ∃ n', res.2 = Some n' ∧ (n' ≤ n)%nat) ∧
  (∀ e, e ∈ groups → ∃ n', res.2 = Some n' ∧ (n' ≤ length e.2)%nat) ∧
  (res = acc ∨ ∃ e, e ∈ groups ∧ res = (Some e.1, Some (length e.2))).
Proof.
  revert acc. induction groups as [|e groups IH]; intros acc; cbn [foldl].
  - split; [by eauto|]. split; [|by left].
    intros e He. by apply elem_of_nil in He.
  - set (acc' := match acc.2 with
                 | Some smallestCount =>
                     if bool_decide (length e.2 < smallestCount)%nat
                     then (Some e.1, Some (length e.2)) else acc
                 | None => (Some e.1, Some (length e.2))
                 end).
    destruct (IH acc') as (Hle & Hall & Hres). cbv zeta in *.
    assert (∃ m, acc'.2 = Some m ∧ (m ≤ length e.2)%nat ∧
                 ∀ n, acc.2 = Some n → (m ≤ n)%nat) as (m & Hm & Hme & Hmn).
    { unfold acc'. destruct (acc.2) as [n|] eqn:En.
      - case_bool_decide.
        + exists (length e.2). split; [done|]. split; [done|].
          intros n' [= <-]. lia.
        + exists n. split; [done|]. split; [lia|]. by intros n' [= <-].
      - exists (length e.2). by repeat split. }
    destruct (Hle m Hm) as (n' & Hn' & Hle').
    split; [|split].
    + intros n Hn. exists n'. split; [done|]. specialize (Hmn n Hn). lia.
    + intros e' He'. apply elem_of_cons in He' as [->|He'].
      * exists n'. split; [done|]. lia.
      * by apply Hall.
    + destruct Hres as [Hres|(e' & He' & Hres)].
      * rewrite Hres. unfold acc'. destruct (acc.2) as [n|].
        -- case_bool_decide; [right; exists e; split; [left|done]|by left].
        -- right. exists e. split; [left|done].
      * right. exists e'. split; [by right|done].
Qed.

(** X28. Leading on a trick other than the fifth, the hard AI plays out of a
    shortest suit of its hand, and of that suit its lowest card. *)
Theorem hard_leads_low_of_shortest_suit (floor_fifths : Z → Z → Z) (r : nat)
    (a : AI.t) (g : GameState) :
  aiDifficulty g = "hard" → currentTrick g ≠ 5 → leadCard g = None →
  aiHand g ≠ [] →
  ∃ c, (AI.chooseCard floor_fifths r a g).2 = Ok (Some c) ∧ c ∈ aiHand g ∧
       (∀ x, x ∈ aiHand g → suit x = suit c → getValue c ≤ getValue x) ∧
       ∀ c', c' ∈ aiHand g →
             (length (filter (λ x, suit x = suit c) (aiHand g))
              ≤ length (filter (λ x, suit x = suit c') (aiHand g)))%nat.
Proof.
  intros Hd Ht Hl Hne. apply length_pos_elem in Hne.
  rewrite chooseCard_hard by done.
  unfold AI.chooseCardHard, getValidCards. cbv zeta. rewrite Hl. cbn [hand].
  rewrite (bool_decide_eq_false_2 (currentTrick g = 5)) by done.
  rewrite (bool_decide_eq_true_2 (None = None)) by done.
  cbn [snd]. unfold AI.chooseStrategicLeadCard. cbv zeta.
  destruct (groupBySuit_spec (aiHand g)) as (_ & Hgr & Hcov).
  destruct (weakest_foldl (AI.groupBySuit (aiHand g)) (None, None))
    as (_ & Hall & Hres). cbv zeta in Hall, Hres.
  destruct (aiHand g) as [|c0 rest] eqn:Eh; [simpl in Hne; lia|].
  rewrite <- Eh in *.
  assert (c0 ∈ aiHand g) as Hc0 by (rewrite Eh; left).
  apply Hcov, list_elem_of_fmap in Hc0 as (e0 & _ & He0).
  destruct Hres as [Hres|(e & He & Hres)].
  { destruct (Hall e0 He0) as (n' & Hn' & _). by rewrite Hres in Hn'. }
  rewrite Hres in Hall |- *. cbn [fst snd] in Hall |- *.
  assert (e.1 ∈ (AI.groupBySuit (aiHand g)).*1) as Hkey
    by (apply list_elem_of_fmap; by exists e).
  destruct (group_of_key _ _ Hkey) as [cs Hcs]. rewrite Hcs.
  apply group_Some in Hcs. destruct (Hgr _ Hcs) as [Hf Hcne].
  cbn [fst snd] in Hf, Hcne. apply length_pos_elem in Hcne.
  destruct (getLowestCard_spec cs Hcne) as (c & -> & Hc & Hmin).
  rewrite Hf in Hc. apply list_elem_of_filter in Hc as [Hsc Hc].
  exists c. split; [done|]. split; [done|]. split.
  - intros x Hx Hs. apply Hmin. rewrite Hf.
    apply list_elem_of_filter. split; [congruence|done].
  - intros c' Hc'. rewrite Hsc.
    destruct (Hgr e He) as [<- _].
    apply Hcov, list_elem_of_fmap in Hc' as (e' & -> & He').
    destruct (Hall e' He') as (n' & [= <-] & Hle).
    by destruct (Hgr e' He') as [<- _].
Qed.

Lemma hard_leads_low_of_shortest_suit_witness :
  let g := ai_to_move [mkCard clubs r9; mkCard clubs r4; mkCard hearts king]
             2 None "hard" in
  ∃ c, (AI.chooseCard exact_fifths 0 AI.new g).2 = Ok (Some c) ∧ c ∈ aiHand g ∧
       (∀ x, x ∈ aiHand g → suit x = suit c → getValue c ≤ getValue x) ∧
       ∀ c', c' ∈ aiHand g →
             (length (filter (λ x, suit x = suit c) (aiHand g))
              ≤ length (filter (λ x, suit x = suit c') (aiHand g)))%nat.
Proof.
  apply (hard_leads_low_of_shortest_suit exact_fifths 0 AI.new
           (ai_to_move [mkCard clubs r9; mkCard clubs r4; mkCard hearts king]
              2 None "hard"));
    [reflexivity | discriminate | reflexivity | discriminate].
Defined.

(** ** The round never gets stuck *)

Lemma step_hands_inv (ps0 as0 : Z) (act : Action) (g g' : GameState) :
  game_inv ps0 as0 g ∧ hands_inv g → step act g = Some g' →
  game_inv ps0 as0 g' ∧ hands_inv g'.
Proof.
  intros [Hinv Hh] Hstep.
  split; [by eapply step_game_inv|].
  destruct Hinv as (Hr & Ht & _).
  destruct act as [p card|].
  - apply step_Play_cases in Hstep
      as [-> | (h' & Hperm & Hcur & [[Hl ->] | (l & r & Hl & Hf & Hsuit & Hev)])].
    + done.
    + destruct (lead_result p card h' g)
        as (H1 & H2 & _ & H3 & H4 & H5 & _ & H6 & _).
      cbv zeta in *. unfold hands_inv, round_inv in *.
      rewrite H3, H4, H5. rewrite Hl in Hh, Hr.
      destruct (followCard g); [done|].
      exists p. split; [done|]. rewrite H1, H2.
      apply Permutation_length in Hperm. cbn [length] in Hperm.
      clear H1 H2 H3 H4 H5 H6 Hr Ht.
      destruct Hh as [Hh1 Hh2].
      destruct p; cbn [hand other] in *; split; lia.
    + destruct Ht as (lp & cp & Hlp & Hcp & Hturn & _).
      rewrite Hl, Hf in Hturn.
      assert (p = other lp) as -> by congruence.
      destruct (follow_result (other lp) card l lp h' _ g g' r Hl Hlp Hev)
        as (H1 & H2 & _ & H3 & H4 & H5 & _).
      unfold hands_inv in *. rewrite H3, H4, H5, length_app. cbn [length].
      rewrite Hl, Hf in Hh. destruct Hh as (lp' & Hlp' & Hn1 & Hn2).
      assert (lp' = lp) as -> by congruence.
      rewrite other_other in H2.
      apply Permutation_length in Hperm. cbn [length] in Hperm.
      clear Hev Hturn.
      destruct lp; cbn [hand other] in *; rewrite H1, H2; lia.
  - apply step_ClearTrick_cases in Hstep as (l & f & Hl & Hf & ->).
    unfold hands_inv in *. rewrite Hl, Hf in Hh. exact Hh.
Qed.

Lemma run_hands_inv (rnd : nat → nat) (g0 g : GameState) (acts : list Action) :
  run acts (startNewRound rnd g0) = Some g →
  game_inv (playerScore g0) (aiScore g0) g ∧ hands_inv g.
Proof.
  apply (run_invariant
           (λ x, game_inv (playerScore g0) (aiScore g0) x ∧ hands_inv x)).
  - intros act g1 g2. apply step_hands_inv.
  - split; [apply startNewRound_game_inv|].
    destruct (startNewRound_hands rnd g0) as (_ & _ & _ & Hp & Ha & _).
    destruct (startNewRound_fields rnd g0) as (_ & Hl & _ & _ & Hh & _).
    cbv zeta in *. unfold hands_inv. rewrite Hl, Hh, Hp, Ha. done.
Qed.

(** X29. A round under legal play never gets stuck: while the round is on
    and no resolved trick lies on the table, the player to move holds a
    card, [getValidCards] lists at least one, and [playCard] accepts every
    card it lists.  Between tricks the two hands have the same size, 5 less
    the tricks played. *)
Theorem round_never_stuck (g : GameState) :
  reachable g → gameActive g = true → resolved g = false →
  ∃ cp, currentPlayer g = Some cp ∧ hand cp g ≠ [] ∧
        getValidCards cp g ≠ [] ∧
        (∀ c, c ∈ getValidCards cp g →
              ∃ g', playCard c cp g = Ok (true, g') ∧
                    step (Play cp c) g = Some g') ∧
        (inFlightCards g = 0%nat →
         length (playerHand g) = length (aiHand g) ∧
         (length (playerHand g) + length (trickHistory g) = 5)%nat).
Proof.
  intros (rnd & g0 & acts & Hrun) Hact Hres.
  destruct (run_hands_inv rnd g0 g acts Hrun) as [(Hr & Ht & _) Hh].
  destruct Ht as (lp & cp & Hlp & Hcp & Hturn & _).
  unfold round_inv in Hr. unfold hands_inv in Hh. unfold inFlightCards.
  assert (hand cp g ≠ [] ∧
          (match leadCard g, followCard g with
           | Some _, None => 1%nat | _, _ => 0%nat end = 0%nat →
           length (playerHand g) = length (aiHand g) ∧
           (length (playerHand g) + length (trickHistory g) = 5)%nat))
    as [Hne Heq].
  { destruct (leadCard g) as [l|] eqn:El, (followCard g) as [f|] eqn:Ef.
    - unfold resolved in Hres. rewrite El, Ef in Hres. done.
    - destruct Hh as (lp' & Hlp' & Hn1 & Hn2).
      assert (lp' = lp) as -> by congruence. subst cp.
      split; [|done]. apply length_pos_elem. lia.
    - done.
    - rewrite Hact in Hr. cbv zeta in Hr.
      split; [|lia]. apply length_pos_elem.
      destruct cp; cbn [hand]; lia. }
  exists cp. split; [done|]. split; [done|].
  assert (0 < length (getValidCards cp g))%nat as Hv
    by (by apply getValidCards_nonempty, length_pos_elem).
  split; [by apply length_pos_elem|]. split; [|done].
  intros c Hc. pose proof (getValidCards_sub cp g c Hc) as Hin.
  destruct (playCard_accepts c cp g) as [g' Hg'];
    [by apply canPlayCard_valid|].
  exists g'. split; [done|].
  cbn [step]. rewrite Hres, bool_decide_eq_true_2, Hg' by done. done.
Qed.

Lemma round_never_stuck_witness :
  ∃ cp, currentPlayer round7_trick2 = Some cp ∧ hand cp round7_trick2 ≠ [] ∧
        getValidCards cp round7_trick2 ≠ [] ∧
        (∀ c, c ∈ getValidCards cp round7_trick2 →
              ∃ g', playCard c cp round7_trick2 = Ok (true, g') ∧
                    step (Play cp c) round7_trick2 = Some g') ∧
        (inFlightCards round7_trick2 = 0%nat →
         length (playerHand round7_trick2) = length (aiHand round7_trick2) ∧
         (length (playerHand round7_trick2)
          + length (trickHistory round7_trick2) = 5)%nat).
Proof.
  apply (round_never_stuck round7_trick2);
    [exact (round7_reachable _ _ round7_trick2_run) | reflexivity | reflexivity].
Defined.
